(** * H5 (Three-Wire UART) transport: a shallow embedding of
      [src/common/transport/h5_transport.cpp] and the proofs of the
      properties stated about it.

    The C++ class [H5Transport] becomes a record, its methods become
    computations in a small state-and-trace monad, and everything the
    class does to its surroundings (the lower transport, the upper
    callbacks, condition variables, the state-machine thread) is recorded
    as an event of the trace.  Blocking waits are the points where the other
    threads get to run: a call that waits takes an [interference], which
    says what the other threads have done to the instance by the time each
    of its waits returns. *)

From Stdlib Require Import ZArith List Bool Lia.
From Stdlib Require Import Ascii String.
From stdpp Require Import base decidable countable gmap.
From stdpp Require Import strings pretty.
Import ListNotations.
Local Open Scope Z_scope.

(** ** Data model *)

(** A [payload_t] is a [std::vector<uint8_t>]; a byte is its value. *)
Abbreviation payload_t := (list Z).

Inductive h5_state_t : Type :=
| STATE_START
| STATE_RESET
| STATE_UNINITIALIZED
| STATE_INITIALIZED
| STATE_ACTIVE
| STATE_FAILED
| STATE_CLOSED
| STATE_UNKNOWN.

Inductive h5_pkt_type_t : Type :=
| ACK_PACKET
| HCI_COMMAND_PACKET
| ACL_DATA_PACKET
| SYNC_DATA_PACKET
| HCI_EVENT_PACKET
| RESET_PACKET
| VENDOR_SPECIFIC_PACKET
| LINK_CONTROL_PACKET.

Inductive control_pkt_type : Type :=
| CONTROL_PKT_RESET
| CONTROL_PKT_ACK
| CONTROL_PKT_SYNC
| CONTROL_PKT_SYNC_RESPONSE
| CONTROL_PKT_SYNC_CONFIG
| CONTROL_PKT_SYNC_CONFIG_RESPONSE.

Inductive sd_rpc_app_status_t : Type :=
| PKT_SEND_MAX_RETRIES_REACHED
| PKT_UNEXPECTED
| PKT_ENCODE_ERROR
| PKT_DECODE_ERROR
| PKT_SEND_ERROR
| IO_RESOURCES_UNAVAILABLE
| RESET_PERFORMED
| CONNECTION_ACTIVE.

(** The [uint32_t] codes the public methods return; [NRF_ERROR_CODE] stands
    for any other code a lower layer hands up. *)
Inductive nrf_error_t : Type :=
| NRF_SUCCESS
| NRF_ERROR_INTERNAL
| NRF_ERROR_INVALID_STATE
| NRF_ERROR_TIMEOUT
| NRF_ERROR_CODE (code : Z).

#[global] Instance h5_state_t_eq_dec : EqDecision h5_state_t.
Proof. solve_decision. Defined.

#[global] Instance h5_pkt_type_t_eq_dec : EqDecision h5_pkt_type_t.
Proof. solve_decision. Defined.

#[global] Instance sd_rpc_app_status_t_eq_dec : EqDecision sd_rpc_app_status_t.
Proof. solve_decision. Defined.

#[global] Instance nrf_error_t_eq_dec : EqDecision nrf_error_t.
Proof. solve_decision. Defined.

Definition h5_state_index (st : h5_state_t) : nat :=
  match st with
  | STATE_START => 0 | STATE_RESET => 1 | STATE_UNINITIALIZED => 2
  | STATE_INITIALIZED => 3 | STATE_ACTIVE => 4 | STATE_FAILED => 5
  | STATE_CLOSED => 6 | STATE_UNKNOWN => 7
  end%nat.

Definition h5_state_of_index (n : nat) : h5_state_t :=
  match n with
  | 0 => STATE_START | 1 => STATE_RESET | 2 => STATE_UNINITIALIZED
  | 3 => STATE_INITIALIZED | 4 => STATE_ACTIVE | 5 => STATE_FAILED
  | 6 => STATE_CLOSED | _ => STATE_UNKNOWN
  end%nat.

#[global] Instance h5_state_t_countable : Countable h5_state_t.
Proof.
  apply (inj_countable' h5_state_index h5_state_of_index).
  intros []; reflexivity.
Defined.

(** *** Exit criteria

    The classes derived from [ExitCriterias] form a tagged union; the first
    two flags of every record are the ones of the base class. *)
Inductive ExitCriterias : Type :=
| StartExitCriterias (ioResourceError close isOpened : bool)
| ResetExitCriterias (ioResourceError close resetSent resetWait : bool)
| UninitializedExitCriterias (ioResourceError close syncSent syncRspReceived : bool)
| InitializedExitCriterias (ioResourceError close syncConfigSent syncConfigRspReceived : bool)
| ActiveExitCriterias (ioResourceError close irrecoverableSyncError syncReceived : bool).

Definition ioResourceError (e : ExitCriterias) : bool :=
  match e with
  | StartExitCriterias io _ _ => io
  | ResetExitCriterias io _ _ _ => io
  | UninitializedExitCriterias io _ _ _ => io
  | InitializedExitCriterias io _ _ _ => io
  | ActiveExitCriterias io _ _ _ => io
  end.

Definition close_flag (e : ExitCriterias) : bool :=
  match e with
  | StartExitCriterias _ c _ => c
  | ResetExitCriterias _ c _ _ => c
  | UninitializedExitCriterias _ c _ _ => c
  | InitializedExitCriterias _ c _ _ => c
  | ActiveExitCriterias _ c _ _ => c
  end.

(** [exitCriteria->ioResourceError = true] through a base-class pointer. *)
Definition set_ioResourceError (e : ExitCriterias) : ExitCriterias :=
  match e with
  | StartExitCriterias _ c o => StartExitCriterias true c o
  | ResetExitCriterias _ c a b => ResetExitCriterias true c a b
  | UninitializedExitCriterias _ c a b => UninitializedExitCriterias true c a b
  | InitializedExitCriterias _ c a b => InitializedExitCriterias true c a b
  | ActiveExitCriterias _ c a b => ActiveExitCriterias true c a b
  end.

(** [exitCriteria->close = true] through a base-class pointer. *)
Definition set_close (e : ExitCriterias) : ExitCriterias :=
  match e with
  | StartExitCriterias io _ o => StartExitCriterias io true o
  | ResetExitCriterias io _ a b => ResetExitCriterias io true a b
  | UninitializedExitCriterias io _ a b => UninitializedExitCriterias io true a b
  | InitializedExitCriterias io _ a b => InitializedExitCriterias io true a b
  | ActiveExitCriterias io _ a b => ActiveExitCriterias io true a b
  end.

(** Modelled from the spec: the classes are declared in [h5_transport.h],
    which is not among the sources.  "Each record exposes is-fulfilled = any
    terminal flag set", the terminal flags being [close], [ioResourceError]
    and the flags of the state's own success edge. *)
Definition isFullfilled (e : ExitCriterias) : bool :=
  match e with
  | StartExitCriterias io c o => io || c || o
  | ResetExitCriterias io c sent wait => io || c || (sent && wait)
  | UninitializedExitCriterias io c sent rsp => io || c || (sent && rsp)
  | InitializedExitCriterias io c sent rsp => io || c || (sent && rsp)
  | ActiveExitCriterias io c err sync => io || c || sync || err
  end.

(** Modelled from the spec: [reset()] of the same missing classes.  "Records
    are reset on entry to their state": every flag goes back to false. *)
Definition reset (e : ExitCriterias) : ExitCriterias :=
  match e with
  | StartExitCriterias _ _ _ => StartExitCriterias false false false
  | ResetExitCriterias _ _ _ _ => ResetExitCriterias false false false false
  | UninitializedExitCriterias _ _ _ _ => UninitializedExitCriterias false false false false
  | InitializedExitCriterias _ _ _ _ => InitializedExitCriterias false false false false
  | ActiveExitCriterias _ _ _ _ => ActiveExitCriterias false false false false
  end.

(** The dynamic type of a record, which [dynamic_cast] tests. *)
Definition class_of (e : ExitCriterias) : h5_state_t :=
  match e with
  | StartExitCriterias _ _ _ => STATE_START
  | ResetExitCriterias _ _ _ _ => STATE_RESET
  | UninitializedExitCriterias _ _ _ _ => STATE_UNINITIALIZED
  | InitializedExitCriterias _ _ _ _ => STATE_INITIALIZED
  | ActiveExitCriterias _ _ _ _ => STATE_ACTIVE
  end.

(** *** The transport instance *)

(** The members of the base class [Transport] that the H5 layer reads: for
    each upper callback, whether one is registered (non-null). *)
Record Transport : Type := mkTransport {
  upperStatusCallback : bool;
  upperDataCallback : bool;
  upperLogCallback : bool
}.

Record H5Transport : Type := mkH5Transport {
  base : Transport;
  seqNum : Z;                       (* uint8_t *)
  ackNum : Z;                       (* uint8_t *)
  c0Found : bool;
  unprocessedData : payload_t;
  lastPacket : payload_t;
  incomingPacketCount : Z;
  outgoingPacketCount : Z;
  errorPacketCount : Z;
  currentState : h5_state_t;
  stateMachineReady : bool;
  exitCriterias : gmap h5_state_t ExitCriterias;
  statusCallback : bool;            (* the bound statusHandler, set by open *)
  stateMachineThread : bool;        (* joinable() *)
  retransmissionInterval : Z        (* milliseconds *)
}.

Definition set_base v s := mkH5Transport
  v (seqNum s) (ackNum s) (c0Found s) (unprocessedData s) (lastPacket s)
  (incomingPacketCount s) (outgoingPacketCount s) (errorPacketCount s)
  (currentState s) (stateMachineReady s) (exitCriterias s) (statusCallback s)
  (stateMachineThread s) (retransmissionInterval s).
Definition set_seqNum v s := mkH5Transport
  (base s) v (ackNum s) (c0Found s) (unprocessedData s) (lastPacket s)
  (incomingPacketCount s) (outgoingPacketCount s) (errorPacketCount s)
  (currentState s) (stateMachineReady s) (exitCriterias s) (statusCallback s)
  (stateMachineThread s) (retransmissionInterval s).
Definition set_ackNum v s := mkH5Transport
  (base s) (seqNum s) v (c0Found s) (unprocessedData s) (lastPacket s)
  (incomingPacketCount s) (outgoingPacketCount s) (errorPacketCount s)
  (currentState s) (stateMachineReady s) (exitCriterias s) (statusCallback s)
  (stateMachineThread s) (retransmissionInterval s).
Definition set_c0Found v s := mkH5Transport
  (base s) (seqNum s) (ackNum s) v (unprocessedData s) (lastPacket s)
  (incomingPacketCount s) (outgoingPacketCount s) (errorPacketCount s)
  (currentState s) (stateMachineReady s) (exitCriterias s) (statusCallback s)
  (stateMachineThread s) (retransmissionInterval s).
Definition set_unprocessedData v s := mkH5Transport
  (base s) (seqNum s) (ackNum s) (c0Found s) v (lastPacket s)
  (incomingPacketCount s) (outgoingPacketCount s) (errorPacketCount s)
  (currentState s) (stateMachineReady s) (exitCriterias s) (statusCallback s)
  (stateMachineThread s) (retransmissionInterval s).
Definition set_lastPacket v s := mkH5Transport
  (base s) (seqNum s) (ackNum s) (c0Found s) (unprocessedData s) v
  (incomingPacketCount s) (outgoingPacketCount s) (errorPacketCount s)
  (currentState s) (stateMachineReady s) (exitCriterias s) (statusCallback s)
  (stateMachineThread s) (retransmissionInterval s).
Definition set_incomingPacketCount v s := mkH5Transport
  (base s) (seqNum s) (ackNum s) (c0Found s) (unprocessedData s)
  (lastPacket s) v (outgoingPacketCount s) (errorPacketCount s)
  (currentState s) (stateMachineReady s) (exitCriterias s) (statusCallback s)
  (stateMachineThread s) (retransmissionInterval s).
Definition set_outgoingPacketCount v s := mkH5Transport
  (base s) (seqNum s) (ackNum s) (c0Found s) (unprocessedData s)
  (lastPacket s) (incomingPacketCount s) v (errorPacketCount s)
  (currentState s) (stateMachineReady s) (exitCriterias s) (statusCallback s)
  (stateMachineThread s) (retransmissionInterval s).
Definition set_errorPacketCount v s := mkH5Transport
  (base s) (seqNum s) (ackNum s) (c0Found s) (unprocessedData s)
  (lastPacket s) (incomingPacketCount s) (outgoingPacketCount s) v
  (currentState s) (stateMachineReady s) (exitCriterias s) (statusCallback s)
  (stateMachineThread s) (retransmissionInterval s).
Definition set_currentState v s := mkH5Transport
  (base s) (seqNum s) (ackNum s) (c0Found s) (unprocessedData s)
  (lastPacket s) (incomingPacketCount s) (outgoingPacketCount s)
  (errorPacketCount s) v (stateMachineReady s) (exitCriterias s)
  (statusCallback s) (stateMachineThread s) (retransmissionInterval s).
Definition set_stateMachineReady v s := mkH5Transport
  (base s) (seqNum s) (ackNum s) (c0Found s) (unprocessedData s)
  (lastPacket s) (incomingPacketCount s) (outgoingPacketCount s)
  (errorPacketCount s) (currentState s) v (exitCriterias s) (statusCallback s)
  (stateMachineThread s) (retransmissionInterval s).
Definition set_exitCriterias v s := mkH5Transport
  (base s) (seqNum s) (ackNum s) (c0Found s) (unprocessedData s)
  (lastPacket s) (incomingPacketCount s) (outgoingPacketCount s)
  (errorPacketCount s) (currentState s) (stateMachineReady s) v
  (statusCallback s) (stateMachineThread s) (retransmissionInterval s).
Definition set_statusCallback v s := mkH5Transport
  (base s) (seqNum s) (ackNum s) (c0Found s) (unprocessedData s)
  (lastPacket s) (incomingPacketCount s) (outgoingPacketCount s)
  (errorPacketCount s) (currentState s) (stateMachineReady s)
  (exitCriterias s) v (stateMachineThread s) (retransmissionInterval s).
Definition set_stateMachineThread v s := mkH5Transport
  (base s) (seqNum s) (ackNum s) (c0Found s) (unprocessedData s)
  (lastPacket s) (incomingPacketCount s) (outgoingPacketCount s)
  (errorPacketCount s) (currentState s) (stateMachineReady s)
  (exitCriterias s) (statusCallback s) v (retransmissionInterval s).

(** *** Events *)

Inductive condition_t : Type :=
| stateMachineChange
| ackWaitCondition
| stateWaitCondition.

Inductive event : Type :=
| EvLowerOpen                                       (* nextTransportLayer->open *)
| EvLowerSend (packet : payload_t)                  (* nextTransportLayer->send *)
| EvLowerClose                                      (* nextTransportLayer->close *)
| EvTransportClose                                  (* Transport::close *)
| EvUpperStatus (code : sd_rpc_app_status_t)        (* upperStatusCallback *)
| EvUpperData (data : payload_t)                    (* upperDataCallback *)
| EvLog                                             (* a log line; its text is not modelled *)
| EvLogStateTransition (from to : h5_state_t)       (* logStateTransition *)
| EvNotify (cv : condition_t)                       (* notify_all *)
| EvWait (cv : condition_t) (timeout_ms : option Z) (* wait / wait_for *)
| EvThreadStart                                     (* std::thread(stateMachineWorker) *)
| EvThreadJoin                                      (* stateMachineThread.join() *)
| EvProcessPacket (packet : payload_t).             (* dataHandler calls processPacket *)

(** ** The monad: state, trace, and the two ways of not returning *)

(** [Fault] is a call on a null [std::function] or a write through a null
    pointer; [Pending] is a call that has not returned: blocked in a wait
    whose condition the other threads never establish, or still looping when
    the observation ends.  Both keep the events that happened before. *)
Inductive result (A : Type) : Type :=
| Ok (a : A) (s : H5Transport) (tr : list event)
| Fault (tr : list event)
| Pending (tr : list event).
Arguments Ok {A} a s tr.
Arguments Fault {A} tr.
Arguments Pending {A} tr.

Definition M (A : Type) : Type := H5Transport -> result A.

Definition prepend {A} (t : list event) (r : result A) : result A :=
  match r with
  | Ok a s t' => Ok a s (t ++ t')
  | Fault t' => Fault (t ++ t')
  | Pending t' => Pending (t ++ t')
  end.

Definition ret {A} (a : A) : M A := fun s => Ok a s [].

Definition bind {A B} (m : M A) (k : A -> M B) : M B := fun s =>
  match m s with
  | Ok a s1 t1 => prepend t1 (k a s1)
  | Fault t1 => Fault t1
  | Pending t1 => Pending t1
  end.

Definition gets {A} (f : H5Transport -> A) : M A := fun s => Ok (f s) s [].
Definition modify (f : H5Transport -> H5Transport) : M unit := fun s => Ok tt (f s) [].
Definition emit (e : event) : M unit := fun s => Ok tt s [e].
Definition fault {A} : M A := fun _ => Fault [].
Definition pending {A} : M A := fun _ => Pending [].

Declare Scope h5_scope.
Delimit Scope h5_scope with h5.
Notation "'let*' x ':=' m 'in' k" := (bind m (fun x => k))
  (at level 10, x name, m at level 100, k at level 200) : h5_scope.
Notation "m >> k" := (bind m (fun _ => k))
  (at level 90, right associativity) : h5_scope.
Local Open Scope h5_scope.

Definition trace_of {A} (r : result A) : list event :=
  match r with Ok _ _ t | Fault t | Pending t => t end.

(** ** Test support: [checkPattern] and the control-packet predicates *)

(** The loop of [checkPattern]: [packet] is what lies from [packetItr] to
    [packet.end()]. *)
Fixpoint checkPattern_from (packet pattern : payload_t) {struct pattern} : bool :=
  match pattern with
  | [] => true
  | patternEntry :: pattern' =>
      match packet with
      | [] => false                                   (* packetItr == packet.end() *)
      | b :: packet' =>
          if b =? patternEntry then checkPattern_from packet' pattern' else false
      end
  end.

Definition checkPattern (packet : payload_t) (offset : Z) (pattern : payload_t) : bool :=
  if offset >=? Z.of_nat (length packet) then false
  else checkPattern_from (skipn (Z.to_nat offset) packet) pattern.

(** [offset] stands for the [const uint8_t] of the source: a call gives a
    value in 0..255 (see [uint8_offset] below for a longer prefix).

    The byte patterns are those of the table that heads the source file. *)
Definition isSyncPacket (packet : payload_t) (offset : Z) : bool :=
  checkPattern packet offset [0x01; 0x7e].
Definition isSyncResponsePacket (packet : payload_t) (offset : Z) : bool :=
  checkPattern packet offset [0x02; 0x7d].
Definition isSyncConfigPacket (packet : payload_t) (offset : Z) : bool :=
  checkPattern packet offset [0x03; 0xfc].
Definition isSyncConfigResponsePacket (packet : payload_t) (offset : Z) : bool :=
  checkPattern packet offset [0x04; 0x7b].
Definition isResetPacket (packet : payload_t) (offset : Z) : bool :=
  checkPattern packet offset [0x05].

(** ** The external collaborators: [h5.h] and [slip.h]

    The two codecs are not part of this class.  A decoder returns [None]
    where the C function returns an error code; [h5_decode] returns the
    fields [processPacket] asks for. *)
Record h5_header : Type := mkH5Header {
  h5Payload : payload_t;
  seq_num : Z;
  ack_num : Z;
  reliable_packet : bool;
  packet_type : h5_pkt_type_t
}.

Class Codec : Type := mkCodec {
  slip_decode : payload_t -> option payload_t;
  slip_encode : payload_t -> payload_t;
  h5_decode : payload_t -> option h5_header;
  (* payload, seq_num, ack_num, crc_present, reliable_packet, packet_type *)
  h5_encode : payload_t -> Z -> Z -> bool -> bool -> h5_pkt_type_t -> payload_t;
  SyncConfigField : Z
}.

(** ** Pointers into the table of exit criteria

    An [ExitCriterias*] is null or points to the record the table holds for
    some state; the records are allocated once, in [setupStateMachine]. *)
Definition exit_ptr : Type := option h5_state_t.

(** [exitCriterias[st]]: a key the map does not have yields a null pointer
    (and [operator[]] stores that null pointer under the key, which no later
    lookup can tell from the key being absent). *)
Definition exitCriterias_at (st : h5_state_t) : M exit_ptr :=
  gets (fun s => match exitCriterias s !! st with Some _ => Some st | None => None end).

(** [dynamic_cast<C*>(p)], the class [C] named by the state it belongs to. *)
Definition dynamic_cast (cls : h5_state_t) (p : exit_ptr) : M exit_ptr :=
  gets (fun s =>
    match p with
    | None => None
    | Some st =>
        match exitCriterias s !! st with
        | Some e => if decide (class_of e = cls) then Some st else None
        | None => None
        end
    end).

(** Reading and writing through a pointer; through a null one it is a fault. *)
Definition read_exit (p : exit_ptr) : M ExitCriterias := fun s =>
  match p with
  | None => Fault []
  | Some st =>
      match exitCriterias s !! st with
      | Some e => Ok e s []
      | None => Fault []
      end
  end.

Definition write_exit (p : exit_ptr) (f : ExitCriterias -> ExitCriterias) : M unit := fun s =>
  match p with
  | None => Fault []
  | Some st =>
      match exitCriterias s !! st with
      | Some e => Ok tt (set_exitCriterias (<[st := f e]> (exitCriterias s)) s) []
      | None => Fault []
      end
  end.

Definition isOpened (e : ExitCriterias) : bool :=
  match e with StartExitCriterias _ _ o => o | _ => false end.
Definition resetSent (e : ExitCriterias) : bool :=
  match e with ResetExitCriterias _ _ a _ => a | _ => false end.
Definition resetWait (e : ExitCriterias) : bool :=
  match e with ResetExitCriterias _ _ _ b => b | _ => false end.
Definition syncSent (e : ExitCriterias) : bool :=
  match e with UninitializedExitCriterias _ _ a _ => a | _ => false end.
Definition syncRspReceived (e : ExitCriterias) : bool :=
  match e with UninitializedExitCriterias _ _ _ b => b | _ => false end.
Definition syncConfigSent (e : ExitCriterias) : bool :=
  match e with InitializedExitCriterias _ _ a _ => a | _ => false end.
Definition syncConfigRspReceived (e : ExitCriterias) : bool :=
  match e with InitializedExitCriterias _ _ _ b => b | _ => false end.
Definition irrecoverableSyncError (e : ExitCriterias) : bool :=
  match e with ActiveExitCriterias _ _ a _ => a | _ => false end.
Definition syncReceived (e : ExitCriterias) : bool :=
  match e with ActiveExitCriterias _ _ _ b => b | _ => false end.

Definition set_isOpened (e : ExitCriterias) : ExitCriterias :=
  match e with StartExitCriterias io c _ => StartExitCriterias io c true | _ => e end.
Definition set_resetSent (e : ExitCriterias) : ExitCriterias :=
  match e with ResetExitCriterias io c _ b => ResetExitCriterias io c true b | _ => e end.
Definition set_resetWait (e : ExitCriterias) : ExitCriterias :=
  match e with ResetExitCriterias io c a _ => ResetExitCriterias io c a true | _ => e end.
Definition set_syncSent (e : ExitCriterias) : ExitCriterias :=
  match e with
  | UninitializedExitCriterias io c _ b => UninitializedExitCriterias io c true b
  | _ => e
  end.
Definition set_syncRspReceived (e : ExitCriterias) : ExitCriterias :=
  match e with
  | UninitializedExitCriterias io c a _ => UninitializedExitCriterias io c a true
  | _ => e
  end.
Definition set_syncConfigSent (e : ExitCriterias) : ExitCriterias :=
  match e with
  | InitializedExitCriterias io c _ b => InitializedExitCriterias io c true b
  | _ => e
  end.
Definition set_syncConfigRspReceived (e : ExitCriterias) : ExitCriterias :=
  match e with
  | InitializedExitCriterias io c a _ => InitializedExitCriterias io c a true
  | _ => e
  end.
Definition set_irrecoverableSyncError (e : ExitCriterias) : ExitCriterias :=
  match e with ActiveExitCriterias io c _ b => ActiveExitCriterias io c true b | _ => e end.
Definition set_syncReceived (e : ExitCriterias) : ExitCriterias :=
  match e with ActiveExitCriterias io c a _ => ActiveExitCriterias io c a true | _ => e end.

(** ** Constants *)

Definition NON_ACTIVE_STATE_TIMEOUT : Z := 250.
Definition PACKET_RETRANSMISSIONS : nat := 6.
Definition OPEN_WAIT_TIMEOUT : Z := 2000.
Definition RESET_WAIT_DURATION : Z := 300.

(** What the other threads have done to the instance by the time the [k]-th
    wait of a call returns. *)
Definition interference : Type := nat -> H5Transport -> H5Transport.

(** [cv.wait_for(lock, timeout, pred)] and [cv.wait(lock)]: the lock is
    released, the other threads run, the lock is taken again. *)
Definition wait_on (cv : condition_t) (timeout_ms : option Z)
    (others : H5Transport -> H5Transport) : M unit :=
  emit (EvWait cv timeout_ms) >> modify others.

(** ** Construction *)

(** The table [setupStateMachine] fills. *)
Definition setupStateMachine_exitCriterias : gmap h5_state_t ExitCriterias :=
  <[STATE_ACTIVE := ActiveExitCriterias false false false false]>
  (<[STATE_INITIALIZED := InitializedExitCriterias false false false false]>
  (<[STATE_UNINITIALIZED := UninitializedExitCriterias false false false false]>
  (<[STATE_RESET := ResetExitCriterias false false false false]>
  (<[STATE_START := StartExitCriterias false false false]> ∅)))).

(** [H5Transport::H5Transport(_nextTransportLayer, retransmission_interval)] *)
Definition H5Transport_new (retransmission_interval : Z) : H5Transport :=
  {| base := mkTransport false false false;
     seqNum := 0; ackNum := 0; c0Found := false;
     unprocessedData := []; lastPacket := [];
     incomingPacketCount := 0; outgoingPacketCount := 0; errorPacketCount := 0;
     currentState := STATE_START;
     stateMachineReady := false;
     exitCriterias := setupStateMachine_exitCriterias;
     statusCallback := false;
     stateMachineThread := false;
     retransmissionInterval := retransmission_interval |}.

(** ** The methods of [H5Transport] *)

Section Methods.
Context {codec : Codec}.

Definition incrementSeqNum : M unit :=
  modify (fun s => set_seqNum ((seqNum s + 1) mod 256) s) >>   (* seqNum++ *)
  modify (fun s => set_seqNum (Z.land (seqNum s) 0x07) s).

Definition incrementAckNum : M unit :=
  modify (fun s => set_ackNum ((ackNum s + 1) mod 256) s) >>   (* ackNum++ *)
  modify (fun s => set_ackNum (Z.land (ackNum s) 0x07) s).

(** The packet counters only feed the log lines; their width is declared in
    the header and nothing here depends on it.  The line is the event
    [EvLog]: its text, which [h5PktToString] builds, is described apart
    (the debug texts below), and a read past the end of a payload while the
    text is built is not a fault of this definition. *)
Definition logPacket (outgoing : bool) (packet : payload_t) : M unit :=
  (if outgoing
   then modify (fun s => set_outgoingPacketCount (outgoingPacketCount s + 1) s)
   else modify (fun s => set_incomingPacketCount (incomingPacketCount s + 1) s)) >>
  emit EvLog.

Definition log : M unit := emit EvLog.

Definition logStateTransition (from to : h5_state_t) : M unit :=
  emit (EvLogStateTransition from to).

(** [pkt_pattern[type]]; the map has no entry for [CONTROL_PKT_ACK], so
    [operator[]] yields an empty vector for it. *)
Definition pkt_pattern (type : control_pkt_type) : payload_t :=
  match type with
  | CONTROL_PKT_RESET => []
  | CONTROL_PKT_SYNC => [0x01; 0x7e]
  | CONTROL_PKT_SYNC_RESPONSE => [0x02; 0x7d]
  | CONTROL_PKT_SYNC_CONFIG => [0x03; 0xfc; SyncConfigField]
  | CONTROL_PKT_SYNC_CONFIG_RESPONSE => [0x04; 0x7b; SyncConfigField]
  | CONTROL_PKT_ACK => []
  end.

Definition sendControlPacket (type : control_pkt_type) : M unit :=
  let h5_packet :=
    match type with
    | CONTROL_PKT_RESET => RESET_PACKET
    | CONTROL_PKT_SYNC
    | CONTROL_PKT_SYNC_RESPONSE
    | CONTROL_PKT_SYNC_CONFIG
    | CONTROL_PKT_SYNC_CONFIG_RESPONSE => LINK_CONTROL_PACKET
    | CONTROL_PKT_ACK => ACK_PACKET
    end in
  let payload := pkt_pattern type in
  let* ack := gets ackNum in
  let h5Packet :=
    h5_encode payload 0
      (match type with CONTROL_PKT_ACK => ack | _ => 0 end)
      false false h5_packet in
  let slipPacket := slip_encode h5Packet in
  logPacket true h5Packet >>
  emit (EvLowerSend slipPacket).

Definition statusHandler (code : sd_rpc_app_status_t) : M unit :=
  (if decide (code = IO_RESOURCES_UNAVAILABLE) then
     let* st := gets currentState in
     let* exitCriteria := exitCriterias_at st in
     (match exitCriteria with
      | Some _ => write_exit exitCriteria set_ioResourceError
      | None => ret tt
      end) >>
     emit (EvNotify stateMachineChange)
   else ret tt) >>
  let* cb := gets (fun s => upperStatusCallback (base s)) in
  if cb then emit (EvUpperStatus code) else ret tt.

(** [upperDataCallback(data, length)]: calling an empty callback is a fault. *)
Definition call_upperDataCallback (data : payload_t) : M unit :=
  let* cb := gets (fun s => upperDataCallback (base s)) in
  if cb then emit (EvUpperData data) else fault.

(** The dispatcher.  It calls the control-packet predicates without an
    offset, so with the default of their declaration, the start of the
    payload.  The locks it takes on [stateMachineMutex] and [ackMutex]
    around its writes are not represented: a dispatch is one step for the
    other threads, and [currentState] is read once. *)
Definition processPacket (packet : payload_t) : M unit :=
  match slip_decode packet with
  | None => modify (fun s => set_errorPacketCount (errorPacketCount s + 1) s)
  | Some slipPayload =>
  logPacket false slipPayload >>
  match h5_decode slipPayload with
  | None => modify (fun s => set_errorPacketCount (errorPacketCount s + 1) s)
  | Some hdr =>
  let* st := gets currentState in
  if decide (st = STATE_RESET) then
    (* Ignore packets received in this state. *)
    emit (EvNotify stateMachineChange)
  else if decide (packet_type hdr = LINK_CONTROL_PACKET) then
    if decide (st = STATE_UNINITIALIZED) then
      if isSyncResponsePacket (h5Payload hdr) 0 then
        let* p := exitCriterias_at st in
        let* exit := dynamic_cast STATE_UNINITIALIZED p in
        write_exit exit set_syncRspReceived >>
        emit (EvNotify stateMachineChange)
      else if isSyncPacket (h5Payload hdr) 0 then
        sendControlPacket CONTROL_PKT_SYNC_RESPONSE
      else ret tt
    else if decide (st = STATE_INITIALIZED) then
      let* p := exitCriterias_at st in
      let* exit := dynamic_cast STATE_INITIALIZED p in
      if isSyncConfigResponsePacket (h5Payload hdr) 0 then
        write_exit exit set_syncConfigRspReceived >>
        emit (EvNotify stateMachineChange)
      else if isSyncConfigPacket (h5Payload hdr) 0 then
        sendControlPacket CONTROL_PKT_SYNC_CONFIG_RESPONSE >>
        emit (EvNotify stateMachineChange)
      else if isSyncPacket (h5Payload hdr) 0 then
        sendControlPacket CONTROL_PKT_SYNC_RESPONSE >>
        emit (EvNotify stateMachineChange)
      else ret tt
    else if decide (st = STATE_ACTIVE) then
      let* p := exitCriterias_at st in
      let* exit := dynamic_cast STATE_ACTIVE p in
      if isSyncPacket (h5Payload hdr) 0 then
        write_exit exit set_syncReceived >>
        emit (EvNotify stateMachineChange)
      else if isSyncConfigPacket (h5Payload hdr) 0 then
        sendControlPacket CONTROL_PKT_SYNC_CONFIG_RESPONSE
      else ret tt
    else ret tt
  else if decide (packet_type hdr = VENDOR_SPECIFIC_PACKET) then
    if decide (st = STATE_ACTIVE) then
      if reliable_packet hdr then
        let* ack := gets ackNum in
        if seq_num hdr =? ack then
          incrementAckNum >>
          sendControlPacket CONTROL_PKT_ACK >>
          call_upperDataCallback (h5Payload hdr)
        else
          sendControlPacket CONTROL_PKT_ACK
      else ret tt
    else ret tt
  else if decide (packet_type hdr = ACK_PACKET) then
    let* seq := gets seqNum in
    if ack_num hdr =? Z.land (seq + 1) 0x07 then
      (* Received a packet with valid ack_num *)
      incrementSeqNum >>
      emit (EvNotify ackWaitCondition)
    else if ack_num hdr =? seq then
      (* Discard packet, we assume that we have received a reply from a
         previous packet *)
      ret tt
    else
      let* p := exitCriterias_at st in
      let* exit := dynamic_cast STATE_ACTIVE p in
      write_exit exit set_irrecoverableSyncError >>
      emit (EvNotify stateMachineChange)
  else ret tt
  end
  end.

(** One round of the [for] loop of [dataHandler], [packet] being the local
    buffer; the result is the buffer after the round. *)
Definition dataHandler_byte (b : Z) (packet : payload_t) : M payload_t :=
  let packet := packet ++ [b] in                      (* packet.push_back(data[i]) *)
  if b =? 0xC0 then
    let* c0 := gets c0Found in
    if c0 then
      (* End of packet found *)
      if (length packet =? 2)%nat then
        ret [0xc0]                                    (* clear, push_back, continue *)
      else
        emit (EvProcessPacket packet) >>
        processPacket packet >>
        modify (set_unprocessedData []) >>
        modify (set_c0Found false) >>
        ret []
    else
      (* Start of packet found *)
      modify (set_c0Found true) >>
      ret [0xC0]
  else ret packet.

Fixpoint dataHandler_loop (data : list Z) (packet : payload_t) : M payload_t :=
  match data with
  | [] => ret packet
  | b :: data' =>
      let* packet' := dataHandler_byte b packet in
      dataHandler_loop data' packet'
  end.

Definition dataHandler (data : list Z) : M unit :=
  let* unprocessed := gets unprocessedData in
  let packet :=
    match unprocessed with
    | [] => []
    | _ :: _ => unprocessed                           (* packet.insert(...) *)
    end in
  let* packet' := dataHandler_loop data packet in
  match packet' with
  | [] => ret tt
  | _ :: _ => modify (set_unprocessedData []) >> modify (set_unprocessedData packet')
  end.

(** *** The reliable sender *)

(** The [while (remainingRetransmissions--)] loop of [send]; [k] counts the
    waits made so far. *)
Fixpoint send_loop (others : interference) (h5EncodedPacket : payload_t)
    (remainingRetransmissions k : nat) : M nrf_error_t :=
  match remainingRetransmissions with
  | O =>
      modify (set_lastPacket []) >>
      ret NRF_ERROR_TIMEOUT
  | S remaining =>
      logPacket true h5EncodedPacket >>
      (let* last := gets lastPacket in emit (EvLowerSend last)) >>
      let* seqNumBefore := gets seqNum in
      let* interval := gets retransmissionInterval in
      wait_on ackWaitCondition (Some interval) (others k) >>
      let* seq := gets seqNum in
      if negb (seq =? seqNumBefore) then
        modify (set_lastPacket []) >>
        ret NRF_SUCCESS
      else send_loop others h5EncodedPacket remaining (S k)
  end.

Definition send (others : interference) (data : payload_t) : M nrf_error_t :=
  let* st := gets currentState in
  if decide (st <> STATE_ACTIVE) then ret NRF_ERROR_INVALID_STATE
  else
    let* seq := gets seqNum in
    let* ack := gets ackNum in
    let h5EncodedPacket := h5_encode data seq ack true true VENDOR_SPECIFIC_PACKET in
    let encodedPacket := slip_encode h5EncodedPacket in
    modify (set_lastPacket []) >>
    modify (set_lastPacket encodedPacket) >>
    send_loop others h5EncodedPacket PACKET_RETRANSMISSIONS 0.

Definition state : M h5_state_t := gets currentState.

(** *** The state machine *)

Definition stateAction_START (others : interference) : M h5_state_t :=
  let* p := exitCriterias_at STATE_START in
  let* exit := dynamic_cast STATE_START p in
  write_exit exit reset >>
  modify (set_stateMachineReady true) >>
  emit (EvNotify stateMachineChange) >>
  (* do { wait } while (!exit->isFullfilled()) *)
  wait_on stateMachineChange None (others 0%nat) >>
  let* e := read_exit exit in
  if negb (isFullfilled e) then pending
  else if ioResourceError e then ret STATE_FAILED
  else if close_flag e then ret STATE_CLOSED
  else if isOpened e then ret STATE_RESET
  else ret STATE_FAILED.

Definition stateAction_RESET (others : interference) : M h5_state_t :=
  let* p := exitCriterias_at STATE_RESET in
  let* exit := dynamic_cast STATE_RESET p in
  write_exit exit reset >>
  sendControlPacket CONTROL_PKT_RESET >>
  (let* cb := gets statusCallback in
   if cb then statusHandler RESET_PERFORMED else ret tt) >>
  write_exit exit set_resetSent >>
  wait_on stateMachineChange (Some RESET_WAIT_DURATION) (others 0%nat) >>
  write_exit exit set_resetWait >>
  let* e := read_exit exit in
  if ioResourceError e then ret STATE_FAILED
  else if close_flag e then ret STATE_CLOSED
  else if resetSent e && resetWait e then ret STATE_UNINITIALIZED
  else ret STATE_FAILED.

(** The [while (!exit->isFullfilled() && syncRetransmission > 0)] loop of the
    two handshake states; it returns what is left of [syncRetransmission]. *)
Fixpoint sync_loop (others : interference) (exit : exit_ptr)
    (type : control_pkt_type) (set_sent : ExitCriterias -> ExitCriterias)
    (syncRetransmission k : nat) : M nat :=
  let* e := read_exit exit in
  match syncRetransmission with
  | O => ret O
  | S remaining =>
      if isFullfilled e then ret syncRetransmission
      else
        sendControlPacket type >>
        write_exit exit set_sent >>
        wait_on stateMachineChange (Some NON_ACTIVE_STATE_TIMEOUT) (others k) >>
        sync_loop others exit type set_sent remaining (S k)
  end.

Definition stateAction_UNINITIALIZED (others : interference) : M h5_state_t :=
  let* p := exitCriterias_at STATE_UNINITIALIZED in
  let* exit := dynamic_cast STATE_UNINITIALIZED p in
  write_exit exit reset >>
  let* syncRetransmission :=
    sync_loop others exit CONTROL_PKT_SYNC set_syncSent PACKET_RETRANSMISSIONS 0 in
  let* e := read_exit exit in
  if ioResourceError e then ret STATE_FAILED
  else if close_flag e then ret STATE_CLOSED
  else if syncSent e && syncRspReceived e then ret STATE_INITIALIZED
  else
    (if (syncRetransmission <=? 0)%nat
     then statusHandler PKT_SEND_MAX_RETRIES_REACHED else ret tt) >>
    ret STATE_FAILED.

Definition stateAction_INITIALIZED (others : interference) : M h5_state_t :=
  let* p := exitCriterias_at STATE_INITIALIZED in
  let* exit := dynamic_cast STATE_INITIALIZED p in
  write_exit exit reset >>
  let* syncRetransmission :=
    sync_loop others exit CONTROL_PKT_SYNC_CONFIG set_syncConfigSent
      PACKET_RETRANSMISSIONS 0 in
  let* e := read_exit exit in
  if ioResourceError e then ret STATE_FAILED
  else if close_flag e then ret STATE_CLOSED
  else if syncConfigSent e && syncConfigRspReceived e then ret STATE_ACTIVE
  else
    (if (syncRetransmission <=? 0)%nat
     then statusHandler PKT_SEND_MAX_RETRIES_REACHED else ret tt) >>
    ret STATE_FAILED.

Definition stateAction_ACTIVE (others : interference) : M h5_state_t :=
  let* p := exitCriterias_at STATE_ACTIVE in
  let* exit := dynamic_cast STATE_ACTIVE p in
  write_exit exit reset >>
  modify (set_seqNum 0) >>
  modify (set_ackNum 0) >>
  statusHandler CONNECTION_ACTIVE >>
  (* while (!exit->isFullfilled()) wait *)
  (let* e := read_exit exit in
   if isFullfilled e then ret tt
   else
     wait_on stateMachineChange None (others 0%nat) >>
     let* e' := read_exit exit in
     if isFullfilled e' then ret tt else pending) >>
  let* e := read_exit exit in
  if ioResourceError e then ret STATE_FAILED
  else if close_flag e then ret STATE_CLOSED
  else if syncReceived e || irrecoverableSyncError e then ret STATE_RESET
  else ret STATE_FAILED.

Definition stateAction_FAILED : M h5_state_t := log >> ret STATE_FAILED.

Definition stateAction_CLOSED : M h5_state_t := log >> ret STATE_CLOSED.

(** [stateActions[st]()]; the map holds no closure for [STATE_UNKNOWN], and
    calling the empty [std::function] it yields is a fault. *)
Definition stateActions (st : h5_state_t) (others : interference) : M h5_state_t :=
  match st with
  | STATE_START => stateAction_START others
  | STATE_RESET => stateAction_RESET others
  | STATE_UNINITIALIZED => stateAction_UNINITIALIZED others
  | STATE_INITIALIZED => stateAction_INITIALIZED others
  | STATE_ACTIVE => stateAction_ACTIVE others
  | STATE_FAILED => stateAction_FAILED
  | STATE_CLOSED => stateAction_CLOSED
  | STATE_UNKNOWN => fault
  end.

(** The loop of [stateMachineWorker].  [fuel] bounds the number of actions
    observed, and [others i] is the interference met by the [i]-th action. *)
Fixpoint stateMachineWorker (fuel : nat) (others : nat -> interference) (i : nat) : M unit :=
  let* cur := gets currentState in
  if bool_decide (cur <> STATE_FAILED) && bool_decide (cur <> STATE_CLOSED) then
    match fuel with
    | O => pending
    | S fuel' =>
        let* nextState := stateActions cur (others i) in
        let* from := gets currentState in
        logStateTransition from nextState >>
        modify (set_currentState nextState) >>
        emit (EvNotify stateWaitCondition) >>
        stateMachineWorker fuel' others (S i)
    end
  else ret tt.

(** [startStateMachine]: the new thread signals [stateMachineReady] while
    the caller waits for it. *)
Definition startStateMachine (others : H5Transport -> H5Transport) : M unit :=
  modify (set_currentState STATE_START) >>
  let* joinable := gets stateMachineThread in
  if negb joinable then
    emit EvThreadStart >>
    modify (set_stateMachineThread true) >>
    wait_on stateMachineChange None others >>
    let* ready := gets stateMachineReady in
    if ready then ret tt else pending
  else fault.                                         (* std::terminate() *)

Definition stopStateMachine : M unit :=
  let* joinable := gets stateMachineThread in
  if joinable then
    emit EvThreadJoin >>
    modify (set_stateMachineThread false)
  else ret tt.

Definition waitForState (st : h5_state_t) (timeout : Z)
    (others : H5Transport -> H5Transport) : M bool :=
  wait_on stateWaitCondition (Some timeout) others >>
  gets (fun s => bool_decide (currentState s = st)).

(** *** Opening and closing *)

(** Modelled from the spec: [Transport::open] and [Transport::close] belong
    to the base class, which is not among the sources.  Opening "registers
    the upper callbacks", closing "releases" them; each returns a status. *)
Definition Transport_open (callbacks : Transport) (errorCode : nrf_error_t) : M nrf_error_t :=
  modify (set_base callbacks) >> ret errorCode.

Definition Transport_close (errorCode : nrf_error_t) : M nrf_error_t :=
  emit EvTransportClose >>
  modify (set_base (mkTransport false false false)) >>
  ret errorCode.

(** [open]: [baseResult] and [lowerResult] are what [Transport::open] and the
    lower transport's [open] answer. *)
Definition open (callbacks : Transport) (baseResult lowerResult : nrf_error_t)
    (others : interference) : M nrf_error_t :=
  let* errorCode := Transport_open callbacks baseResult in
  if decide (errorCode <> NRF_SUCCESS) then ret errorCode
  else
    let* st := gets currentState in
    if decide (st <> STATE_START) then log >> ret NRF_ERROR_INTERNAL
    else
      startStateMachine (others 0%nat) >>
      let* p := exitCriterias_at STATE_START in
      let* _exitCriterias := dynamic_cast STATE_START p in
      modify (set_lastPacket []) >>
      modify (set_statusCallback true) >>
      emit EvLowerOpen >>
      if decide (lowerResult <> NRF_SUCCESS) then
        write_exit _exitCriterias set_ioResourceError >>
        emit (EvNotify stateMachineChange) >>
        ret NRF_ERROR_INTERNAL
      else
        write_exit _exitCriterias set_isOpened >>
        emit (EvNotify stateMachineChange) >>
        let* reached := waitForState STATE_ACTIVE OPEN_WAIT_TIMEOUT (others 1%nat) in
        if reached then ret NRF_SUCCESS else ret NRF_ERROR_TIMEOUT.

(** [close]: [errorCode1] and [errorCode2] are what the lower transport's
    [close] and [Transport::close] answer. *)
Definition close (errorCode1 errorCode2 : nrf_error_t) : M nrf_error_t :=
  let* st := gets currentState in
  let* exitCriteria := exitCriterias_at st in
  (match exitCriteria with
   | Some _ => write_exit exitCriteria set_close
   | None => ret tt
   end) >>
  emit (EvNotify stateMachineChange) >>
  stopStateMachine >>
  emit EvLowerClose >>
  let* errorCode2' := Transport_close errorCode2 in
  if decide (errorCode1 <> NRF_SUCCESS) then ret errorCode1 else ret errorCode2'.

End Methods.

(** ** The debug texts

    The texts that [h5PktToString] puts in a log line for the payload of a
    packet.  A stream insertion appends to the text; with [std::hex],
    [std::setw(2)] and [std::setfill('0')] a byte is printed as two
    lower-case hexadecimal digits, and an [int] is printed in decimal. *)

Definition hex_digit (d : Z) : ascii :=
  match d with
  | 0 => "0" | 1 => "1" | 2 => "2" | 3 => "3" | 4 => "4" | 5 => "5" | 6 => "6" | 7 => "7"
  | 8 => "8" | 9 => "9" | 10 => "a" | 11 => "b" | 12 => "c" | 13 => "d" | 14 => "e"
  | 15 => "f" | _ => "?"
  end%char.

Definition asHex (packet : payload_t) : string :=
  fold_right
    (fun byte rest =>
       String (hex_digit (byte / 16)) (String (hex_digit (byte mod 16)) (String " " rest)))
    EmptyString packet.

(** The value of a hexadecimal digit, by which a printed byte is read
    back. *)
Definition hex_value (c : ascii) : Z :=
  match c with
  | "0" => 0 | "1" => 1 | "2" => 2 | "3" => 3 | "4" => 4 | "5" => 5 | "6" => 6 | "7" => 7
  | "8" => 8 | "9" => 9 | "a" => 10 | "b" => 11 | "c" => 12 | "d" => 13 | "e" => 14
  | "f" => 15 | _ => 16
  end%char.

(** The lambda [configToString] of [hciPacketLinkControlToString]. *)
Definition flag_text (set : bool) : string := if set then "1"%string else "0"%string.

Definition configToString (config : Z) : string :=
  (" sliding-window-size:" +:+ pretty (Z.land config 0x07) +:+
   " out-of-frame:" +:+ flag_text (negb (Z.land config 0x08 =? 0)%Z) +:+
   " data-integrity-check-type:" +:+ flag_text (negb (Z.land config 0x0f =? 0)%Z) +:+
   " version-number:" +:+ pretty (Z.shiftr (Z.land config 0x0e) 5) +:+ " ")%string.

(** The three sleep messages, each tested by its two bytes. *)
Definition sleep_message_text (payload : payload_t) (first second : Z) (name : string)
    : string :=
  if (nth 0 payload 0 =? first) && (nth 1 payload 0 =? second) then name else ""%string.

(** [hciPacketLinkControlToString]; the predicates are called without an
    offset.  [payload[2]] is read without a test of the size: [None] is a
    read past the end of the vector. *)
Definition hciPacketLinkControlToString (payload : payload_t) : option string :=
  if (2 <=? length payload)%nat then
    let body :=
      if isSyncPacket payload 0 then Some "SYNC"%string
      else if isSyncResponsePacket payload 0 then Some "SYNC_RESP"%string
      else if isSyncConfigPacket payload 0 then
        match payload !! 2%nat with
        | Some config => Some ("CONFIG [" +:+ configToString config +:+ "]")%string
        | None => None
        end
      else if isSyncConfigResponsePacket payload 0 then
        match payload !! 2%nat with
        | Some config => Some ("CONFIG_RESP [" +:+ configToString config +:+ "]")%string
        | None => None
        end
      else
        Some (sleep_message_text payload 0x05 0xfa "WAKEUP" +:+
              sleep_message_text payload 0x06 0xf9 "WOKEN" +:+
              sleep_message_text payload 0x07 0x78 "SLEEP")%string in
    match body with
    | Some text => Some ("[" +:+ text +:+ "]")%string
    | None => None
    end
  else Some ""%string.

(** ** A sample codec

    To run the model on concrete bytes: SLIP framing (0xC0 delimits, 0xDB
    escapes) around a four-byte H5 header whose checksum is not verified.
    No theorem below depends on it; it only serves the closed examples. *)

Fixpoint sample_slip_escape (packet : payload_t) : payload_t :=
  match packet with
  | [] => []
  | b :: rest =>
      (if b =? 0xC0 then [0xDB; 0xDC]
       else if b =? 0xDB then [0xDB; 0xDD]
       else [b]) ++ sample_slip_escape rest
  end.

Fixpoint sample_slip_unescape (packet : payload_t) : option payload_t :=
  match packet with
  | [] => Some []
  | b :: rest =>
      if b =? 0xDB then
        match rest with
        | c :: rest' =>
            if c =? 0xDC then cons 0xC0 <$> sample_slip_unescape rest'
            else if c =? 0xDD then cons 0xDB <$> sample_slip_unescape rest'
            else None
        | [] => None
        end
      else cons b <$> sample_slip_unescape rest
  end.

Definition sample_slip_decode (packet : payload_t) : option payload_t :=
  match packet with
  | b :: rest =>
      match rev rest with
      | e :: body =>
          if (b =? 0xC0) && (e =? 0xC0) then sample_slip_unescape (rev body) else None
      | [] => None
      end
  | [] => None
  end.

Definition sample_slip_encode (packet : payload_t) : payload_t :=
  0xC0 :: sample_slip_escape packet ++ [0xC0].

Definition h5_pkt_type_code (t : h5_pkt_type_t) : Z :=
  match t with
  | ACK_PACKET => 0 | HCI_COMMAND_PACKET => 1 | ACL_DATA_PACKET => 2
  | SYNC_DATA_PACKET => 3 | HCI_EVENT_PACKET => 4 | RESET_PACKET => 5
  | VENDOR_SPECIFIC_PACKET => 14 | LINK_CONTROL_PACKET => 15
  end.

Definition h5_pkt_type_of_code (c : Z) : option h5_pkt_type_t :=
  if c =? 0 then Some ACK_PACKET
  else if c =? 1 then Some HCI_COMMAND_PACKET
  else if c =? 2 then Some ACL_DATA_PACKET
  else if c =? 3 then Some SYNC_DATA_PACKET
  else if c =? 4 then Some HCI_EVENT_PACKET
  else if c =? 5 then Some RESET_PACKET
  else if c =? 14 then Some VENDOR_SPECIFIC_PACKET
  else if c =? 15 then Some LINK_CONTROL_PACKET
  else None.

Definition sample_h5_decode (packet : payload_t) : option h5_header :=
  match packet with
  | b0 :: b1 :: _ :: _ :: payload =>
      match h5_pkt_type_of_code (Z.land b1 0x0F) with
      | Some t =>
          Some {| h5Payload := payload;
                  seq_num := Z.land b0 0x07;
                  ack_num := Z.land (Z.shiftr b0 3) 0x07;
                  reliable_packet := Z.testbit b0 7;
                  packet_type := t |}
      | None => None
      end
  | _ => None
  end.

Definition sample_h5_encode (payload : payload_t) (seq ack : Z)
    (crc_present reliable : bool) (t : h5_pkt_type_t) : payload_t :=
  let len := Z.of_nat (length payload) in
  let b0 := Z.lor (Z.lor (Z.land seq 0x07) (Z.shiftl (Z.land ack 0x07) 3))
              (Z.lor (if crc_present then 0x40 else 0) (if reliable then 0x80 else 0)) in
  let b1 := Z.lor (h5_pkt_type_code t) (Z.shiftl (Z.land len 0x0F) 4) in
  let b2 := Z.land (Z.shiftr len 4) 0xFF in
  b0 :: b1 :: b2 :: Z.land (0xFF - (b0 + b1 + b2)) 0xFF :: payload.

Definition sample_codec : Codec :=
  {| slip_decode := sample_slip_decode;
     slip_encode := sample_slip_encode;
     h5_decode := sample_h5_decode;
     h5_encode := sample_h5_encode;
     SyncConfigField := 0x11 |}.

(** ** Vocabulary of the statements *)

(** The states without an exit-criteria record. *)
Definition no_exit_record (st : h5_state_t) : bool :=
  match st with
  | STATE_FAILED | STATE_CLOSED | STATE_UNKNOWN => true
  | _ => false
  end.

(** The table is the one [setupStateMachine] built, whatever its flags: each
    of the five states has a record of its own class and no other state has
    one. *)
Definition exit_table_ok (s : H5Transport) : Prop :=
  forall st, class_of <$> (exitCriterias s !! st) =
             if no_exit_record st then None else Some st.

(** Other threads write flags of the records; they never put a record in
    the place of another. *)
Definition keeps_exit_classes (f : H5Transport -> H5Transport) : Prop :=
  forall s st, class_of <$> (exitCriterias (f s) !! st) = class_of <$> (exitCriterias s !! st).

(** Only the state-machine thread writes [currentState]. *)
Definition keeps_currentState (f : H5Transport -> H5Transport) : Prop :=
  forall s, currentState (f s) = currentState s.

(** Only [send] and [open] write [lastPacket]. *)
Definition keeps_lastPacket (f : H5Transport -> H5Transport) : Prop :=
  forall s, lastPacket (f s) = lastPacket s.

Definition counters_in_range (s : H5Transport) : Prop :=
  (0 <= seqNum s <= 7) /\ (0 <= ackNum s <= 7).

Definition keeps_counters_in_range (f : H5Transport -> H5Transport) : Prop :=
  forall s, counters_in_range s -> counters_in_range (f s).

(** The edges of the state machine. *)
Definition edge (from to : h5_state_t) : bool :=
  match from, to with
  | STATE_START, (STATE_FAILED | STATE_CLOSED | STATE_RESET) => true
  | STATE_RESET, (STATE_FAILED | STATE_CLOSED | STATE_UNINITIALIZED) => true
  | STATE_UNINITIALIZED, (STATE_FAILED | STATE_CLOSED | STATE_INITIALIZED) => true
  | STATE_INITIALIZED, (STATE_FAILED | STATE_CLOSED | STATE_ACTIVE) => true
  | STATE_ACTIVE, (STATE_FAILED | STATE_CLOSED | STATE_RESET) => true
  | _, _ => false
  end.

(** The success edge of a state and the condition on its record. *)
Definition success_edge (st : h5_state_t) (e : ExitCriterias) : option h5_state_t :=
  match st with
  | STATE_START => if isOpened e then Some STATE_RESET else None
  | STATE_RESET => if resetSent e && resetWait e then Some STATE_UNINITIALIZED else None
  | STATE_UNINITIALIZED =>
      if syncSent e && syncRspReceived e then Some STATE_INITIALIZED else None
  | STATE_INITIALIZED =>
      if syncConfigSent e && syncConfigRspReceived e then Some STATE_ACTIVE else None
  | STATE_ACTIVE =>
      if syncReceived e || irrecoverableSyncError e then Some STATE_RESET else None
  | _ => None
  end.

(** The priority order: ioResourceError, then close, then the success edge,
    else FAILED. *)
Definition next_state (st : h5_state_t) (e : ExitCriterias) : h5_state_t :=
  if ioResourceError e then STATE_FAILED
  else if close_flag e then STATE_CLOSED
  else match success_edge st e with
       | Some st' => st'
       | None => STATE_FAILED
       end.

(** The state transitions a trace logs, in order. *)
Definition is_transition (e : event) : option (h5_state_t * h5_state_t) :=
  match e with EvLogStateTransition from to => Some (from, to) | _ => None end.
Definition transitions (tr : list event) : list (h5_state_t * h5_state_t) :=
  omap is_transition tr.

(** [path st ts st']: the transitions [ts] lead from [st] to [st'], each one
    starting where the one before ended, each one along an edge. *)
Fixpoint path (st : h5_state_t) (ts : list (h5_state_t * h5_state_t))
    (st' : h5_state_t) : Prop :=
  match ts with
  | [] => st = st'
  | (a, b) :: ts' => a = st /\ edge a b = true /\ path b ts' st'
  end.

(** The framed packets a trace hands to [processPacket], in order. *)
Definition is_processed (e : event) : option payload_t :=
  match e with EvProcessPacket p => Some p | _ => None end.
Definition processed_packets (tr : list event) : list payload_t :=
  omap is_processed tr.

(** The packets a trace gives to the lower transport, in order. *)
Definition is_lower_send (e : event) : option payload_t :=
  match e with EvLowerSend p => Some p | _ => None end.
Definition lower_sends (tr : list event) : list payload_t :=
  omap is_lower_send tr.

(** The payloads a trace delivers to the upper data callback, in order. *)
Definition is_upper_data (e : event) : option payload_t :=
  match e with EvUpperData p => Some p | _ => None end.
Definition upper_data (tr : list event) : list payload_t :=
  omap is_upper_data tr.

(** What the two decoders make of a framed packet. *)
Definition decode_packet {codec : Codec} (packet : payload_t) : option h5_header :=
  match slip_decode packet with
  | Some slipPayload => h5_decode slipPayload
  | None => None
  end.

Definition reliable_vendor_specific (hdr : h5_header) : bool :=
  bool_decide (packet_type hdr = VENDOR_SPECIFIC_PACKET) && reliable_packet hdr.

(** The ACK control packet carrying the acknowledgement number [ack]. *)
Definition ack_packet {codec : Codec} (ack : Z) : payload_t :=
  slip_encode (h5_encode [] 0 ack false false ACK_PACKET).

(** The payloads of the frames that arrive in sequence: a frame counts when
    its sequence number is the expected one, and the expected number then
    moves on by one modulo 8. *)
Fixpoint in_sequence (expected : Z) (hdrs : list h5_header) : list payload_t :=
  match hdrs with
  | [] => []
  | hdr :: hdrs' =>
      if seq_num hdr =? expected
      then h5Payload hdr :: in_sequence ((expected + 1) mod 8) hdrs'
      else in_sequence expected hdrs'
  end.

(** The acknowledgement numbers answered to a run of reliable frames: one
    for each frame, the number expected once the frame has been seen. *)
Fixpoint acks_for (expected : Z) (hdrs : list h5_header) : list Z :=
  match hdrs with
  | [] => []
  | hdr :: hdrs' =>
      if seq_num hdr =? expected
      then (expected + 1) mod 8 :: acks_for ((expected + 1) mod 8) hdrs'
      else expected :: acks_for expected hdrs'
  end.

(** The dispatcher run on framed packets one after the other. *)
Fixpoint process_all {codec : Codec} (packets : list payload_t) : M unit :=
  match packets with
  | [] => ret tt
  | packet :: packets' => processPacket packet >> process_all packets'
  end.

(** An instance that has reached [STATE_ACTIVE] with all upper callbacks
    registered; the closed examples start from it. *)
Definition sample_active : H5Transport :=
  set_currentState STATE_ACTIVE
    (set_base (mkTransport true true true) (H5Transport_new 250)).

(** An instance as a second caller of [send] finds it while a first [send]
    waits for its acknowledgement and the peer has restarted: [lastPacket]
    holds the packet of the first call, and the state machine has gone from
    [STATE_ACTIVE] back to [STATE_RESET]. *)
Definition sample_send_in_progress : H5Transport :=
  set_currentState STATE_RESET
    (set_lastPacket
       (sample_slip_encode (sample_h5_encode [0x02] 0 0 true true VENDOR_SPECIFIC_PACKET))
       sample_active).

(** The instance as wait number [k0 + j] of a [send] finds it, when the
    [send] is about to make the attempt before wait [k0] in state [s] and
    none of the waits [k0], ..., [k0 + j - 1] sees [seqNum] change: each
    attempt logs its packet, each wait lets the other threads run. *)
Fixpoint send_before_wait (others : interference) (k0 j : nat) (s : H5Transport)
    : H5Transport :=
  let transmitted := set_outgoingPacketCount (outgoingPacketCount s + 1) s in
  match j with
  | O => transmitted
  | S j' => send_before_wait others (S k0) j' (others k0 transmitted)
  end.

(** During wait number [k0 + j], [seqNum] changes from its value before the
    wait. *)
Definition ack_seen (others : interference) (k0 j : nat) (s : H5Transport) : bool :=
  negb (seqNum (others (k0 + j)%nat (send_before_wait others k0 j s)) =?
        seqNum (send_before_wait others k0 j s)).

(** A function on records that keeps their class: every setter and [reset]. *)
Definition keeps_class (f : ExitCriterias -> ExitCriterias) : Prop :=
  forall e, class_of (f e) = class_of e.

(** A property of the instance that the dispatcher, the sender and the
    state actions can only affect through the sequence counters and through
    [currentState]: it survives every write to another member, the writes of
    flags, the two increments and the zeroing of the counters. *)
Record frame_invariant (P : H5Transport -> Prop) : Prop := mkFrameInvariant {
  inv_base : forall v s, P s -> P (set_base v s);
  inv_c0Found : forall v s, P s -> P (set_c0Found v s);
  inv_unprocessedData : forall v s, P s -> P (set_unprocessedData v s);
  inv_lastPacket : forall v s, P s -> P (set_lastPacket v s);
  inv_incomingPacketCount : forall v s, P s -> P (set_incomingPacketCount v s);
  inv_outgoingPacketCount : forall v s, P s -> P (set_outgoingPacketCount v s);
  inv_errorPacketCount : forall v s, P s -> P (set_errorPacketCount v s);
  inv_stateMachineReady : forall v s, P s -> P (set_stateMachineReady v s);
  inv_statusCallback : forall v s, P s -> P (set_statusCallback v s);
  inv_stateMachineThread : forall v s, P s -> P (set_stateMachineThread v s);
  inv_write_exit : forall f s st e,
    keeps_class f -> P s -> exitCriterias s !! st = Some e ->
    P (set_exitCriterias (<[st := f e]> (exitCriterias s)) s);
  inv_incrementSeqNum : forall s,
    P s -> P (set_seqNum (Z.land ((seqNum s + 1) mod 256) 0x07) s);
  inv_incrementAckNum : forall s,
    P s -> P (set_ackNum (Z.land ((ackNum s + 1) mod 256) 0x07) s);
  inv_zero_seqNum : forall s, P s -> P (set_seqNum 0 s);
  inv_zero_ackNum : forall s, P s -> P (set_ackNum 0 s)
}.

(** The states an instance goes through: from its construction, by the
    public methods, by the two handlers the lower transport calls, and by
    the rounds of the state-machine thread (an action, then the write of
    [currentState]).  What the other threads do during the waits of a call
    is only required to keep the counters in range, which is what every
    step listed here does. *)
Inductive reachable {codec : Codec} : H5Transport -> Prop :=
| reachable_new interval :
    reachable (H5Transport_new interval)
| reachable_open s callbacks baseResult lowerResult others r s' tr :
    reachable s ->
    (forall k, keeps_counters_in_range (others k)) ->
    open callbacks baseResult lowerResult others s = Ok r s' tr ->
    reachable s'
| reachable_close s errorCode1 errorCode2 r s' tr :
    reachable s ->
    close errorCode1 errorCode2 s = Ok r s' tr ->
    reachable s'
| reachable_send s others data r s' tr :
    reachable s ->
    (forall k, keeps_counters_in_range (others k)) ->
    send others data s = Ok r s' tr ->
    reachable s'
| reachable_dataHandler s data s' tr :
    reachable s ->
    dataHandler data s = Ok tt s' tr ->
    reachable s'
| reachable_statusHandler s code s' tr :
    reachable s ->
    statusHandler code s = Ok tt s' tr ->
    reachable s'
| reachable_stateMachine_round s others nextState s' tr :
    reachable s ->
    (forall k, keeps_counters_in_range (others k)) ->
    stateActions (currentState s) others s = Ok nextState s' tr ->
    reachable (set_currentState nextState s').

(** The link-control packet of a handshake message as it goes to the lower
    transport, and what one attempt of a handshake state leaves in the trace:
    the packet is logged and sent, then the state waits on the state-change
    condition for [NON_ACTIVE_STATE_TIMEOUT]. *)
Definition link_control_packet {codec : Codec} (type : control_pkt_type) : payload_t :=
  slip_encode (h5_encode (pkt_pattern type) 0 0 false false LINK_CONTROL_PACKET).

Definition handshake_attempt {codec : Codec} (type : control_pkt_type) : list event :=
  [EvLog; EvLowerSend (link_control_packet type);
   EvWait stateMachineChange (Some NON_ACTIVE_STATE_TIMEOUT)].

(** Sample interference: no other thread does anything. *)
Definition sample_quiet : interference := fun _ s => s.

(** Sample interference for [send]: during wait number [k0] the dispatcher
    takes the peer's ACK and [seqNum] moves on. *)
Definition sample_ack_during (k0 : nat) : interference := fun k s =>
  if (k =? k0)%nat then set_seqNum (Z.land ((seqNum s + 1) mod 256) 0x07) s else s.

(** Sample interference for the handshake: during wait number [k0] the
    dispatcher takes the peer's SYNC_RESPONSE and sets [syncRspReceived]. *)
Definition sample_sync_response_during (k0 : nat) : interference := fun k s =>
  if (k =? k0)%nat then
    match exitCriterias s !! STATE_UNINITIALIZED with
    | Some e =>
        set_exitCriterias
          (<[STATE_UNINITIALIZED := set_syncRspReceived e]> (exitCriterias s)) s
    | None => s
    end
  else s.

(** An instance in [STATE_UNINITIALIZED] with all upper callbacks
    registered. *)
Definition sample_uninitialized : H5Transport :=
  set_currentState STATE_UNINITIALIZED
    (set_base (mkTransport true true true) (H5Transport_new 250)).

(** What a call returned and the instance it left, when it returned. *)
Definition value_of {A} (r : result A) : option A :=
  match r with Ok a _ _ => Some a | _ => None end.

Definition state_of {A} (r : result A) : option H5Transport :=
  match r with Ok _ s _ => Some s | _ => None end.

(** The lower transport delivers a stream of bytes chunk by chunk. *)
Fixpoint feed {codec : Codec} (chunks : list (list Z)) : M unit :=
  match chunks with
  | [] => ret tt
  | chunk :: chunks' => dataHandler chunk >> feed chunks'
  end.

(** ** Vocabulary of the further properties *)

(** A framed packet as it travels: its body between two boundary bytes. *)
Definition frame_of (body : payload_t) : payload_t := 0xC0 :: body ++ [0xC0].

(** Bytes among which there is no boundary byte. *)
Definition boundary_free (l : payload_t) : Prop := Forall (fun b => b <> 0xC0) l.

(** A body a frame can carry: not empty, no boundary byte. *)
Definition frame_body (body : payload_t) : Prop := body <> [] /\ boundary_free body.

(** A byte stream made of frames, each one preceded by some noise that holds
    no boundary byte. *)
Definition noisy_stream (parts : list (payload_t * payload_t)) : payload_t :=
  concat (map (fun part => fst part ++ frame_of (snd part)) parts).

Definition well_formed_part (part : payload_t * payload_t) : Prop :=
  boundary_free (fst part) /\ frame_body (snd part).

(** What a frame leaves once the dispatcher has been run on it in [s]. *)
Definition after_frame {codec : Codec} (body : payload_t) (s : H5Transport) : result payload_t :=
  match processPacket (frame_of body) s with
  | Ok _ s1 t1 =>
      Ok [] (set_c0Found false (set_unprocessedData [] s1))
         (EvProcessPacket (frame_of body) :: t1)
  | Fault t1 => Fault (EvProcessPacket (frame_of body) :: t1)
  | Pending t1 => Pending (EvProcessPacket (frame_of body) :: t1)
  end.

(** The loop of [dataHandler] has handed over [frames], or the first ones of
    them when a dispatch did not return; when the loop returns, all of them
    have been handed over and the reassembler is back to its initial state:
    empty buffer, empty carry-over, no start seen. *)
Definition delivers_frames (frames : list payload_t) (r : result payload_t) : Prop :=
  processed_packets (trace_of r) `prefix_of` frames /\
  forall packet s tr,
    r = Ok packet s tr ->
    processed_packets tr = frames /\ packet = [] /\ c0Found s = false /\
    unprocessedData s = [].

Definition frames_of (parts : list (payload_t * payload_t)) : list payload_t :=
  map (fun part => frame_of (snd part)) parts.

(** The predicate of the test support that goes with each control packet;
    an ACK has an empty payload and no predicate. *)
Definition recognises (type : control_pkt_type) (packet : payload_t) (offset : Z) : bool :=
  match type with
  | CONTROL_PKT_RESET => isResetPacket packet offset
  | CONTROL_PKT_SYNC => isSyncPacket packet offset
  | CONTROL_PKT_SYNC_RESPONSE => isSyncResponsePacket packet offset
  | CONTROL_PKT_SYNC_CONFIG => isSyncConfigPacket packet offset
  | CONTROL_PKT_SYNC_CONFIG_RESPONSE => isSyncConfigResponsePacket packet offset
  | CONTROL_PKT_ACK => false
  end.

(** An offset as the predicates receive it: their parameter is a
    [const uint8_t], so the argument of a call is converted modulo 256. *)
Definition uint8_offset (n : nat) : Z := Z.of_nat n mod 256.

(** The four messages of the link-establishment handshake. *)
Definition handshake_message (type : control_pkt_type) : bool :=
  match type with
  | CONTROL_PKT_SYNC | CONTROL_PKT_SYNC_RESPONSE
  | CONTROL_PKT_SYNC_CONFIG | CONTROL_PKT_SYNC_CONFIG_RESPONSE => true
  | CONTROL_PKT_RESET | CONTROL_PKT_ACK => false
  end.

(** The events the receive path can emit: log lines, packets to the lower
    transport, data to the upper layer, the hand-over of a frame to the
    dispatcher, and notifications of the state-change and ack conditions. *)
Definition receive_event (e : event) : bool :=
  match e with
  | EvLog | EvLowerSend _ | EvUpperData _ | EvProcessPacket _
  | EvNotify stateMachineChange | EvNotify ackWaitCondition => true
  | _ => false
  end.

Definition not_receive_event (e : event) : option event :=
  if receive_event e then None else Some e.

(** The members the receive path leaves as they are; of the table of exit
    criteria it keeps the class of every record. *)
Definition same_outside_receive_path (s s' : H5Transport) : Prop :=
  base s' = base s /\ lastPacket s' = lastPacket s /\
  currentState s' = currentState s /\
  stateMachineReady s' = stateMachineReady s /\
  statusCallback s' = statusCallback s /\
  stateMachineThread s' = stateMachineThread s /\
  retransmissionInterval s' = retransmissionInterval s /\
  forall st, class_of <$> (exitCriterias s' !! st) = class_of <$> (exitCriterias s !! st).




(** The dispatcher runs on the thread of the lower transport.  While a
    call of another thread waits, a frame arrives and is dispatched:
    [dispatched packet] is what this leaves of the instance, and
    [dispatch_during k0 packet] is the interference in which this happens
    during wait number [k0] and nothing happens during the other waits. *)
Definition dispatched {codec : Codec} (packet : payload_t) (s : H5Transport) : H5Transport :=
  match processPacket packet s with
  | Ok _ s' _ => s'
  | _ => s
  end.

(** Another thread does [g] during wait number [k0] of a call, and no
    thread does anything during its other waits. *)
Definition during (k0 : nat) (g : H5Transport -> H5Transport) : interference :=
  fun k s => if (k =? k0)%nat then g s else s.

Definition dispatch_during {codec : Codec} (k0 : nat) (packet : payload_t) : interference :=
  during k0 (dispatched packet).

(** The two ways a session is shut down from outside the state machine:
    the application calls [close], or the lower transport reports
    IO_RESOURCES_UNAVAILABLE to [statusHandler]. *)
Inductive shutdown_cause : Type :=
| CloseCalled
| IoError.

(** [close] up to its notification, which is as far as it gets before it
    blocks in the join of the state-machine thread: the close flag is set on
    the record of the current state, when it has one. *)
Definition close_requested (s : H5Transport) : H5Transport :=
  match exitCriterias s !! currentState s with
  | Some e => set_exitCriterias (<[currentState s := set_close e]> (exitCriterias s)) s
  | None => s
  end.

(** What a call of [statusHandler] leaves of the instance. *)
Definition status_reported (code : sd_rpc_app_status_t) (s : H5Transport) : H5Transport :=
  match statusHandler code s with
  | Ok _ s' _ => s'
  | _ => s
  end.

Definition shutdown_seen (cause : shutdown_cause) : H5Transport -> H5Transport :=
  match cause with
  | CloseCalled => close_requested
  | IoError => status_reported IO_RESOURCES_UNAVAILABLE
  end.

Definition shutdown_flag (cause : shutdown_cause) : ExitCriterias -> ExitCriterias :=
  match cause with
  | CloseCalled => set_close
  | IoError => set_ioResourceError
  end.

Definition shutdown_state (cause : shutdown_cause) : h5_state_t :=
  match cause with
  | CloseCalled => STATE_CLOSED
  | IoError => STATE_FAILED
  end.

(** [open] between the start of the state machine and its wait for
    [STATE_ACTIVE]: the lower transport is opened and the outcome is written
    to the START record.  [lower_opened] is what this leaves of the
    instance. *)
Definition open_lower (lowerResult : nrf_error_t) : M unit :=
  let* p := exitCriterias_at STATE_START in
  let* _exitCriterias := dynamic_cast STATE_START p in
  modify (set_lastPacket []) >>
  modify (set_statusCallback true) >>
  emit EvLowerOpen >>
  write_exit _exitCriterias
    (if decide (lowerResult <> NRF_SUCCESS) then set_ioResourceError else set_isOpened) >>
  emit (EvNotify stateMachineChange).

Definition lower_opened (lowerResult : nrf_error_t) (s : H5Transport) : H5Transport :=
  match open_lower lowerResult s with
  | Ok _ s' _ => s'
  | _ => s
  end.

(** The RESET control packet as it goes to the lower transport. *)
Definition reset_packet {codec : Codec} : payload_t :=
  slip_encode (h5_encode [] 0 0 false false RESET_PACKET).




(** A computation run [n] times in a row. *)
Fixpoint times (n : nat) (m : M unit) : M unit :=
  match n with
  | O => ret tt
  | S n' => m >> times n' m
  end.

(** An instance in [STATE_INITIALIZED] with all upper callbacks
    registered. *)
Definition sample_initialized : H5Transport :=
  set_currentState STATE_INITIALIZED sample_active.

(** Sample interference for [open]: the state-machine thread signals that
    it is ready during the first wait and has reached [STATE_ACTIVE] by the
    end of the second. *)
Definition sample_worker_reaches_active : interference := fun k s =>
  match k with
  | 0%nat => set_stateMachineReady true s
  | _ => set_currentState STATE_ACTIVE s
  end.

(** What [h5PktToString] reads to build the log line of a packet: it
    decodes the packet once more and, for a LINK_CONTROL packet, builds the
    text of the payload.  [false]: building the text reads past the end of
    the payload.  When [h5_decode] rejects the packet, the type tested is a
    local that nothing but the decoder may have written, so that case is
    not counted as in bounds. *)
Definition h5PktToString_in_bounds {codec : Codec} (h5Packet : payload_t) : bool :=
  match h5_decode h5Packet with
  | Some hdr =>
      if bool_decide (packet_type hdr = LINK_CONTROL_PACKET) then
        match hciPacketLinkControlToString (h5Payload hdr) with
        | Some _ => true
        | None => false
        end
      else true
  | None => false
  end.

(** The packet [sendControlPacket] encodes, logs and sends for a control
    packet, before the SLIP encoding; [ack] is [ackNum]. *)
Definition control_h5_packet {codec : Codec} (type : control_pkt_type) (ack : Z)
    : payload_t :=
  h5_encode (pkt_pattern type) 0
    (match type with CONTROL_PKT_ACK => ack | _ => 0 end)
    false false
    (match type with
     | CONTROL_PKT_RESET => RESET_PACKET
     | CONTROL_PKT_ACK => ACK_PACKET
     | _ => LINK_CONTROL_PACKET
     end).

(** The log lines of one dispatch are built in bounds: the line of the frame
    received, which [processPacket] writes once [slip_decode] has accepted
    the frame, and the lines of the control packets it may send in
    answer. *)
Definition log_lines_in_bounds {codec : Codec} (packet : payload_t) : Prop :=
  (forall slipPayload,
      slip_decode packet = Some slipPayload ->
      h5PktToString_in_bounds slipPayload = true) /\
  (forall type ack, h5PktToString_in_bounds (control_h5_packet type ack) = true).

(** A whole session as the state-machine thread meets it: [open] opens the
    lower transport during the wait of the START action, the peer answers
    the first SYNC and the second SYNC_CONFIG, and the application calls
    [close] while the ACTIVE action waits. *)
Definition sample_session : nat -> interference :=
  fun i =>
    match i with
    | 0%nat => during 0 (lower_opened NRF_SUCCESS)
    | 2%nat =>
        dispatch_during (codec := sample_codec) 0
          (link_control_packet (codec := sample_codec) CONTROL_PKT_SYNC_RESPONSE)
    | 3%nat =>
        dispatch_during (codec := sample_codec) 1
          (link_control_packet (codec := sample_codec) CONTROL_PKT_SYNC_CONFIG_RESPONSE)
    | 4%nat => during 0 close_requested
    | _ => fun _ s => s
    end.

(** A session in which both counters are written.  [open] returns once the
    link is active; nine reliable packets numbered 0, 1, ..., 7, 0 arrive in
    one chunk, so that [ackNum] goes round once; then a [send] is
    acknowledged during its first wait. *)
Definition sample_data_frames : list Z :=
  concat (map (fun seq =>
                 sample_slip_encode
                   (sample_h5_encode [0xAA] seq 0 false true VENDOR_SPECIFIC_PACKET))
              [0; 1; 2; 3; 4; 5; 6; 7; 0]).

Definition sample_opened : H5Transport :=
  match open (mkTransport true true true) NRF_SUCCESS NRF_SUCCESS
          sample_worker_reaches_active (H5Transport_new 250) with
  | Ok _ s _ => s
  | _ => H5Transport_new 250
  end.

Definition sample_received : H5Transport :=
  match dataHandler (codec := sample_codec) sample_data_frames sample_opened with
  | Ok _ s _ => s
  | _ => sample_opened
  end.

Definition sample_exchanged : H5Transport :=
  match send (codec := sample_codec) (sample_ack_during 0) [0x01; 0x02] sample_received with
  | Ok _ s _ => s
  | _ => sample_received
  end.

(** The two packets that move a sequence counter: a reliable
    VENDOR_SPECIFIC packet carrying the expected sequence number, received in
    [STATE_ACTIVE], and an ACK for the packet in flight, received in any
    state but [STATE_RESET]. *)
Definition delivers (hdr : h5_header) (s : H5Transport) : bool :=
  bool_decide (currentState s = STATE_ACTIVE) &&
  bool_decide (packet_type hdr = VENDOR_SPECIFIC_PACKET) &&
  reliable_packet hdr && (seq_num hdr =? ackNum s).

Definition acknowledges (hdr : h5_header) (s : H5Transport) : bool :=
  negb (bool_decide (currentState s = STATE_RESET)) &&
  bool_decide (packet_type hdr = ACK_PACKET) &&
  (ack_num hdr =? Z.land (seqNum s + 1) 0x07).

(** The number of waits an action can make: one for each attempt of a
    handshake state, one in the other states (the waits of START and ACTIVE
    are repeated until the record is fulfilled; the first one is
    observed). *)
Definition waits_of (st : h5_state_t) : nat :=
  match st with
  | STATE_UNINITIALIZED | STATE_INITIALIZED => PACKET_RETRANSMISSIONS
  | _ => 1
  end.

(** One attempt of [send] in the trace: the packet is logged and given to
    the lower transport, then the call waits on the ack condition. *)
Definition send_attempt (encodedPacket : payload_t) (interval : Z) : list event :=
  [EvLog; EvLowerSend encodedPacket; EvWait ackWaitCondition (Some interval)].

(** ** Vocabulary of the proofs *)

(** A computation keeps a property of the instance. *)
Definition preserves {A} (P : H5Transport -> Prop) (m : M A) : Prop :=
  forall s a s' tr, P s -> m s = Ok a s' tr -> P s'.

(** A computation emits no event of the kind [f] selects. *)
Definition quiet {A X} (f : event -> option X) (m : M A) : Prop :=
  forall s, omap f (trace_of (m s)) = [].

(** The result of a call with [g] applied to the instance it leaves. *)
Definition rmap {A} (g : H5Transport -> H5Transport) (r : result A) : result A :=
  match r with
  | Ok a s t => Ok a (g s) t
  | Fault t => Fault t
  | Pending t => Pending t
  end.

(** A computation neither reads nor writes the carry-over buffer. *)
Definition ignores_unprocessedData {A} (m : M A) : Prop :=
  forall u s, m (set_unprocessedData u s) = rmap (set_unprocessedData u) (m s).

(** [dataHandler] with the buffer it starts from made explicit, and the
    buffer it ends with stored whatever it is. *)
Definition dataHandler_core {codec : Codec} (data : list Z) (packet : payload_t) : M unit :=
  let* packet' := dataHandler_loop data packet in
  modify (set_unprocessedData packet').

(** What a computation returns, when it returns. *)
Definition returns_at {A} (Q : A -> H5Transport -> Prop) (m : M A) (s : H5Transport) : Prop :=
  forall a s' tr, m s = Ok a s' tr -> Q a s'.

(** The record of its state that an action decides on, and the decision. *)
Definition decided (st : h5_state_t) (nextState : h5_state_t) (s : H5Transport) : Prop :=
  exists e, exitCriterias s !! st = Some e /\ nextState = next_state st e.

(** * Proofs *)

(** ** The monad *)

Lemma prepend_nil {A} (r : result A) : prepend [] r = r.
Proof. destruct r; reflexivity. Qed.

Lemma prepend_prepend {A} (t1 t2 : list event) (r : result A) :
  prepend t1 (prepend t2 r) = prepend (t1 ++ t2) r.
Proof. destruct r; simpl; rewrite app_assoc; reflexivity. Qed.

Lemma trace_of_prepend {A} (t : list event) (r : result A) :
  trace_of (prepend t r) = t ++ trace_of r.
Proof. destruct r; reflexivity. Qed.

Lemma bind_ret_l {A B} (a : A) (k : A -> M B) s : bind (ret a) k s = k a s.
Proof. unfold bind, ret. apply prepend_nil. Qed.

Lemma bind_gets {A B} (f : H5Transport -> A) (k : A -> M B) s :
  bind (gets f) k s = k (f s) s.
Proof. unfold bind, gets. apply prepend_nil. Qed.

Lemma bind_modify {B} (g : H5Transport -> H5Transport) (k : unit -> M B) s :
  bind (modify g) k s = k tt (g s).
Proof. unfold bind, modify. apply prepend_nil. Qed.

Lemma bind_emit {B} (e : event) (k : unit -> M B) s :
  bind (emit e) k s = prepend [e] (k tt s).
Proof. reflexivity. Qed.

Lemma bind_assoc {A B C} (m : M A) (k : A -> M B) (h : B -> M C) s :
  bind (bind m k) h s = bind m (fun a => bind (k a) h) s.
Proof.
  unfold bind. destruct (m s) as [a s1 t1 | t1 | t1]; simpl; [|reflexivity..].
  - destruct (k a s1) as [b s2 t2 | t2 | t2]; simpl; try reflexivity.
    symmetry. apply prepend_prepend.
Qed.

Lemma bind_Ok_inv {A B} (m : M A) (k : A -> M B) s b s' tr :
  bind m k s = Ok b s' tr ->
  exists a s1 t1 t2, m s = Ok a s1 t1 /\ k a s1 = Ok b s' t2 /\ tr = t1 ++ t2.
Proof.
  unfold bind. destruct (m s) as [a s1 t1 | t1 | t1]; try discriminate.
  destruct (k a s1) as [b' s2 t2 | t2 | t2] eqn:Hk; simpl; try discriminate.
  intros [= -> -> <-]. exists a, s1, t1, t2. auto.
Qed.

Lemma bind_ext {A B} (m : M A) (k k' : A -> M B) s :
  (forall a s1, k a s1 = k' a s1) -> bind m k s = bind m k' s.
Proof.
  intros Hk. unfold bind. destruct (m s); try reflexivity. rewrite Hk. reflexivity.
Qed.

Lemma bind_Ok {A B} (m : M A) (k : A -> M B) s a s1 t1 :
  m s = Ok a s1 t1 -> bind m k s = prepend t1 (k a s1).
Proof. intros Hm. unfold bind. rewrite Hm. reflexivity. Qed.

Lemma bind_Fault {A B} (m : M A) (k : A -> M B) s t1 :
  m s = Fault t1 -> bind m k s = Fault t1.
Proof. intros Hm. unfold bind. rewrite Hm. reflexivity. Qed.

Lemma bind_Pending {A B} (m : M A) (k : A -> M B) s t1 :
  m s = Pending t1 -> bind m k s = Pending t1.
Proof. intros Hm. unfold bind. rewrite Hm. reflexivity. Qed.

Lemma bind_ext_l {A B} (m m' : M A) (k : A -> M B) s :
  m s = m' s -> bind m k s = bind m' k s.
Proof. intros Hm. unfold bind. rewrite Hm. reflexivity. Qed.

Lemma trace_of_bind {A B} (m : M A) (k : A -> M B) s :
  trace_of (bind m k s) =
  match m s with
  | Ok a s1 t1 => t1 ++ trace_of (k a s1)
  | Fault t1 | Pending t1 => t1
  end.
Proof. unfold bind. destruct (m s); try reflexivity. apply trace_of_prepend. Qed.

(** Normal form of a sequence of primitive steps run on a given instance. *)
Ltac mnorm :=
  repeat (first [ rewrite bind_assoc | rewrite bind_gets | rewrite bind_modify
                | rewrite bind_ret_l | rewrite bind_emit ];
          cbv beta).

Section Combinators.
Context {A B : Type} (P : H5Transport -> Prop).

Lemma preserves_ret (a : A) : preserves P (ret a).
Proof. intros s a' s' tr HP H. inversion H; subst. exact HP. Qed.

Lemma preserves_gets (f : H5Transport -> A) : preserves P (gets f).
Proof. intros s a' s' tr HP H. inversion H; subst. exact HP. Qed.

Lemma preserves_emit e : preserves P (emit e).
Proof. intros s a' s' tr HP H. inversion H; subst. exact HP. Qed.

Lemma preserves_fault : preserves P (@fault A).
Proof. intros s a' s' tr _ [=]. Qed.

Lemma preserves_pending : preserves P (@pending A).
Proof. intros s a' s' tr _ [=]. Qed.

Lemma preserves_modify f : (forall s, P s -> P (f s)) -> preserves P (modify f).
Proof. intros Hf s a' s' tr HP H. inversion H; subst. auto. Qed.

Lemma preserves_bind (m : M A) (k : A -> M B) :
  preserves P m -> (forall a, preserves P (k a)) -> preserves P (bind m k).
Proof.
  intros Hm Hk s b s' tr HP H.
  apply bind_Ok_inv in H as (a & s1 & t1 & t2 & H1 & H2 & _).
  eapply Hk; [|exact H2]. eapply Hm; eauto.
Qed.

End Combinators.

Section QuietCombinators.
Context {A B X : Type} (f : event -> option X).

Lemma quiet_ret (a : A) : quiet f (ret a).
Proof. intros s. reflexivity. Qed.

Lemma quiet_gets (g : H5Transport -> A) : quiet f (gets g).
Proof. intros s. reflexivity. Qed.

Lemma quiet_modify g : quiet f (modify g).
Proof. intros s. reflexivity. Qed.

Lemma quiet_fault : quiet f (@fault A).
Proof. intros s. reflexivity. Qed.

Lemma quiet_pending : quiet f (@pending A).
Proof. intros s. reflexivity. Qed.

Lemma quiet_emit e : f e = None -> quiet f (emit e).
Proof. intros He s. simpl. rewrite He. reflexivity. Qed.

Lemma quiet_bind (m : M A) (k : A -> M B) :
  quiet f m -> (forall a, quiet f (k a)) -> quiet f (bind m k).
Proof.
  intros Hm Hk s. rewrite trace_of_bind. specialize (Hm s).
  destruct (m s) as [a s1 t1 | t1 | t1]; simpl in Hm; try exact Hm.
  rewrite omap_app, Hm. apply Hk.
Qed.

End QuietCombinators.

(** ** [checkPattern] *)

Lemma checkPattern_from_true (packet pattern : payload_t) :
  checkPattern_from packet pattern = true <-> exists post, packet = pattern ++ post.
Proof.
  revert packet. induction pattern as [|e pattern IH]; intros packet; simpl.
  - split; [intros _; exists packet; reflexivity | reflexivity].
  - destruct packet as [|b packet].
    + split; [discriminate | intros [post [=]]].
    + destruct (Z.eqb_spec b e) as [->|Hne].
      * rewrite IH. split; intros [post Hp]; exists post; congruence.
      * split; [discriminate | intros [post [= E _]]; contradiction].
Qed.

Lemma skipn_split (packet : payload_t) (n : nat) :
  (n <= length packet)%nat ->
  exists pre, packet = pre ++ skipn n packet /\ length pre = n.
Proof.
  intros Hn. exists (firstn n packet). split.
  - symmetry. apply firstn_skipn.
  - apply firstn_length_le. exact Hn.
Qed.

Lemma checkPattern_true (packet : payload_t) (offset : Z) (pattern : payload_t) :
  0 <= offset ->
  checkPattern packet offset pattern = true <->
  offset < Z.of_nat (length packet) /\
  exists pre post, packet = pre ++ pattern ++ post /\ Z.of_nat (length pre) = offset.
Proof.
  intros Hoff. unfold checkPattern.
  destruct (Z.geb_spec offset (Z.of_nat (length packet))) as [Hge|Hlt].
  - split; [discriminate | intros [Hlt _]; lia].
  - rewrite checkPattern_from_true. split.
    + intros [post Hpost]. split; [exact Hlt|].
      destruct (skipn_split packet (Z.to_nat offset)) as (pre & Hpre & Hlen); [lia|].
      exists pre, post. split; [|lia]. rewrite Hpost in Hpre. exact Hpre.
    + intros [_ (pre & post & -> & Hlen)]. exists post.
      rewrite drop_app_length' by lia. reflexivity.
Qed.

(** C9. [checkPattern packet offset pattern] is true exactly when [offset]
    lies inside [packet] and the bytes of [packet] from [offset] on begin
    with the whole of [pattern]; on the packet and the pattern of the test,
    it is true at offset 4 and false at offsets 0, 1, 8 and 100. *)
Theorem checkPattern_matches_at_offset :
  (forall (packet : payload_t) (offset : Z) (pattern : payload_t),
      0 <= offset ->
      checkPattern packet offset pattern = true <->
      offset < Z.of_nat (length packet) /\
      exists pre post, packet = pre ++ pattern ++ post /\ Z.of_nat (length pre) = offset) /\
  (let packet := [0xFF; 0x01; 0x02; 0xFF; 0x01; 0x02; 0x03; 0xFF] in
   let pattern := [0x01; 0x02; 0x03] in
   checkPattern packet 4 pattern = true /\
   checkPattern packet 0 pattern = false /\
   checkPattern packet 1 pattern = false /\
   checkPattern packet 8 pattern = false /\
   checkPattern packet 100 pattern = false).
Proof.
  split.
  - exact checkPattern_true.
  - repeat split; reflexivity.
Qed.

Lemma checkPattern_matches_at_offset_witness :
  checkPattern [0xFF; 0x01; 0x02; 0xFF; 0x01; 0x02; 0x03; 0xFF] 4 [0x01; 0x02; 0x03] = true <->
  4 < Z.of_nat (length [0xFF; 0x01; 0x02; 0xFF; 0x01; 0x02; 0x03; 0xFF]) /\
  exists pre post,
    [0xFF; 0x01; 0x02; 0xFF; 0x01; 0x02; 0x03; 0xFF] = pre ++ [0x01; 0x02; 0x03] ++ post /\
    Z.of_nat (length pre) = 4.
Proof.
  apply (proj1 checkPattern_matches_at_offset
           [0xFF; 0x01; 0x02; 0xFF; 0x01; 0x02; 0x03; 0xFF] 4 [0x01; 0x02; 0x03]).
  lia.
Defined.

(** ** Reading and writing exit criteria *)

Lemma preserves_read_exit (P : H5Transport -> Prop) p : preserves P (read_exit p).
Proof.
  intros s a s' tr HP. unfold read_exit.
  destruct p as [st|]; [|discriminate].
  destruct (exitCriterias s !! st); [|discriminate].
  intros H. inversion H; subst. exact HP.
Qed.

Lemma preserves_write_exit (P : H5Transport -> Prop) p f :
  (forall s st e, P s -> exitCriterias s !! st = Some e ->
                  P (set_exitCriterias (<[st := f e]> (exitCriterias s)) s)) ->
  preserves P (write_exit p f).
Proof.
  intros Hf s a s' tr HP. unfold write_exit.
  destruct p as [st|]; [|discriminate].
  destruct (exitCriterias s !! st) eqn:E; [|discriminate].
  intros H. inversion H; subst. auto.
Qed.

Lemma quiet_read_exit {X} (f : event -> option X) p : quiet f (read_exit p).
Proof.
  intros s. unfold read_exit. destruct p as [st|]; [|reflexivity].
  destruct (exitCriterias s !! st); reflexivity.
Qed.

Lemma quiet_write_exit {X} (f : event -> option X) p g : quiet f (write_exit p g).
Proof.
  intros s. unfold write_exit. destruct p as [st|]; [|reflexivity].
  destruct (exitCriterias s !! st); reflexivity.
Qed.

Lemma bind_read_exit {B} st (k : ExitCriterias -> M B) s e :
  exitCriterias s !! st = Some e ->
  bind (read_exit (Some st)) k s = k e s.
Proof. intros He. unfold bind, read_exit. rewrite He. apply prepend_nil. Qed.

Lemma bind_write_exit {B} st f (k : unit -> M B) s e :
  exitCriterias s !! st = Some e ->
  bind (write_exit (Some st) f) k s =
  k tt (set_exitCriterias (<[st := f e]> (exitCriterias s)) s).
Proof. intros He. unfold bind, write_exit. rewrite He. apply prepend_nil. Qed.

(** Symbolic execution of a computation built from the combinators: [side]
    discharges what a [modify] or a write through a pointer must respect. *)
Ltac preserves_with side :=
  repeat (cbv beta zeta;
    first
      [ solve [auto 1]
      | apply preserves_ret | apply preserves_gets | apply preserves_emit
      | apply preserves_fault | apply preserves_pending
      | apply preserves_read_exit
      | apply preserves_bind; [|intros ?]
      | apply preserves_modify; solve [side]
      | apply preserves_write_exit; solve [side]
      | match goal with
        | |- preserves _ (if ?b then _ else _) => destruct b
        | |- preserves _ (match ?x with _ => _ end) => destruct x
        end ]).

Ltac quiet_auto :=
  repeat (cbv beta zeta;
    first
      [ apply quiet_ret | apply quiet_gets | apply quiet_modify
      | apply quiet_fault | apply quiet_pending
      | apply quiet_read_exit | apply quiet_write_exit
      | apply quiet_emit; reflexivity
      | apply quiet_bind; [|intros ?]
      | match goal with
        | |- quiet _ (if ?b then _ else _) => destruct b
        | |- quiet _ (match ?x with _ => _ end) => destruct x
        end ]).

Ltac unfold_callees :=
  unfold processPacket, statusHandler, sendControlPacket, call_upperDataCallback,
    logPacket, log, logStateTransition,
    exitCriterias_at, dynamic_cast, wait_on, stopStateMachine, Transport_close,
    Transport_open, waitForState, startStateMachine.

Ltac unfold_methods :=
  unfold_callees; unfold incrementSeqNum, incrementAckNum.

(** ** What the dispatcher leaves alone *)

Section Dispatcher.
Context {codec : Codec}.

Lemma processPacket_quiet_processed packet : quiet is_processed (processPacket packet).
Proof. unfold_methods. quiet_auto. Qed.

End Dispatcher.

(** ** The byte reassembler *)

Section IgnoresCombinators.
Context {A B : Type}.

Lemma ignores_ret (a : A) : ignores_unprocessedData (ret a).
Proof. intros u s. reflexivity. Qed.

Lemma ignores_emit e : ignores_unprocessedData (emit e).
Proof. intros u s. reflexivity. Qed.

Lemma ignores_fault : ignores_unprocessedData (@fault A).
Proof. intros u s. reflexivity. Qed.

Lemma ignores_gets (f : H5Transport -> A) :
  (forall u s, f (set_unprocessedData u s) = f s) -> ignores_unprocessedData (gets f).
Proof. intros Hf u s. unfold gets. rewrite Hf. reflexivity. Qed.

Lemma ignores_modify f :
  (forall u s, f (set_unprocessedData u s) = set_unprocessedData u (f s)) ->
  ignores_unprocessedData (modify f).
Proof. intros Hf u s. unfold modify. rewrite Hf. reflexivity. Qed.

Lemma ignores_bind (m : M A) (k : A -> M B) :
  ignores_unprocessedData m -> (forall a, ignores_unprocessedData (k a)) ->
  ignores_unprocessedData (bind m k).
Proof.
  intros Hm Hk u s. unfold bind. rewrite Hm.
  destruct (m s) as [a s1 t1 | t1 | t1]; simpl; try reflexivity.
  rewrite Hk. destruct (k a s1); reflexivity.
Qed.

End IgnoresCombinators.

Lemma ignores_read_exit p : ignores_unprocessedData (read_exit p).
Proof.
  intros u s. unfold read_exit. destruct p as [st|]; [|reflexivity]. simpl.
  destruct (exitCriterias s !! st); reflexivity.
Qed.

Lemma ignores_write_exit p f : ignores_unprocessedData (write_exit p f).
Proof.
  intros u s. unfold write_exit. destruct p as [st|]; [|reflexivity]. simpl.
  destruct (exitCriterias s !! st); reflexivity.
Qed.

Ltac ignores_auto :=
  repeat (cbv beta zeta;
    first
      [ apply ignores_ret | apply ignores_emit | apply ignores_fault
      | apply ignores_read_exit | apply ignores_write_exit
      | apply ignores_gets; reflexivity
      | apply ignores_modify; reflexivity
      | apply ignores_bind; [|intros ?]
      | match goal with
        | |- ignores_unprocessedData (if ?b then _ else _) => destruct b
        | |- ignores_unprocessedData (match ?x with _ => _ end) => destruct x
        end ]).

Lemma bind_rmap {A B} (m : M A) (k1 k2 : A -> M B) g s1 s2 :
  m s1 = rmap g (m s2) ->
  (forall a s, k1 a (g s) = k2 a s) ->
  bind m k1 s1 = bind m k2 s2.
Proof.
  intros Hm Hk. unfold bind. rewrite Hm.
  destruct (m s2) as [a s t | t | t]; simpl; try reflexivity.
  rewrite Hk. reflexivity.
Qed.

Lemma set_unprocessedData_same s : set_unprocessedData (unprocessedData s) s = s.
Proof. destruct s; reflexivity. Qed.

Section Reassembler.
Context {codec : Codec}.

Lemma processPacket_ignores_unprocessedData packet :
  ignores_unprocessedData (processPacket packet).
Proof. unfold_methods. ignores_auto. Qed.

Lemma dataHandler_loop_app a b packet s :
  dataHandler_loop (a ++ b) packet s =
  bind (dataHandler_loop a packet) (fun packet' => dataHandler_loop b packet') s.
Proof.
  revert packet s. induction a as [|x a IH]; intros packet s; simpl.
  - rewrite bind_ret_l. reflexivity.
  - rewrite bind_assoc. apply bind_ext. intros p1 s1. apply IH.
Qed.

(** An empty buffer after a round means the round ended a packet, and that
    cleared the carry-over buffer too. *)
Lemma dataHandler_byte_empty b packet s packet' s' tr :
  dataHandler_byte b packet s = Ok packet' s' tr ->
  packet' = [] -> unprocessedData s' = [].
Proof.
  unfold dataHandler_byte. destruct (b =? 0xC0).
  - intros H. apply bind_Ok_inv in H as (c0 & s1 & t1 & t2 & H1 & H2 & _).
    inversion H1; subst; clear H1. destruct (c0Found s1).
    + destruct (length (packet ++ [b]) =? 2)%nat.
      * inversion H2; discriminate.
      * apply bind_Ok_inv in H2 as (? & s2 & ? & ? & _ & H2 & _).
        apply bind_Ok_inv in H2 as (? & s3 & ? & ? & _ & H2 & _).
        apply bind_Ok_inv in H2 as (? & s4 & ? & ? & H4 & H2 & _).
        apply bind_Ok_inv in H2 as (? & s5 & ? & ? & H5 & H2 & _).
        inversion H4; inversion H5; inversion H2; subst. reflexivity.
    + apply bind_Ok_inv in H2 as (? & s2 & ? & ? & _ & H2 & _).
      inversion H2; discriminate.
  - intros H. inversion H; subst. intros E. destruct packet; discriminate.
Qed.

Lemma dataHandler_loop_empty data packet s packet' s' tr :
  (packet = [] -> unprocessedData s = []) ->
  dataHandler_loop data packet s = Ok packet' s' tr ->
  packet' = [] -> unprocessedData s' = [].
Proof.
  revert packet s tr. induction data as [|b data IH]; intros packet s tr Hinv; simpl.
  - intros H. inversion H; subst. exact Hinv.
  - intros H. apply bind_Ok_inv in H as (p1 & s1 & t1 & t2 & H1 & H2 & _).
    eapply IH; [|exact H2]. eapply dataHandler_byte_empty; exact H1.
Qed.

Lemma dataHandler_as_core data s :
  dataHandler data s = dataHandler_core data (unprocessedData s) s.
Proof.
  unfold dataHandler, dataHandler_core. rewrite bind_gets.
  replace (match unprocessedData s with [] => [] | _ :: _ => unprocessedData s end)
    with (unprocessedData s) by (destruct (unprocessedData s); reflexivity).
  unfold bind at 1 3.
  destruct (dataHandler_loop data (unprocessedData s) s) as [p' s' t | t | t] eqn:Hloop;
    try reflexivity.
  f_equal. destruct p' as [|x p'].
  - assert (Hu : unprocessedData s' = [])
      by (eapply dataHandler_loop_empty; [| exact Hloop | reflexivity]; auto).
    unfold ret, modify. rewrite <- Hu, set_unprocessedData_same. reflexivity.
  - reflexivity.
Qed.

Lemma dataHandler_byte_ignores {B} b packet (k : payload_t -> M B) u s :
  (forall p1 u1 s1, k p1 (set_unprocessedData u1 s1) = k p1 s1) ->
  bind (dataHandler_byte b packet) k (set_unprocessedData u s) =
  bind (dataHandler_byte b packet) k s.
Proof.
  intros Hk. unfold dataHandler_byte. destruct (b =? 0xC0).
  - mnorm. change (c0Found (set_unprocessedData u s)) with (c0Found s).
    destruct (c0Found s).
    + destruct (length (packet ++ [b]) =? 2)%nat.
      * mnorm. apply Hk.
      * mnorm. f_equal.
        apply bind_rmap with (g := set_unprocessedData u).
        -- apply processPacket_ignores_unprocessedData.
        -- intros [] s1. mnorm. reflexivity.
    + mnorm. apply (Hk _ u (set_c0Found true s)).
  - mnorm. apply Hk.
Qed.

Lemma dataHandler_core_ignores data packet u s :
  dataHandler_core data packet (set_unprocessedData u s) = dataHandler_core data packet s.
Proof.
  revert packet u s. induction data as [|b data IH]; intros packet u s.
  - reflexivity.
  - unfold dataHandler_core. simpl. rewrite !bind_assoc.
    apply dataHandler_byte_ignores. intros p1 u1 s1. apply IH.
Qed.

Lemma dataHandler_app a b s :
  dataHandler (a ++ b) s = bind (dataHandler a) (fun _ => dataHandler b) s.
Proof.
  rewrite dataHandler_as_core. unfold dataHandler_core.
  rewrite (bind_ext_l _ _ _ _ (dataHandler_loop_app a b (unprocessedData s) s)).
  rewrite (bind_ext_l _ _ _ _ (dataHandler_as_core a s)).
  unfold dataHandler_core. rewrite !bind_assoc.
  apply bind_ext. intros p1 s1. rewrite bind_modify.
  rewrite dataHandler_as_core.
  change (unprocessedData (set_unprocessedData p1 s1)) with p1.
  rewrite dataHandler_core_ignores. reflexivity.
Qed.

Lemma dataHandler_nil s : dataHandler [] s = Ok tt s [].
Proof.
  rewrite dataHandler_as_core. unfold dataHandler_core. simpl.
  rewrite bind_ret_l. unfold modify. rewrite set_unprocessedData_same. reflexivity.
Qed.

Lemma feed_concat chunks s : feed chunks s = dataHandler (concat chunks) s.
Proof.
  revert s. induction chunks as [|c chunks IH]; intros s; simpl.
  - symmetry. apply dataHandler_nil.
  - rewrite dataHandler_app. apply bind_ext. intros _ s1. apply IH.
Qed.

End Reassembler.

Lemma processed_packets_cons p tr :
  processed_packets (EvProcessPacket p :: tr) = p :: processed_packets tr.
Proof. reflexivity. Qed.

Section ReassemblerClaims.
Context {codec : Codec}.

Lemma dataHandler_byte_end_of_packet packet s :
  c0Found s = true -> length (packet ++ [0xC0]) <> 2%nat ->
  dataHandler_byte 0xC0 packet s =
  match processPacket (packet ++ [0xC0]) s with
  | Ok _ s1 t1 =>
      Ok [] (set_c0Found false (set_unprocessedData [] s1))
         (EvProcessPacket (packet ++ [0xC0]) :: t1)
  | Fault t1 => Fault (EvProcessPacket (packet ++ [0xC0]) :: t1)
  | Pending t1 => Pending (EvProcessPacket (packet ++ [0xC0]) :: t1)
  end.
Proof.
  intros Hc0 Hlen. unfold dataHandler_byte.
  change (0xC0 =? 0xC0) with true. cbv iota. rewrite bind_gets, Hc0.
  apply Nat.eqb_neq in Hlen. rewrite Hlen. rewrite bind_emit.
  unfold bind at 1.
  destruct (processPacket (packet ++ [0xC0]) s) as [[] s1 t1 | t1 | t1]; try reflexivity.
  mnorm. simpl. rewrite app_nil_r. reflexivity.
Qed.

(** [dataHandler] on a chunk of one byte is one round of the loop on the
    buffer carried over, whose result is stored. *)
Lemma dataHandler_single b s :
  dataHandler [b] s =
  bind (dataHandler_byte b (unprocessedData s))
       (fun packet' => modify (set_unprocessedData packet')) s.
Proof.
  rewrite dataHandler_as_core. unfold dataHandler_core. simpl.
  rewrite bind_assoc. apply bind_ext. intros packet' s1.
  rewrite bind_ret_l. reflexivity.
Qed.

(** C4. What [dataHandler] does with each incoming byte, the buffer being
    what earlier calls left in [unprocessedData].  A byte other than 0xC0
    is only appended to the buffer.  A boundary byte 0xC0 with no start
    seen starts a packet: the buffer becomes the single byte 0xC0 and
    [c0Found] is set.  Right after a start (the buffer then has length two)
    it is a fresh start: the buffer is the single byte 0xC0 again and
    nothing is emitted.  Otherwise the buffer, with the byte, is handed to
    the dispatcher as one framed packet, and the buffer and [c0Found] are
    cleared.  The bytes of a chunk are taken one by one in order, and what
    is left in the buffer at the end of a chunk is carried over: a chunk
    cut in two at any place, given in two calls, has the same outcome. *)
Theorem dataHandler_boundary_byte (b : Z) (s : H5Transport) :
  let packet := unprocessedData s in
  (b <> 0xC0 ->
   dataHandler [b] s = Ok tt (set_unprocessedData (packet ++ [b]) s) []) /\
  (c0Found s = false ->
   dataHandler [0xC0] s = Ok tt (set_unprocessedData [0xC0] (set_c0Found true s)) []) /\
  (c0Found s = true -> length (packet ++ [0xC0]) = 2%nat ->
   dataHandler [0xC0] s = Ok tt (set_unprocessedData [0xC0] s) []) /\
  (c0Found s = true -> length (packet ++ [0xC0]) <> 2%nat ->
   processed_packets (trace_of (dataHandler [0xC0] s)) = [packet ++ [0xC0]] /\
   forall s' tr,
     dataHandler [0xC0] s = Ok tt s' tr ->
     unprocessedData s' = [] /\ c0Found s' = false /\
     exists s1 t1,
       processPacket (packet ++ [0xC0]) s = Ok tt s1 t1 /\
       s' = set_c0Found false (set_unprocessedData [] s1) /\
       tr = EvProcessPacket (packet ++ [0xC0]) :: t1) /\
  (forall data1 data2,
     dataHandler (data1 ++ data2) s =
     bind (dataHandler data1) (fun _ => dataHandler data2) s) /\
  (forall data,
     dataHandler (b :: data) s = bind (dataHandler [b]) (fun _ => dataHandler data) s).
Proof.
  intros packet. subst packet.
  assert (Hend : c0Found s = true -> length (unprocessedData s ++ [0xC0]) <> 2%nat ->
    dataHandler [0xC0] s =
    match processPacket (unprocessedData s ++ [0xC0]) s with
    | Ok _ s1 t1 =>
        Ok tt (set_c0Found false (set_unprocessedData [] s1))
           (EvProcessPacket (unprocessedData s ++ [0xC0]) :: t1)
    | Fault t1 => Fault (EvProcessPacket (unprocessedData s ++ [0xC0]) :: t1)
    | Pending t1 => Pending (EvProcessPacket (unprocessedData s ++ [0xC0]) :: t1)
    end).
  { intros Hc0 Hlen. rewrite dataHandler_single. unfold bind at 1.
    rewrite dataHandler_byte_end_of_packet by assumption.
    destruct (processPacket (unprocessedData s ++ [0xC0]) s) as [[] s1 t1 | t1 | t1];
      try reflexivity.
    unfold modify. simpl. rewrite app_nil_r. destruct s1; reflexivity. }
  split; [|split; [|split; [|split; [|split]]]].
  - intros Hb. rewrite dataHandler_single. unfold dataHandler_byte.
    apply Z.eqb_neq in Hb. rewrite Hb. rewrite bind_ret_l. reflexivity.
  - intros Hc0. rewrite dataHandler_single. unfold dataHandler_byte.
    change (0xC0 =? 0xC0) with true. cbv iota.
    mnorm. rewrite Hc0. mnorm. reflexivity.
  - intros Hc0 Hlen. rewrite dataHandler_single. unfold dataHandler_byte.
    change (0xC0 =? 0xC0) with true. cbv iota.
    mnorm. rewrite Hc0, Hlen. mnorm. reflexivity.
  - intros Hc0 Hlen. rewrite (Hend Hc0 Hlen).
    pose proof (processPacket_quiet_processed (unprocessedData s ++ [0xC0]) s) as Hq.
    fold (processed_packets (trace_of (processPacket (unprocessedData s ++ [0xC0]) s))) in Hq.
    split.
    + destruct (processPacket (unprocessedData s ++ [0xC0]) s); cbn [trace_of] in *;
        rewrite processed_packets_cons, Hq; reflexivity.
    + intros s' tr Hrun.
      destruct (processPacket (unprocessedData s ++ [0xC0]) s) as [[] s1 t1 | t1 | t1];
        inversion Hrun; subst.
      split; [reflexivity|]. split; [reflexivity|].
      exists s1, t1. split; [reflexivity|]. split; reflexivity.
  - intros data1 data2. apply dataHandler_app.
  - intros data. apply (dataHandler_app [b] data s).
Qed.

(** C5. However a byte stream is cut into chunks, feeding the chunks in
    order to [dataHandler] has the same outcome: the same framed packets are
    handed to [processPacket] in the same order, with the same effects, and
    the instance ends in the same state. *)
Theorem dataHandler_chunking_invariant (chunks1 chunks2 : list (list Z)) (s : H5Transport) :
  concat chunks1 = concat chunks2 ->
  feed chunks1 s = feed chunks2 s /\
  processed_packets (trace_of (feed chunks1 s)) =
  processed_packets (trace_of (feed chunks2 s)).
Proof.
  intros Hcat. rewrite !feed_concat, Hcat. split; reflexivity.
Qed.

End ReassemblerClaims.

Lemma dataHandler_boundary_byte_witness :
  dataHandler (codec := sample_codec) [0xC0]
    (set_unprocessedData [0x01] sample_active)
    = Ok tt (set_unprocessedData [0xC0]
               (set_c0Found true (set_unprocessedData [0x01] sample_active))) [] /\
  processed_packets
    (trace_of (dataHandler (codec := sample_codec) [0xC0]
                 (set_unprocessedData [0xC0; 0x01; 0x02] (set_c0Found true sample_active))))
    = [[0xC0; 0x01; 0x02] ++ [0xC0]].
Proof.
  split.
  - exact (proj1 (proj2 (dataHandler_boundary_byte (codec := sample_codec) 0xC0
                           (set_unprocessedData [0x01] sample_active)))
             eq_refl).
  - refine (proj1 (proj1 (proj2 (proj2 (proj2
              (dataHandler_boundary_byte (codec := sample_codec) 0xC0
                 (set_unprocessedData [0xC0; 0x01; 0x02]
                    (set_c0Found true sample_active))))))
              eq_refl _)).
    simpl. lia.
Defined.

Lemma dataHandler_chunking_invariant_witness :
  feed (codec := sample_codec) [[0x07; 0xC0; 0x01]; []; [0x02; 0xC0; 0xC0]] sample_active
    = feed (codec := sample_codec) [[0x07]; [0xC0; 0x01; 0x02; 0xC0]; [0xC0]] sample_active /\
  processed_packets
    (trace_of (feed (codec := sample_codec)
                 [[0x07; 0xC0; 0x01]; []; [0x02; 0xC0; 0xC0]] sample_active))
    = processed_packets
        (trace_of (feed (codec := sample_codec)
                     [[0x07]; [0xC0; 0x01; 0x02; 0xC0]; [0xC0]] sample_active)).
Proof.
  apply (dataHandler_chunking_invariant (codec := sample_codec)).
  reflexivity.
Defined.

(** ** The packet dispatcher *)

Ltac mrun := repeat (progress (mnorm; simpl)).

Lemma land7_mod256 (a : Z) : Z.land ((a + 1) mod 256) 0x07 = (a + 1) mod 8.
Proof.
  change 0x07 with (Z.ones 3). rewrite Z.land_ones by lia.
  change (2 ^ 3) with 8. apply Z.mod_mod_divide.
  exists 32. reflexivity.
Qed.

Lemma upper_data_app t1 t2 : upper_data (t1 ++ t2) = upper_data t1 ++ upper_data t2.
Proof. apply omap_app. Qed.

Lemma lower_sends_app t1 t2 : lower_sends (t1 ++ t2) = lower_sends t1 ++ lower_sends t2.
Proof. apply omap_app. Qed.

Section DispatcherClaims.
Context {codec : Codec}.

(** A reliable VENDOR_SPECIFIC frame in [STATE_ACTIVE], in sequence. *)
Lemma processPacket_reliable_in_sequence packet slipPayload hdr s :
  slip_decode packet = Some slipPayload ->
  h5_decode slipPayload = Some hdr ->
  packet_type hdr = VENDOR_SPECIFIC_PACKET ->
  reliable_packet hdr = true ->
  currentState s = STATE_ACTIVE ->
  upperDataCallback (base s) = true ->
  seq_num hdr = ackNum s ->
  processPacket packet s =
  Ok tt
    (set_outgoingPacketCount (outgoingPacketCount s + 1)
       (set_ackNum (Z.land ((ackNum s + 1) mod 256) 0x07)
          (set_ackNum ((ackNum s + 1) mod 256)
             (set_incomingPacketCount (incomingPacketCount s + 1) s))))
    [EvLog; EvLog;
     EvLowerSend (ack_packet (Z.land ((ackNum s + 1) mod 256) 0x07));
     EvUpperData (h5Payload hdr)].
Proof.
  intros Hs Hh Ht Hr Hst Hcb Hseq. unfold processPacket. rewrite Hs, Hh.
  unfold_methods. mrun. rewrite Hst, Ht, Hr. simpl. mrun.
  rewrite Hseq, Z.eqb_refl. mrun. rewrite Hcb. mrun. reflexivity.
Qed.

(** A reliable VENDOR_SPECIFIC frame in [STATE_ACTIVE], out of sequence. *)
Lemma processPacket_reliable_out_of_sequence packet slipPayload hdr s :
  slip_decode packet = Some slipPayload ->
  h5_decode slipPayload = Some hdr ->
  packet_type hdr = VENDOR_SPECIFIC_PACKET ->
  reliable_packet hdr = true ->
  currentState s = STATE_ACTIVE ->
  seq_num hdr <> ackNum s ->
  processPacket packet s =
  Ok tt
    (set_outgoingPacketCount (outgoingPacketCount s + 1)
       (set_incomingPacketCount (incomingPacketCount s + 1) s))
    [EvLog; EvLog; EvLowerSend (ack_packet (ackNum s))].
Proof.
  intros Hs Hh Ht Hr Hst Hseq. unfold processPacket. rewrite Hs, Hh.
  unfold_methods. mrun. rewrite Hst, Ht, Hr. simpl. mrun.
  apply Z.eqb_neq in Hseq. rewrite Hseq. mrun. reflexivity.
Qed.

Lemma decode_packet_Some packet hdr :
  decode_packet packet = Some hdr ->
  exists slipPayload, slip_decode packet = Some slipPayload /\ h5_decode slipPayload = Some hdr.
Proof.
  unfold decode_packet. destruct (slip_decode packet) as [sp|]; [|discriminate].
  intros H. exists sp. auto.
Qed.

Lemma reliable_vendor_specific_true hdr :
  reliable_vendor_specific hdr = true ->
  packet_type hdr = VENDOR_SPECIFIC_PACKET /\ reliable_packet hdr = true.
Proof.
  unfold reliable_vendor_specific. intros H. apply andb_prop in H as [H1 H2].
  apply bool_decide_eq_true in H1. auto.
Qed.

Lemma process_all_reliable packets hdrs :
  Forall2 (fun packet hdr => decode_packet packet = Some hdr /\
                             reliable_vendor_specific hdr = true) packets hdrs ->
  forall s,
    currentState s = STATE_ACTIVE ->
    upperDataCallback (base s) = true ->
    exists s' tr,
      process_all packets s = Ok tt s' tr /\
      currentState s' = STATE_ACTIVE /\
      upper_data tr = in_sequence (ackNum s) hdrs /\
      lower_sends tr = map ack_packet (acks_for (ackNum s) hdrs).
Proof.
  induction 1 as [|packet hdr packets hdrs [Hdec Hrel] _ IH]; intros s Hst Hcb.
  - exists s, []. auto.
  - apply decode_packet_Some in Hdec as (sp & Hs & Hh).
    apply reliable_vendor_specific_true in Hrel as [Ht Hr].
    simpl. destruct (Z.eqb_spec (seq_num hdr) (ackNum s)) as [Hseq|Hseq].
    + pose proof (processPacket_reliable_in_sequence _ _ _ _ Hs Hh Ht Hr Hst Hcb Hseq) as Hp.
      match type of Hp with _ = Ok _ ?s1 _ => destruct (IH s1) as (s' & tr & Hrun & Hst' & Hup & Hlo) end;
        [exact Hst | exact Hcb |].
      simpl in Hup, Hlo. rewrite land7_mod256 in Hup, Hlo.
      eexists s', _. unfold bind. rewrite Hp, Hrun. simpl. split; [reflexivity|].
      split; [exact Hst'|]. rewrite land7_mod256.
      change (?a :: ?b :: ?c :: ?d :: tr) with ([a; b; c; d] ++ tr).
      rewrite upper_data_app, lower_sends_app, Hup, Hlo. split; reflexivity.
    + pose proof (processPacket_reliable_out_of_sequence _ _ _ _ Hs Hh Ht Hr Hst Hseq) as Hp.
      match type of Hp with _ = Ok _ ?s1 _ => destruct (IH s1) as (s' & tr & Hrun & Hst' & Hup & Hlo) end;
        [exact Hst | exact Hcb |].
      simpl in Hup, Hlo.
      eexists s', _. unfold bind. rewrite Hp, Hrun. simpl. split; [reflexivity|].
      split; [exact Hst'|].
      change (?a :: ?b :: ?c :: tr) with ([a; b; c] ++ tr).
      rewrite upper_data_app, lower_sends_app, Hup, Hlo. split; reflexivity.
Qed.

(** C2. A decoded VENDOR_SPECIFIC packet with the reliable flag, received
    in [STATE_ACTIVE]: when its sequence number is [ackNum], [ackNum] moves
    on by one modulo 8, one ACK carrying the new number is sent and the
    payload is given to the upper data callback once; otherwise one ACK
    carrying the unchanged [ackNum] is sent and nothing is delivered.  Over a
    run of such packets the delivered payloads are those of the frames in
    sequence, and every frame is answered by one ACK. *)
Theorem reliable_frames_delivered_in_sequence :
  (forall packet hdr s,
      decode_packet packet = Some hdr ->
      reliable_vendor_specific hdr = true ->
      currentState s = STATE_ACTIVE ->
      upperDataCallback (base s) = true ->
      exists s' tr,
        processPacket packet s = Ok tt s' tr /\
        (seq_num hdr = ackNum s ->
         ackNum s' = (ackNum s + 1) mod 8 /\
         lower_sends tr = [ack_packet (ackNum s')] /\
         upper_data tr = [h5Payload hdr]) /\
        (seq_num hdr <> ackNum s ->
         ackNum s' = ackNum s /\
         lower_sends tr = [ack_packet (ackNum s)] /\
         upper_data tr = [])) /\
  (forall packets hdrs s,
      Forall2 (fun packet hdr => decode_packet packet = Some hdr /\
                                 reliable_vendor_specific hdr = true) packets hdrs ->
      currentState s = STATE_ACTIVE ->
      upperDataCallback (base s) = true ->
      exists s' tr,
        process_all packets s = Ok tt s' tr /\
        upper_data tr = in_sequence (ackNum s) hdrs /\
        lower_sends tr = map ack_packet (acks_for (ackNum s) hdrs) /\
        length (lower_sends tr) = length packets).
Proof.
  split.
  - intros packet hdr s Hdec Hrel Hst Hcb.
    apply decode_packet_Some in Hdec as (sp & Hs & Hh).
    apply reliable_vendor_specific_true in Hrel as [Ht Hr].
    destruct (Z.eq_dec (seq_num hdr) (ackNum s)) as [Hseq|Hseq].
    + eexists _, _. split.
      * apply (processPacket_reliable_in_sequence _ _ _ _ Hs Hh Ht Hr Hst Hcb Hseq).
      * split; [|contradiction]. intros _. simpl. rewrite land7_mod256. auto.
    + eexists _, _. split.
      * apply (processPacket_reliable_out_of_sequence _ _ _ _ Hs Hh Ht Hr Hst Hseq).
      * split; [contradiction|]. intros _. simpl. auto.
  - intros packets hdrs s Hall Hst Hcb.
    destruct (process_all_reliable packets hdrs Hall s Hst Hcb)
      as (s' & tr & Hrun & _ & Hup & Hlo).
    exists s', tr. repeat split; try assumption.
    rewrite Hlo, length_map.
    apply Forall2_length in Hall. rewrite Hall.
    clear. generalize (ackNum s). induction hdrs as [|h hdrs IH]; intros e; simpl.
    + reflexivity.
    + destruct (seq_num h =? e); simpl; rewrite IH; reflexivity.
Qed.

End DispatcherClaims.

(** ** ACK packets *)

Section AckPackets.
Context {codec : Codec}.

(** An ACK for the packet in flight. *)
Lemma processPacket_ack_next packet slipPayload hdr s :
  slip_decode packet = Some slipPayload ->
  h5_decode slipPayload = Some hdr ->
  packet_type hdr = ACK_PACKET ->
  currentState s <> STATE_RESET ->
  ack_num hdr = Z.land (seqNum s + 1) 0x07 ->
  processPacket packet s =
  Ok tt
    (set_seqNum (Z.land ((seqNum s + 1) mod 256) 0x07)
       (set_seqNum ((seqNum s + 1) mod 256)
          (set_incomingPacketCount (incomingPacketCount s + 1) s)))
    [EvLog; EvNotify ackWaitCondition].
Proof.
  intros Hs Hh Ht Hst Hack. unfold processPacket. rewrite Hs, Hh.
  unfold_methods. mrun. rewrite Ht.
  destruct (decide (currentState s = STATE_RESET)) as [E|_]; [contradiction|].
  simpl. mrun. rewrite Hack, Z.eqb_refl. mrun. reflexivity.
Qed.

(** A stale ACK. *)
Lemma processPacket_ack_stale packet slipPayload hdr s :
  slip_decode packet = Some slipPayload ->
  h5_decode slipPayload = Some hdr ->
  packet_type hdr = ACK_PACKET ->
  currentState s <> STATE_RESET ->
  ack_num hdr <> Z.land (seqNum s + 1) 0x07 ->
  ack_num hdr = seqNum s ->
  processPacket packet s =
  Ok tt (set_incomingPacketCount (incomingPacketCount s + 1) s) [EvLog].
Proof.
  intros Hs Hh Ht Hst Hnext Hack. unfold processPacket. rewrite Hs, Hh.
  unfold_methods. mrun. rewrite Ht.
  destruct (decide (currentState s = STATE_RESET)) as [E|_]; [contradiction|].
  simpl. mrun. apply Z.eqb_neq in Hnext. rewrite Hnext.
  rewrite Hack, Z.eqb_refl. reflexivity.
Qed.

(** Any other ACK in [STATE_ACTIVE]. *)
Lemma processPacket_ack_out_of_sync packet slipPayload hdr s io c err sync :
  slip_decode packet = Some slipPayload ->
  h5_decode slipPayload = Some hdr ->
  packet_type hdr = ACK_PACKET ->
  currentState s = STATE_ACTIVE ->
  exitCriterias s !! STATE_ACTIVE = Some (ActiveExitCriterias io c err sync) ->
  ack_num hdr <> Z.land (seqNum s + 1) 0x07 ->
  ack_num hdr <> seqNum s ->
  processPacket packet s =
  Ok tt
    (set_exitCriterias
       (<[STATE_ACTIVE := ActiveExitCriterias io c true sync]> (exitCriterias s))
       (set_incomingPacketCount (incomingPacketCount s + 1) s))
    [EvLog; EvNotify stateMachineChange].
Proof.
  intros Hs Hh Ht Hst Hrec Hnext Hack. unfold processPacket. rewrite Hs, Hh.
  unfold_methods. mrun. rewrite Ht, Hst. simpl. mrun.
  apply Z.eqb_neq in Hnext, Hack. rewrite Hnext, Hack. mrun.
  rewrite Hrec. cbv iota beta. rewrite Hrec. rewrite decide_True by reflexivity.
  rewrite (bind_write_exit _ _ _ _ (ActiveExitCriterias io c err sync)) by exact Hrec.
  reflexivity.
Qed.

(** Any other ACK in a state whose record is not an [ActiveExitCriterias]:
    the [dynamic_cast] yields a null pointer and the flag is written through
    it. *)
Lemma processPacket_ack_null_write packet slipPayload hdr s :
  slip_decode packet = Some slipPayload ->
  h5_decode slipPayload = Some hdr ->
  packet_type hdr = ACK_PACKET ->
  currentState s <> STATE_RESET ->
  currentState s <> STATE_ACTIVE ->
  exit_table_ok s ->
  ack_num hdr <> Z.land (seqNum s + 1) 0x07 ->
  ack_num hdr <> seqNum s ->
  processPacket packet s = Fault [EvLog].
Proof.
  intros Hs Hh Ht Hreset Hactive Hok Hnext Hack. unfold processPacket. rewrite Hs, Hh.
  unfold_methods. mrun. rewrite Ht.
  destruct (decide (currentState s = STATE_RESET)) as [E|_]; [contradiction|].
  simpl. mrun. apply Z.eqb_neq in Hnext, Hack. rewrite Hnext, Hack. mrun.
  specialize (Hok (currentState s)).
  destruct (exitCriterias s !! currentState s) as [e|] eqn:Hrec; simpl in *.
  - mrun. rewrite Hrec.
    destruct (decide (class_of e = STATE_ACTIVE)) as [Hc|_].
    + destruct (no_exit_record (currentState s)); congruence.
    + reflexivity.
  - mrun. reflexivity.
Qed.

End AckPackets.

(** C1 (the code departs from it). The ACK branch of [processPacket] does
    not test [currentState]: in [STATE_INITIALIZED], with [seqNum] 0, an ACK
    whose ack field is 1 advances [seqNum] to 1 and notifies the ack
    condition, and an ACK whose ack field is 3 writes
    [irrecoverableSyncError] through the null pointer that the cast of the
    INITIALIZED record to [ActiveExitCriterias] yields. *)
Theorem ack_outside_active_is_not_dropped :
  let s := set_currentState STATE_INITIALIZED sample_active in
  currentState s = STATE_INITIALIZED /\
  seqNum s = 0 /\
  decode_packet (codec := sample_codec) [0xC0; 0x08; 0x00; 0x00; 0xF7; 0xC0]
    = Some (mkH5Header [] 0 1 false ACK_PACKET) /\
  (exists s',
      processPacket (codec := sample_codec) [0xC0; 0x08; 0x00; 0x00; 0xF7; 0xC0] s
        = Ok tt s' [EvLog; EvNotify ackWaitCondition] /\
      seqNum s' = 1) /\
  decode_packet (codec := sample_codec) [0xC0; 0x18; 0x00; 0x00; 0xE7; 0xC0]
    = Some (mkH5Header [] 0 3 false ACK_PACKET) /\
  processPacket (codec := sample_codec) [0xC0; 0x18; 0x00; 0x00; 0xE7; 0xC0] s
    = Fault [EvLog].
Proof.
  repeat split; try reflexivity.
  eexists. split; reflexivity.
Qed.

(** ** Status and close once the state machine has ended *)

Lemma exit_table_no_record s :
  exit_table_ok s -> no_exit_record (currentState s) = true ->
  exitCriterias s !! currentState s = None.
Proof.
  intros Hok Hno. specialize (Hok (currentState s)). rewrite Hno in Hok.
  destruct (exitCriterias s !! currentState s); [discriminate | reflexivity].
Qed.

(** C10. In a state without an exit-criteria record (FAILED, CLOSED,
    UNKNOWN) the table lookup yields a null pointer: [statusHandler] on
    IO_RESOURCES_UNAVAILABLE sets no flag, changes nothing, notifies, and
    hands the code to the upper status callback when one is registered;
    [close] sets no flag either, notifies, joins the state-machine thread
    when it is joinable, closes the lower transport and the base class, and
    returns the first status that is not a success. *)
Theorem terminated_state_status_and_close
    (s : H5Transport) (errorCode1 errorCode2 : nrf_error_t) :
  exit_table_ok s ->
  no_exit_record (currentState s) = true ->
  statusHandler IO_RESOURCES_UNAVAILABLE s =
    Ok tt s
       (EvNotify stateMachineChange ::
        if upperStatusCallback (base s)
        then [EvUpperStatus IO_RESOURCES_UNAVAILABLE] else []) /\
  exists s',
    close errorCode1 errorCode2 s =
      Ok (if decide (errorCode1 <> NRF_SUCCESS) then errorCode1 else errorCode2) s'
         (EvNotify stateMachineChange ::
          (if stateMachineThread s then [EvThreadJoin] else []) ++
          [EvLowerClose; EvTransportClose]) /\
    exitCriterias s' = exitCriterias s /\
    currentState s' = currentState s /\
    stateMachineThread s' = false.
Proof.
  intros Hok Hno. pose proof (exit_table_no_record s Hok Hno) as Hrec. split.
  - unfold_methods. mrun. rewrite Hrec. mrun.
    destruct (upperStatusCallback (base s)); reflexivity.
  - unfold close. unfold_methods. mrun. rewrite Hrec. mrun.
    destruct (stateMachineThread s) eqn:Hj; mrun;
      destruct (decide (errorCode1 <> NRF_SUCCESS)); mrun;
      eexists; (split; [reflexivity|]); simpl; auto.
Qed.

Lemma terminated_state_status_and_close_witness :
  let s := set_stateMachineThread true (set_currentState STATE_FAILED sample_active) in
  statusHandler IO_RESOURCES_UNAVAILABLE s =
    Ok tt s
       (EvNotify stateMachineChange ::
        if upperStatusCallback (base s)
        then [EvUpperStatus IO_RESOURCES_UNAVAILABLE] else []) /\
  exists s',
    close NRF_SUCCESS NRF_SUCCESS s =
      Ok (if decide (NRF_SUCCESS <> NRF_SUCCESS) then NRF_SUCCESS else NRF_SUCCESS) s'
         (EvNotify stateMachineChange ::
          (if stateMachineThread s then [EvThreadJoin] else []) ++
          [EvLowerClose; EvTransportClose]) /\
    exitCriterias s' = exitCriterias s /\
    currentState s' = currentState s /\
    stateMachineThread s' = false.
Proof.
  apply terminated_state_status_and_close.
  - intros st. destruct st; reflexivity.
  - reflexivity.
Defined.

(** ** The reliable sender *)

Lemma lower_sends_attempt p cv timeout tr :
  lower_sends (EvLog :: EvLowerSend p :: EvWait cv timeout :: tr) = p :: lower_sends tr.
Proof. reflexivity. Qed.

Section Sender.
Context {codec : Codec}.
Variable others : interference.
Hypothesis others_keep_lastPacket : forall k, keeps_lastPacket (others k).

Lemma ack_seen_S k0 j s :
  ack_seen others k0 (S j) s =
  ack_seen others (S k0) j
    (others k0 (set_outgoingPacketCount (outgoingPacketCount s + 1) s)).
Proof. unfold ack_seen. simpl. rewrite Nat.add_succ_r. reflexivity. Qed.

(** The retransmission loop, entered with [remaining] attempts left before
    wait [k]. *)
Lemma send_loop_outcome h5EncodedPacket remaining :
  forall k s,
    exists r s' tr n,
      send_loop others h5EncodedPacket remaining k s = Ok r s' tr /\
      lastPacket s' = [] /\
      lower_sends tr = repeat (lastPacket s) n /\
      (forall j, (j < n - 1)%nat -> ack_seen others k j s = false) /\
      ((r = NRF_SUCCESS /\ (1 <= n <= remaining)%nat /\
        ack_seen others k (n - 1) s = true) \/
       (r = NRF_ERROR_TIMEOUT /\ n = remaining /\
        forall j, (j < remaining)%nat -> ack_seen others k j s = false)).
Proof.
  induction remaining as [|remaining IH]; intros k s.
  - exists NRF_ERROR_TIMEOUT, (set_lastPacket [] s), [], 0%nat. simpl.
    repeat split; try reflexivity; try (intros; lia).
    right. repeat split. intros; lia.
  - simpl. unfold_methods. mrun.
    set (s1 := set_outgoingPacketCount (outgoingPacketCount s + 1) s).
    destruct (seqNum (others k s1) =? seqNum s) eqn:Hseq; simpl.
    + destruct (IH (S k) (others k s1)) as (r & s' & tr & n & Hrun & Hlast & Hsends & Hbefore & Hout).
      rewrite Hrun. simpl.
      rewrite others_keep_lastPacket in Hsends. change (lastPacket s1) with (lastPacket s) in Hsends.
      assert (Hfirst : ack_seen others k 0 s = false).
      { unfold ack_seen. simpl. rewrite Nat.add_0_r. fold s1.
        change (seqNum s1) with (seqNum s). rewrite Hseq. reflexivity. }
      exists r, s', (EvLog :: EvLowerSend (lastPacket s)
                  :: EvWait ackWaitCondition (Some (retransmissionInterval s)) :: tr), (S n).
      split; [reflexivity|]. split; [exact Hlast|].
      split; [rewrite lower_sends_attempt, Hsends; reflexivity|].
      split.
      * intros [|j] Hj; [exact Hfirst|]. rewrite ack_seen_S. apply Hbefore. lia.
      * destruct Hout as [(-> & Hn & Hseen) | (-> & -> & Hnone)].
        -- left. split; [reflexivity|]. split; [lia|].
           replace (S n - 1)%nat with (S (n - 1)) by lia.
           rewrite ack_seen_S. exact Hseen.
        -- right. split; [reflexivity|]. split; [reflexivity|].
           intros [|j] Hj; [exact Hfirst|]. rewrite ack_seen_S. apply Hnone. lia.
    + exists NRF_SUCCESS, (set_lastPacket [] (others k s1)),
        [EvLog; EvLowerSend (lastPacket s);
         EvWait ackWaitCondition (Some (retransmissionInterval s))], 1%nat.
      split; [reflexivity|]. split; [reflexivity|]. split; [reflexivity|].
      split; [intros; lia|].
      left. split; [reflexivity|]. split; [lia|].
      unfold ack_seen. simpl. rewrite Nat.add_0_r. fold s1.
      change (seqNum s1) with (seqNum s). rewrite Hseq. reflexivity.
Qed.

(** C3.  As amended: [send] outside [STATE_ACTIVE] returns INVALID_STATE with
    nothing sent and nothing changed, [lastPacket] included: the guard
    returns before [lastPacket] is touched.  In [STATE_ACTIVE] it gives the
    encoded packet to the lower transport at least once and at most six
    times, returns SUCCESS exactly when one of its waits sees [seqNum]
    change from the value it had before the wait, returns TIMEOUT after six
    attempts otherwise, and leaves [lastPacket] empty in both cases.  So
    after every return of [send], [lastPacket] is empty when the call was
    made in [STATE_ACTIVE] and is what the call found otherwise. *)
Theorem send_outcome (data : payload_t) (s : H5Transport) :
  (currentState s <> STATE_ACTIVE ->
   send others data s = Ok NRF_ERROR_INVALID_STATE s []) /\
  (currentState s = STATE_ACTIVE ->
   let encodedPacket :=
     slip_encode (h5_encode data (seqNum s) (ackNum s) true true VENDOR_SPECIFIC_PACKET) in
   let s0 := set_lastPacket encodedPacket s in
   exists r s' tr n,
     send others data s = Ok r s' tr /\
     lastPacket s' = [] /\
     (1 <= n <= PACKET_RETRANSMISSIONS)%nat /\
     lower_sends tr = repeat encodedPacket n /\
     (r = NRF_SUCCESS \/ r = NRF_ERROR_TIMEOUT) /\
     (r = NRF_SUCCESS <->
      exists k, (k < PACKET_RETRANSMISSIONS)%nat /\ ack_seen others 0 k s0 = true) /\
     (r = NRF_SUCCESS -> ack_seen others 0 (n - 1) s0 = true) /\
     (r = NRF_ERROR_TIMEOUT -> n = PACKET_RETRANSMISSIONS)) /\
  (forall r s' tr,
     send others data s = Ok r s' tr ->
     lastPacket s' =
       if decide (currentState s = STATE_ACTIVE) then [] else lastPacket s).
Proof.
  assert (Hactive : currentState s = STATE_ACTIVE ->
    let encodedPacket :=
      slip_encode (h5_encode data (seqNum s) (ackNum s) true true VENDOR_SPECIFIC_PACKET) in
    let s0 := set_lastPacket encodedPacket s in
    send others data s =
    send_loop others (h5_encode data (seqNum s) (ackNum s) true true VENDOR_SPECIFIC_PACKET)
      PACKET_RETRANSMISSIONS 0 s0).
  { intros Hst. unfold send. mrun. rewrite Hst.
    destruct (decide (STATE_ACTIVE <> STATE_ACTIVE)) as [N|_]; [contradiction|].
    mrun. reflexivity. }
  assert (Hidle : currentState s <> STATE_ACTIVE ->
    send others data s = Ok NRF_ERROR_INVALID_STATE s []).
  { intros Hst. unfold send. mrun.
    destruct (decide (currentState s <> STATE_ACTIVE)) as [_|N]; [reflexivity|contradiction]. }
  split; [exact Hidle|]. split.
  - intros Hst encodedPacket s0. rewrite (Hactive Hst). fold encodedPacket. fold s0.
    destruct (send_loop_outcome
                (h5_encode data (seqNum s) (ackNum s) true true VENDOR_SPECIFIC_PACKET)
                PACKET_RETRANSMISSIONS 0%nat s0)
      as (r & s' & tr & n & Hrun & Hlast & Hsends & Hbefore & Hout).
    exists r, s', tr, n. split; [exact Hrun|]. split; [exact Hlast|].
    destruct Hout as [(-> & Hn & Hseen) | (-> & -> & Hnone)].
    + split; [exact Hn|]. split; [exact Hsends|]. split; [left; reflexivity|].
      split; [|split; [intros _; exact Hseen | discriminate]].
      split; [|reflexivity]. intros _. exists (n - 1)%nat. split; [lia | exact Hseen].
    + split; [unfold PACKET_RETRANSMISSIONS; lia|]. split; [exact Hsends|].
      split; [right; reflexivity|].
      split; [|split; [discriminate | reflexivity]].
      split; [discriminate|]. intros (k & Hk & Hseen). rewrite Hnone in Hseen by exact Hk.
      discriminate.
  - intros r s' tr Hrun.
    destruct (decide (currentState s = STATE_ACTIVE)) as [Hst|Hst].
    + rewrite (Hactive Hst) in Hrun.
      match type of Hrun with
      | send_loop _ ?e ?n ?k ?s0 = _ =>
          destruct (send_loop_outcome e n k s0) as (r1 & s1 & tr1 & n1 & Hrun1 & Hlast & _)
      end.
      rewrite Hrun1 in Hrun. inversion Hrun; subst. exact Hlast.
    + rewrite (Hidle Hst) in Hrun. inversion Hrun; subst. reflexivity.
Qed.

End Sender.

(** ** Invariants of the instance *)

Lemma keeps_class_setters :
  keeps_class reset /\ keeps_class set_ioResourceError /\ keeps_class set_close /\
  keeps_class set_isOpened /\ keeps_class set_resetSent /\ keeps_class set_resetWait /\
  keeps_class set_syncSent /\ keeps_class set_syncRspReceived /\
  keeps_class set_syncConfigSent /\ keeps_class set_syncConfigRspReceived /\
  keeps_class set_irrecoverableSyncError /\ keeps_class set_syncReceived.
Proof. repeat split; intros []; reflexivity. Qed.

Ltac keeps_class_tac :=
  solve [ apply keeps_class_setters | intros []; reflexivity ].

Section Invariant.
Context {codec : Codec}.
Variable P : H5Transport -> Prop.
Hypothesis HP : frame_invariant P.

Ltac frame_side :=
  intros;
  first
    [ apply (inv_write_exit P HP); [keeps_class_tac | assumption | assumption]
    | apply (inv_base P HP); assumption
    | apply (inv_c0Found P HP); assumption
    | apply (inv_unprocessedData P HP); assumption
    | apply (inv_lastPacket P HP); assumption
    | apply (inv_incomingPacketCount P HP); assumption
    | apply (inv_outgoingPacketCount P HP); assumption
    | apply (inv_errorPacketCount P HP); assumption
    | apply (inv_stateMachineReady P HP); assumption
    | apply (inv_statusCallback P HP); assumption
    | apply (inv_stateMachineThread P HP); assumption
    | apply (inv_zero_seqNum P HP); assumption
    | apply (inv_zero_ackNum P HP); assumption ].

Lemma incrementSeqNum_preserves : preserves P incrementSeqNum.
Proof.
  intros s a s' tr Hs. unfold incrementSeqNum. mrun. intros H. inversion H; subst.
  apply (inv_incrementSeqNum P HP) in Hs. exact Hs.
Qed.

Lemma incrementAckNum_preserves : preserves P incrementAckNum.
Proof.
  intros s a s' tr Hs. unfold incrementAckNum. mrun. intros H. inversion H; subst.
  apply (inv_incrementAckNum P HP) in Hs. exact Hs.
Qed.

Lemma sendControlPacket_preserves type : preserves P (sendControlPacket type).
Proof. unfold_callees. preserves_with frame_side. Qed.

Lemma statusHandler_preserves code : preserves P (statusHandler code).
Proof. unfold_callees. preserves_with frame_side. Qed.

Lemma processPacket_preserves packet : preserves P (processPacket packet).
Proof.
  pose proof incrementSeqNum_preserves. pose proof incrementAckNum_preserves.
  unfold_callees. preserves_with frame_side.
Qed.

Lemma dataHandler_loop_preserves data :
  forall packet, preserves P (dataHandler_loop data packet).
Proof.
  induction data as [|b data IH]; intros packet; simpl.
  - apply preserves_ret.
  - apply preserves_bind; [|exact IH].
    pose proof (processPacket_preserves (packet ++ [b])).
    unfold dataHandler_byte. preserves_with frame_side.
Qed.

Lemma dataHandler_preserves data : preserves P (dataHandler data).
Proof.
  pose proof dataHandler_loop_preserves.
  unfold dataHandler. preserves_with frame_side.
Qed.

Section WithInterference.
Variable others : interference.
Hypothesis others_preserve : forall k s, P s -> P (others k s).

Lemma wait_on_preserves cv timeout k : preserves P (wait_on cv timeout (others k)).
Proof. unfold wait_on. preserves_with ltac:(apply others_preserve). Qed.

Lemma send_loop_preserves h5EncodedPacket remaining :
  forall k, preserves P (send_loop others h5EncodedPacket remaining k).
Proof.
  induction remaining as [|remaining IH]; intros k; simpl.
  - preserves_with frame_side.
  - pose proof (wait_on_preserves ackWaitCondition) as Hw. pose proof (IH (S k)).
    unfold logPacket. preserves_with frame_side.
Qed.

Lemma send_preserves data : preserves P (send others data).
Proof.
  pose proof send_loop_preserves.
  unfold send. preserves_with frame_side.
Qed.

Lemma sync_loop_preserves exit type set_sent syncRetransmission :
  keeps_class set_sent ->
  forall k, preserves P (sync_loop others exit type set_sent syncRetransmission k).
Proof.
  intros Hsent. induction syncRetransmission as [|n IH]; intros k; simpl.
  - preserves_with frame_side.
  - pose proof (wait_on_preserves stateMachineChange) as Hw. pose proof (IH (S k)).
    pose proof sendControlPacket_preserves.
    apply preserves_bind; [apply preserves_read_exit | intros e].
    destruct (isFullfilled e); [apply preserves_ret|].
    apply preserves_bind; [auto | intros _].
    apply preserves_bind; [| intros _].
    + apply preserves_write_exit. intros. apply (inv_write_exit P HP); assumption.
    + apply preserves_bind; auto.
Qed.

Lemma stateActions_preserves st : preserves P (stateActions st others).
Proof.
  pose proof (wait_on_preserves stateMachineChange) as Hw.
  pose proof sendControlPacket_preserves. pose proof statusHandler_preserves.
  assert (Hsync : forall exit type set_sent n k,
             keeps_class set_sent -> preserves P (sync_loop others exit type set_sent n k))
    by (intros; apply sync_loop_preserves; assumption).
  destruct st; simpl;
    unfold stateAction_START, stateAction_RESET, stateAction_UNINITIALIZED,
      stateAction_INITIALIZED, stateAction_ACTIVE, stateAction_FAILED,
      stateAction_CLOSED, exitCriterias_at, dynamic_cast, log;
    repeat (cbv beta zeta;
      first
        [ solve [auto]
        | apply Hsync; keeps_class_tac
        | apply preserves_ret | apply preserves_gets | apply preserves_emit
        | apply preserves_fault | apply preserves_pending
        | apply preserves_read_exit
        | apply preserves_bind; [|intros ?]
        | apply preserves_modify; solve [frame_side]
        | apply preserves_write_exit; solve [frame_side]
        | match goal with
          | |- preserves _ (if ?b then _ else _) => destruct b
          | |- preserves _ (match ?x with _ => _ end) => destruct x
          end ]).
Qed.

End WithInterference.
End Invariant.

(** ** The sequence counters *)

Lemma land7_range (a : Z) : 0 <= Z.land a 0x07 <= 7.
Proof.
  assert (H : Z.land a 0x07 = a mod 8).
  { change 0x07 with (Z.ones 3). rewrite Z.land_ones by lia. reflexivity. }
  rewrite H. pose proof (Z.mod_pos_bound a 8). lia.
Qed.

Lemma counters_in_range_frame : frame_invariant counters_in_range.
Proof.
  constructor; try (intros; assumption).
  - intros s [_ Ha]. split; [apply land7_range | exact Ha].
  - intros s [Hs _]. split; [exact Hs | apply land7_range].
  - intros s [_ Ha]. split; [simpl; lia | exact Ha].
  - intros s [Hs _]. split; [exact Hs | simpl; lia].
Qed.

Ltac same_counters := intros; assumption.

Lemma close_counters_in_range errorCode1 errorCode2 :
  preserves counters_in_range (close errorCode1 errorCode2).
Proof. unfold close. unfold_callees. preserves_with same_counters. Qed.

Lemma open_counters_in_range {codec : Codec} callbacks baseResult lowerResult others :
  (forall k, keeps_counters_in_range (others k)) ->
  preserves counters_in_range (open callbacks baseResult lowerResult others).
Proof.
  intros Hothers. unfold open. unfold_callees.
  preserves_with ltac:(first [apply Hothers | same_counters]).
Qed.

(** C6. [seqNum] and [ackNum] are in [0, 7] in every state the instance
    reaches: both are 0 after construction, the ACTIVE action zeroes them,
    and every other write is one of the two increments, which mask with
    0x07. *)
Theorem sequence_counters_in_range {codec : Codec} (s : H5Transport) :
  reachable s -> 0 <= seqNum s <= 7 /\ 0 <= ackNum s <= 7.
Proof.
  intros Hs. change (counters_in_range s).
  induction Hs as
    [ interval
    | s callbacks baseResult lowerResult others r s' tr _ IH Hothers Hrun
    | s errorCode1 errorCode2 r s' tr _ IH Hrun
    | s others data r s' tr _ IH Hothers Hrun
    | s data s' tr _ IH Hrun
    | s code s' tr _ IH Hrun
    | s others nextState s' tr _ IH Hothers Hrun ].
  - split; simpl; lia.
  - exact (open_counters_in_range _ _ _ _ Hothers _ _ _ _ IH Hrun).
  - exact (close_counters_in_range _ _ _ _ _ _ IH Hrun).
  - exact (send_preserves _ counters_in_range_frame others Hothers data _ _ _ _ IH Hrun).
  - exact (dataHandler_preserves _ counters_in_range_frame data _ _ _ _ IH Hrun).
  - exact (statusHandler_preserves _ counters_in_range_frame code _ _ _ _ IH Hrun).
  - exact (stateActions_preserves _ counters_in_range_frame others Hothers _ _ _ _ _ IH Hrun).
Qed.

Lemma sequence_counters_in_range_witness :
  seqNum sample_exchanged = 1 /\ ackNum sample_exchanged = 1 /\
  upper_data
    (trace_of (dataHandler (codec := sample_codec) sample_data_frames sample_opened)) =
    repeat [0xAA] 9 /\
  (0 <= seqNum sample_exchanged <= 7 /\ 0 <= ackNum sample_exchanged <= 7).
Proof.
  split; [vm_compute; reflexivity|]. split; [vm_compute; reflexivity|].
  split; [vm_compute; reflexivity|].
  apply (sequence_counters_in_range (codec := sample_codec)).
  apply (reachable_send sample_received (sample_ack_during 0) [0x01; 0x02]
           NRF_SUCCESS sample_exchanged
           (trace_of (send (codec := sample_codec) (sample_ack_during 0) [0x01; 0x02]
                        sample_received))).
  - apply (reachable_dataHandler sample_opened sample_data_frames sample_received
             (trace_of (dataHandler (codec := sample_codec) sample_data_frames
                          sample_opened))).
    + apply (reachable_open (H5Transport_new 250) (mkTransport true true true)
               NRF_SUCCESS NRF_SUCCESS sample_worker_reaches_active
               NRF_SUCCESS sample_opened
               (trace_of (open (mkTransport true true true)
                            NRF_SUCCESS NRF_SUCCESS sample_worker_reaches_active
                            (H5Transport_new 250)))).
      * apply reachable_new.
      * intros k s Hs. destruct k; exact Hs.
      * vm_compute. reflexivity.
    + vm_compute. reflexivity.
  - intros k s [Hseq Hack]. unfold sample_ack_during.
    destruct (k =? 0)%nat; [|split; assumption].
    split; [apply land7_range | exact Hack].
  - vm_compute. reflexivity.
Defined.

(** ** The state machine *)

Lemma returns_bind_any {A B} (Q : B -> H5Transport -> Prop) (m : M A) (k : A -> M B) s :
  (forall a s1, returns_at Q (k a) s1) -> returns_at Q (bind m k) s.
Proof.
  intros Hk b s' tr H. apply bind_Ok_inv in H as (a & s1 & t1 & t2 & _ & H2 & _).
  exact (Hk a s1 b s' t2 H2).
Qed.

Lemma returns_bind_gets {A B} (Q : B -> H5Transport -> Prop) (f : H5Transport -> A)
    (k : A -> M B) s :
  returns_at Q (k (f s)) s -> returns_at Q (bind (gets f) k) s.
Proof. intros Hk b s' tr H. rewrite bind_gets in H. exact (Hk b s' tr H). Qed.

Lemma returns_null_write {B} (Q : B -> H5Transport -> Prop) f (k : unit -> M B) s :
  returns_at Q (bind (write_exit None f) k) s.
Proof. intros b s' tr H. discriminate. Qed.

(** The pointer an action takes to the record of its state is that record
    or null. *)
Lemma returns_state_ptr {B} (Q : B -> H5Transport -> Prop) st cls (k : exit_ptr -> M B) s :
  returns_at Q (k (Some st)) s ->
  returns_at Q (k None) s ->
  returns_at Q (bind (exitCriterias_at st) (fun p => bind (dynamic_cast cls p) k)) s.
Proof.
  intros Hsome Hnone b s' tr H. unfold exitCriterias_at, dynamic_cast in H.
  rewrite bind_gets in H. cbv beta in H. rewrite bind_gets in H.
  destruct (exitCriterias s !! st) as [e|] eqn:E.
  - rewrite E in H. destruct (decide (class_of e = cls)); eauto.
  - eauto.
Qed.

Lemma read_exit_Ok exit s e s' tr :
  read_exit exit s = Ok e s' tr ->
  exists st, exit = Some st /\ exitCriterias s !! st = Some e /\ s' = s /\ tr = [].
Proof.
  unfold read_exit. destruct exit as [st|]; [|discriminate].
  destruct (exitCriterias s !! st) as [e0|] eqn:E; [|discriminate].
  intros H. inversion H; subst. exists st. auto.
Qed.

Lemma statusHandler_other code s :
  code <> IO_RESOURCES_UNAVAILABLE ->
  statusHandler code s =
  Ok tt s (if upperStatusCallback (base s) then [EvUpperStatus code] else []).
Proof.
  intros Hcode. unfold statusHandler.
  destruct (decide (code = IO_RESOURCES_UNAVAILABLE)) as [E|_]; [contradiction|].
  mrun. destruct (upperStatusCallback (base s)); reflexivity.
Qed.

Section Actions.
Context {codec : Codec}.
Variable others : interference.

Lemma stateAction_START_decided s :
  returns_at (decided STATE_START) (stateAction_START others) s.
Proof.
  unfold stateAction_START.
  apply returns_state_ptr; [|apply returns_null_write].
  do 4 (apply returns_bind_any; intros ? ?).
  intros nextState sz trz H.
  apply bind_Ok_inv in H as (e & sr & tr1 & tr2 & H1 & H2 & _).
  apply read_exit_Ok in H1 as (st & [= <-] & Hlook & -> & _).
  unfold pending, ret in H2.
  exists e. split.
  - destruct (isFullfilled e); simpl in H2; [|discriminate].
    destruct (ioResourceError e), (close_flag e), (isOpened e);
      inversion H2; subst; assumption.
  - destruct (isFullfilled e); simpl in H2; [|discriminate].
    unfold next_state, success_edge.
    destruct (ioResourceError e), (close_flag e), (isOpened e);
      inversion H2; reflexivity.
Qed.

Lemma stateAction_RESET_decided s :
  returns_at (decided STATE_RESET) (stateAction_RESET others) s.
Proof.
  unfold stateAction_RESET.
  apply returns_state_ptr; [|apply returns_null_write].
  do 6 (apply returns_bind_any; intros ? ?).
  intros nextState sz trz H.
  apply bind_Ok_inv in H as (e & sr & tr1 & tr2 & H1 & H2 & _).
  apply read_exit_Ok in H1 as (st & [= <-] & Hlook & -> & _).
  unfold ret in H2. exists e. split.
  - destruct (ioResourceError e), (close_flag e), (resetSent e && resetWait e);
      inversion H2; subst; assumption.
  - unfold next_state, success_edge.
    destruct (ioResourceError e), (close_flag e), (resetSent e && resetWait e);
      inversion H2; reflexivity.
Qed.

Lemma handshake_decided st sent received syncRetransmission nextState0 s :
  (forall e, success_edge st e = if sent e && received e then Some nextState0 else None) ->
  returns_at (decided st)
    (let* e := read_exit (Some st) in
     if ioResourceError e then ret STATE_FAILED
     else if close_flag e then ret STATE_CLOSED
     else if sent e && received e then ret nextState0
     else
       (if (syncRetransmission <=? 0)%nat
        then statusHandler PKT_SEND_MAX_RETRIES_REACHED else ret tt) >>
       ret STATE_FAILED) s.
Proof.
  intros Hedge nextState s' tr H.
  apply bind_Ok_inv in H as (e & s1 & t1 & t2 & H1 & H2 & _).
  apply read_exit_Ok in H1 as (st0 & [= <-] & Hlook & -> & _).
  assert (Hlast : forall m : M unit,
             (m = statusHandler PKT_SEND_MAX_RETRIES_REACHED \/ m = ret tt) ->
             bind m (fun _ => ret STATE_FAILED) s = Ok nextState s' t2 ->
             s' = s /\ nextState = STATE_FAILED).
  { intros m Hm Hrun. apply bind_Ok_inv in Hrun as ([] & s2 & t3 & t4 & Hm1 & Hm2 & _).
    inversion Hm2; subst. split; [|reflexivity].
    destruct Hm as [-> | ->].
    - rewrite statusHandler_other in Hm1 by discriminate. inversion Hm1; reflexivity.
    - inversion Hm1; reflexivity. }
  exists e. unfold next_state. rewrite Hedge.
  destruct (ioResourceError e); [inversion H2; subst; auto|].
  destruct (close_flag e); [inversion H2; subst; auto|].
  destruct (sent e && received e); [inversion H2; subst; auto|].
  destruct (syncRetransmission <=? 0)%nat.
  - destruct (Hlast _ (or_introl eq_refl) H2) as [-> ->]. auto.
  - destruct (Hlast _ (or_intror eq_refl) H2) as [-> ->]. auto.
Qed.

Lemma stateAction_UNINITIALIZED_decided s :
  returns_at (decided STATE_UNINITIALIZED) (stateAction_UNINITIALIZED others) s.
Proof.
  unfold stateAction_UNINITIALIZED.
  apply returns_state_ptr; [|apply returns_null_write].
  do 2 (apply returns_bind_any; intros ? ?).
  apply (handshake_decided STATE_UNINITIALIZED syncSent syncRspReceived).
  reflexivity.
Qed.

Lemma stateAction_INITIALIZED_decided s :
  returns_at (decided STATE_INITIALIZED) (stateAction_INITIALIZED others) s.
Proof.
  unfold stateAction_INITIALIZED.
  apply returns_state_ptr; [|apply returns_null_write].
  do 2 (apply returns_bind_any; intros ? ?).
  apply (handshake_decided STATE_INITIALIZED syncConfigSent syncConfigRspReceived).
  reflexivity.
Qed.

Lemma stateAction_ACTIVE_decided s :
  returns_at (decided STATE_ACTIVE) (stateAction_ACTIVE others) s.
Proof.
  unfold stateAction_ACTIVE.
  apply returns_state_ptr; [|apply returns_null_write].
  do 5 (apply returns_bind_any; intros ? ?).
  intros nextState sz trz H.
  apply bind_Ok_inv in H as (e & sr & tr1 & tr2 & H1 & H2 & _).
  apply read_exit_Ok in H1 as (st & [= <-] & Hlook & -> & _).
  unfold ret in H2. exists e. split.
  - destruct (ioResourceError e), (close_flag e), (syncReceived e || irrecoverableSyncError e);
      inversion H2; subst; assumption.
  - unfold next_state, success_edge.
    destruct (ioResourceError e), (close_flag e), (syncReceived e || irrecoverableSyncError e);
      inversion H2; reflexivity.
Qed.

Lemma stateActions_decided st s :
  no_exit_record st = false ->
  returns_at (decided st) (stateActions st others) s.
Proof.
  destruct st; try discriminate; intros _; simpl.
  - apply stateAction_START_decided.
  - apply stateAction_RESET_decided.
  - apply stateAction_UNINITIALIZED_decided.
  - apply stateAction_INITIALIZED_decided.
  - apply stateAction_ACTIVE_decided.
Qed.

End Actions.

Lemma next_state_edge st e : no_exit_record st = false -> edge st (next_state st e) = true.
Proof.
  unfold next_state, success_edge.
  destruct st; try discriminate; intros _;
    destruct (ioResourceError e), (close_flag e); try reflexivity.
  - destruct (isOpened e); reflexivity.
  - destruct (resetSent e && resetWait e); reflexivity.
  - destruct (syncSent e && syncRspReceived e); reflexivity.
  - destruct (syncConfigSent e && syncConfigRspReceived e); reflexivity.
  - destruct (syncReceived e || irrecoverableSyncError e); reflexivity.
Qed.

Lemma transitions_app t1 t2 : transitions (t1 ++ t2) = transitions t1 ++ transitions t2.
Proof. apply omap_app. Qed.

Lemma currentState_frame st : frame_invariant (fun s => currentState s = st).
Proof. constructor; intros; assumption. Qed.

Section Worker.
Context {codec : Codec}.

Lemma sync_loop_quiet_transitions others exit type set_sent syncRetransmission :
  forall k, quiet is_transition (sync_loop others exit type set_sent syncRetransmission k).
Proof.
  induction syncRetransmission as [|n IH]; intros k; simpl.
  - quiet_auto.
  - pose proof (IH (S k)). unfold_callees.
    repeat (cbv beta zeta;
      first
        [ assumption
        | apply quiet_ret | apply quiet_gets | apply quiet_modify
        | apply quiet_read_exit | apply quiet_write_exit
        | apply quiet_emit; reflexivity
        | apply quiet_bind; [|intros ?]
        | match goal with
          | |- quiet _ (if ?b then _ else _) => destruct b
          end ]).
Qed.

Lemma stateActions_quiet_transitions st others :
  quiet is_transition (stateActions st others).
Proof.
  pose proof (sync_loop_quiet_transitions others) as Hsync.
  destruct st; simpl;
    unfold stateAction_START, stateAction_RESET, stateAction_UNINITIALIZED,
      stateAction_INITIALIZED, stateAction_ACTIVE, stateAction_FAILED,
      stateAction_CLOSED;
    unfold_callees;
    repeat (cbv beta zeta;
      first
        [ apply Hsync
        | apply quiet_ret | apply quiet_gets | apply quiet_modify
        | apply quiet_fault | apply quiet_pending
        | apply quiet_read_exit | apply quiet_write_exit
        | apply quiet_emit; reflexivity
        | apply quiet_bind; [|intros ?]
        | match goal with
          | |- quiet _ (if ?b then _ else _) => destruct b
          | |- quiet _ (match ?x with _ => _ end) => destruct x
          end ]).
Qed.

Variable others : nat -> interference.
Hypothesis others_keep_currentState : forall i k, keeps_currentState (others i k).

Lemma stateActions_keeps_currentState st i s nextState s' tr :
  stateActions st (others i) s = Ok nextState s' tr -> currentState s' = currentState s.
Proof.
  intros H.
  apply (stateActions_preserves _ (currentState_frame (currentState s)) (others i)
           (fun k s0 Hs0 => eq_trans (others_keep_currentState i k s0) Hs0)
           st s nextState s' tr eq_refl H).
Qed.

Lemma stateMachineWorker_terminal fuel i s :
  currentState s = STATE_FAILED \/ currentState s = STATE_CLOSED ->
  stateMachineWorker fuel others i s = Ok tt s [].
Proof.
  intros Hst. destruct fuel; simpl; rewrite bind_gets; destruct Hst as [-> | ->]; reflexivity.
Qed.

Lemma stateMachineWorker_path fuel :
  forall i s,
    exists st',
      path (currentState s) (transitions (trace_of (stateMachineWorker fuel others i s))) st' /\
      forall s' tr,
        stateMachineWorker fuel others i s = Ok tt s' tr ->
        currentState s' = st' /\ (st' = STATE_FAILED \/ st' = STATE_CLOSED).
Proof.
  induction fuel as [|fuel IH]; intros i s.
  - simpl. rewrite bind_gets.
    destruct (bool_decide (currentState s <> STATE_FAILED) &&
              bool_decide (currentState s <> STATE_CLOSED)) eqn:Hrun.
    + exists (currentState s). split; [reflexivity | discriminate].
    + exists (currentState s). split; [reflexivity|].
      intros s' tr H. inversion H; subst. split; [reflexivity|].
      apply andb_false_iff in Hrun as [Hrun|Hrun];
        apply bool_decide_eq_false in Hrun;
        destruct (currentState s'); auto; exfalso; apply Hrun; discriminate.
  - simpl. rewrite bind_gets.
    destruct (bool_decide (currentState s <> STATE_FAILED) &&
              bool_decide (currentState s <> STATE_CLOSED)) eqn:Hrun.
    + apply andb_prop in Hrun as [Hf Hc].
      apply bool_decide_eq_true in Hf, Hc.
      pose proof (stateActions_quiet_transitions (currentState s) (others i) s) as Hquiet.
      fold (transitions (trace_of (stateActions (currentState s) (others i) s))) in Hquiet.
      destruct (stateActions (currentState s) (others i) s) as [next s1 t1 | t1 | t1] eqn:Hact.
      * assert (Hcur : currentState s1 = currentState s)
          by (eapply stateActions_keeps_currentState; exact Hact).
        assert (Hrec : no_exit_record (currentState s) = false).
        { destruct (currentState s) eqn:E; try reflexivity; try contradiction.
          simpl in Hact. discriminate. }
        destruct (stateActions_decided (others i) (currentState s) s Hrec _ _ _ Hact)
          as (e & _ & Hnext).
        pose proof (next_state_edge (currentState s) e Hrec) as Hedge.
        rewrite <- Hnext in Hedge.
        destruct (IH (S i) (set_currentState next s1)) as (st' & Hpath & Hend).
        exists st'. rewrite (bind_Ok _ _ _ _ _ _ Hact).
        unfold logStateTransition. mrun. rewrite Hcur. split.
        -- rewrite !trace_of_prepend, !transitions_app.
           simpl in Hquiet. rewrite Hquiet. simpl. auto.
        -- intros s' tr Hw.
           destruct (stateMachineWorker fuel others (S i) (set_currentState next s1))
             as [[] s2 t2 | t2 | t2] eqn:Hrest; simpl in Hw; try discriminate.
           inversion Hw; subst. apply (Hend s' t2 eq_refl).
      * exists (currentState s). rewrite (bind_Fault _ _ _ _ Hact).
        simpl in *. rewrite Hquiet. split; [reflexivity | discriminate].
      * exists (currentState s). rewrite (bind_Pending _ _ _ _ Hact).
        simpl in *. rewrite Hquiet. split; [reflexivity | discriminate].
    + exists (currentState s). split; [reflexivity|].
      intros s' tr H. inversion H; subst. split; [reflexivity|].
      apply andb_false_iff in Hrun as [Hrun|Hrun];
        apply bool_decide_eq_false in Hrun;
        destruct (currentState s'); auto; exfalso; apply Hrun; discriminate.
Qed.

Lemma close_keeps_currentState errorCode1 errorCode2 s r s' tr :
  close errorCode1 errorCode2 s = Ok r s' tr -> currentState s' = currentState s.
Proof.
  intros H.
  assert (Hp : preserves (fun x => currentState x = currentState s)
                 (close errorCode1 errorCode2))
    by (unfold close; unfold_callees; preserves_with ltac:(intros; assumption)).
  exact (Hp s r s' tr eq_refl H).
Qed.

Lemma open_keeps_currentState callbacks baseResult lowerResult i s r s' tr :
  open callbacks baseResult lowerResult (others i) s = Ok r s' tr ->
  currentState s' = currentState s.
Proof.
  intros H. destruct (decide (currentState s = STATE_START)) as [Hst|Hst].
  - assert (Hp : preserves (fun x => currentState x = STATE_START)
                   (open callbacks baseResult lowerResult (others i))).
    { unfold open. unfold_callees.
      preserves_with ltac:(first [ intros; reflexivity
                                 | intros ? ?; rewrite others_keep_currentState; assumption
                                 | intros; assumption ]). }
    rewrite Hst. exact (Hp s r s' tr Hst H).
  - revert H. unfold open, Transport_open. mnorm.
    destruct (decide (baseResult <> NRF_SUCCESS)).
    + intros H. inversion H; reflexivity.
    + mnorm. change (currentState (set_base callbacks s)) with (currentState s).
      destruct (decide (currentState s <> STATE_START)); [|contradiction].
      unfold log. mnorm. intros H. inversion H; reflexivity.
Qed.

(** C7. [currentState] moves only along the edges of the state machine.
    An action that returns has decided on the record of its state by the
    priority order (ioResourceError, then close, then the success edge of
    the state, else FAILED), so what it returns is one edge away.  The
    transitions the worker logs, each of which it then writes to
    [currentState], form a path of edges from the state it started in; when
    the worker returns, [currentState] is the end of that path and is FAILED
    or CLOSED; and started in FAILED or CLOSED it returns at once, leaving
    the instance as it was.  No other method changes [currentState]. *)
Theorem currentState_moves_along_edges (fuel i : nat) (s : H5Transport) :
  (forall st nextState s1 tr1,
      no_exit_record st = false ->
      stateActions st (others i) s = Ok nextState s1 tr1 ->
      exists e,
        exitCriterias s1 !! st = Some e /\
        nextState = next_state st e /\
        edge st nextState = true) /\
  (exists st',
      path (currentState s) (transitions (trace_of (stateMachineWorker fuel others i s))) st' /\
      forall s' tr,
        stateMachineWorker fuel others i s = Ok tt s' tr ->
        currentState s' = st' /\ (st' = STATE_FAILED \/ st' = STATE_CLOSED)) /\
  (currentState s = STATE_FAILED \/ currentState s = STATE_CLOSED ->
   stateMachineWorker fuel others i s = Ok tt s []) /\
  (forall s' tr r,
      (exists callbacks baseResult lowerResult,
          open callbacks baseResult lowerResult (others i) s = Ok r s' tr) \/
      (exists errorCode1 errorCode2, close errorCode1 errorCode2 s = Ok r s' tr) \/
      (exists data, send (others i) data s = Ok r s' tr) ->
      currentState s' = currentState s) /\
  (forall s' tr,
      (exists data, dataHandler data s = Ok tt s' tr) \/
      (exists code, statusHandler code s = Ok tt s' tr) ->
      currentState s' = currentState s).
Proof.
  split; [|split; [|split; [|split]]].
  - intros st nextState s1 tr1 Hrec Hact.
    destruct (stateActions_decided (others i) st s Hrec _ _ _ Hact) as (e & Hlook & Hnext).
    exists e. split; [exact Hlook|]. split; [exact Hnext|].
    rewrite Hnext. apply next_state_edge. exact Hrec.
  - apply stateMachineWorker_path.
  - apply stateMachineWorker_terminal.
  - intros s' tr r [(callbacks & baseResult & lowerResult & H) |
                    [(errorCode1 & errorCode2 & H) | (data & H)]].
    + eapply open_keeps_currentState; exact H.
    + eapply close_keeps_currentState; exact H.
    + apply (send_preserves _ (currentState_frame (currentState s)) (others i)
               (fun k s0 Hs0 => eq_trans (others_keep_currentState i k s0) Hs0)
               data s r s' tr eq_refl H).
  - intros s' tr [(data & H) | (code & H)].
    + apply (dataHandler_preserves _ (currentState_frame (currentState s))
               data s tt s' tr eq_refl H).
    + apply (statusHandler_preserves _ (currentState_frame (currentState s))
               code s tt s' tr eq_refl H).
Qed.

End Worker.

(** ** The handshake states *)

Lemma keeps_exit_classes_lookup f s st e :
  keeps_exit_classes f ->
  exitCriterias s !! st = Some e ->
  exists e', exitCriterias (f s) !! st = Some e' /\ class_of e' = class_of e.
Proof.
  intros Hf He. specialize (Hf s st). rewrite He in Hf.
  destruct (exitCriterias (f s) !! st) as [e'|]; [|discriminate].
  exists e'. split; [reflexivity|]. simpl in Hf. congruence.
Qed.

Section Handshake.
Context {codec : Codec}.
Variable others : interference.
Hypothesis others_keep_exit_classes : forall k, keeps_exit_classes (others k).

Lemma sendControlPacket_link type s :
  type = CONTROL_PKT_SYNC \/ type = CONTROL_PKT_SYNC_CONFIG ->
  sendControlPacket type s =
  Ok tt (set_outgoingPacketCount (outgoingPacketCount s + 1) s)
     [EvLog; EvLowerSend (link_control_packet type)].
Proof. intros [-> | ->]; unfold_callees; mrun; reflexivity. Qed.

(** The retransmission loop of a handshake state: [m] attempts were made,
    and the loop ended because the record is fulfilled or because no attempt
    is left. *)
Lemma sync_loop_run st type set_sent :
  type = CONTROL_PKT_SYNC \/ type = CONTROL_PKT_SYNC_CONFIG ->
  keeps_class set_sent ->
  forall syncRetransmission k s e0,
    exitCriterias s !! st = Some e0 ->
    exists remaining s' e m,
      sync_loop others (Some st) type set_sent syncRetransmission k s =
        Ok remaining s' (concat (repeat (handshake_attempt type) m)) /\
      exitCriterias s' !! st = Some e /\
      class_of e = class_of e0 /\
      (m + remaining = syncRetransmission)%nat /\
      (remaining = 0%nat \/ isFullfilled e = true) /\
      (isFullfilled e0 = false -> (0 < syncRetransmission)%nat -> (0 < m)%nat).
Proof.
  intros Htype Hsent.
  induction syncRetransmission as [|n IH]; intros k s e0 He0; simpl.
  - rewrite (bind_read_exit _ _ _ e0) by exact He0.
    exists 0%nat, s, e0, 0%nat. repeat split; auto; try (intros; lia).
  - rewrite (bind_read_exit _ _ _ e0) by exact He0.
    destruct (isFullfilled e0) eqn:Hfull.
    + exists (S n), s, e0, 0%nat. repeat split; auto; try discriminate.
    + rewrite (bind_Ok _ _ _ _ _ _ (sendControlPacket_link type s Htype)).
      rewrite (bind_write_exit _ _ _ _ e0) by exact He0.
      unfold wait_on. mrun.
      match goal with
      | |- context [sync_loop _ _ _ _ n (S k) (others k ?s2)] =>
          destruct (keeps_exit_classes_lookup (others k) s2 st (set_sent e0)
                      (others_keep_exit_classes k)) as (e3 & He3 & Hc3);
            [simpl; apply lookup_insert_eq|];
          destruct (IH (S k) (others k s2) e3 He3)
            as (remaining & s' & e & m & Hrun & He & Hc & Hm & Hend & _)
      end.
      rewrite Hrun. simpl.
      exists remaining, s', e, (S m). split; [reflexivity|].
      split; [exact He|]. split; [rewrite Hc, Hc3; apply Hsent|].
      split; [lia|]. split; [exact Hend|]. intros; lia.
Qed.

(** C8. In [STATE_UNINITIALIZED] the action sends SYNC at least once and at
    most six times, each send followed by a wait of NON_ACTIVE_STATE_TIMEOUT
    on the state-change condition, and always returns.  It decides on its
    record by the priority order: ioResourceError gives FAILED, else close
    gives CLOSED, else syncSent with syncRspReceived gives INITIALIZED.
    When the record is not fulfilled at the end, all six attempts have been
    made, PKT_SEND_MAX_RETRIES_REACHED goes through [statusHandler] to the
    upper status callback (when one is registered), and the action returns
    FAILED; no status is emitted otherwise. *)
Theorem uninitialized_sync_retransmission (s : H5Transport) :
  exit_table_ok s ->
  exists nextState s' tr e n,
    stateAction_UNINITIALIZED others s = Ok nextState s' tr /\
    exitCriterias s' !! STATE_UNINITIALIZED = Some e /\
    (1 <= n <= PACKET_RETRANSMISSIONS)%nat /\
    tr = concat (repeat (handshake_attempt CONTROL_PKT_SYNC) n) ++
         (if isFullfilled e then []
          else if upperStatusCallback (base s')
               then [EvUpperStatus PKT_SEND_MAX_RETRIES_REACHED] else []) /\
    nextState = next_state STATE_UNINITIALIZED e /\
    (ioResourceError e = true -> nextState = STATE_FAILED) /\
    (ioResourceError e = false -> close_flag e = true -> nextState = STATE_CLOSED) /\
    (ioResourceError e = false -> close_flag e = false ->
     syncSent e = true -> syncRspReceived e = true -> nextState = STATE_INITIALIZED) /\
    (isFullfilled e = false -> n = PACKET_RETRANSMISSIONS /\ nextState = STATE_FAILED).
Proof.
  intros Hok. pose proof (Hok STATE_UNINITIALIZED) as Hrec. simpl in Hrec.
  destruct (exitCriterias s !! STATE_UNINITIALIZED) as [e0|] eqn:He0; [|discriminate].
  simpl in Hrec. injection Hrec as Hclass.
  unfold stateAction_UNINITIALIZED, exitCriterias_at, dynamic_cast.
  rewrite bind_gets. cbv beta. rewrite bind_gets. rewrite He0. cbv iota beta. rewrite He0.
  rewrite decide_True by exact Hclass.
  rewrite (bind_write_exit _ _ _ _ e0) by exact He0.
  assert (Hsent : keeps_class set_syncSent) by (intros []; reflexivity).
  match goal with
  | |- context [bind (sync_loop _ _ _ _ _ _) _ ?s1] =>
      destruct (sync_loop_run STATE_UNINITIALIZED CONTROL_PKT_SYNC set_syncSent
                  (or_introl eq_refl) Hsent
                  PACKET_RETRANSMISSIONS 0%nat s1 (reset e0))
        as (remaining & s' & e & m & Hrun & He & Hc & Hm & Hend & Hpos);
        [simpl; apply lookup_insert_eq|]
  end.
  rewrite (bind_Ok _ _ _ _ _ _ Hrun).
  rewrite (bind_read_exit _ _ _ e) by exact He.
  assert (Hce : class_of e = STATE_UNINITIALIZED).
  { rewrite Hc. destruct e0; try discriminate; reflexivity. }
  assert (Hm1 : (1 <= m)%nat).
  { apply Hpos; [destruct e0; try discriminate; reflexivity | unfold PACKET_RETRANSMISSIONS; lia]. }
  destruct e as [| |io c sent rsp| |]; try discriminate. clear Hce Hrun.
  unfold PACKET_RETRANSMISSIONS in *. simpl.
  destruct io; simpl.
  { eexists _, s', _, (UninitializedExitCriterias true c sent rsp), m.
    split; [reflexivity|].
    repeat split; try assumption; try (symmetry; apply app_nil_r); simpl; intros; subst;
      try discriminate; try reflexivity; try lia. }
  destruct c; simpl.
  { eexists _, s', _, (UninitializedExitCriterias false true sent rsp), m.
    split; [reflexivity|].
    repeat split; try assumption; try (symmetry; apply app_nil_r); simpl; intros; subst;
      try discriminate; try reflexivity; try lia. }
  destruct (sent && rsp) eqn:Hsync; simpl.
  { eexists _, s', _, (UninitializedExitCriterias false false sent rsp), m.
    split; [reflexivity|]. unfold next_state, success_edge. simpl. rewrite Hsync.
    repeat split; try assumption; try (symmetry; apply app_nil_r); simpl; intros; subst;
      try discriminate; try reflexivity; try lia. }
  simpl in Hend. rewrite Hsync in Hend. destruct Hend as [-> | Hfull]; [|discriminate].
  simpl. rewrite (bind_Ok _ _ _ _ _ _ (statusHandler_other PKT_SEND_MAX_RETRIES_REACHED s'
                                        ltac:(discriminate))).
  mrun. eexists _, s', _, (UninitializedExitCriterias false false sent rsp), m.
  split; [reflexivity|]. unfold next_state, success_edge. simpl. rewrite Hsync.
  repeat split; try assumption; try (rewrite app_nil_r; reflexivity); simpl; intros; subst;
    try discriminate; try reflexivity; try lia.
Qed.

End Handshake.

(** ** The theorems at work on the sample instance *)

Lemma sample_sync_response_keeps_classes k0 k :
  keeps_exit_classes (sample_sync_response_during k0 k).
Proof.
  intros s st. unfold sample_sync_response_during.
  destruct (k =? k0)%nat; [|reflexivity].
  destruct (exitCriterias s !! STATE_UNINITIALIZED) as [e|] eqn:He; [|reflexivity].
  simpl. destruct (decide (STATE_UNINITIALIZED = st)) as [<-|Hne].
  - rewrite lookup_insert_eq, He. destruct e; reflexivity.
  - rewrite lookup_insert_ne by exact Hne. reflexivity.
Qed.

Lemma sample_exit_table_ok : exit_table_ok sample_uninitialized.
Proof. intros st. destruct st; reflexivity. Qed.

Lemma reliable_frames_delivered_in_sequence_witness :
  let packet := [0xC0; 0xDB; 0xDC; 0x2E; 0x00; 0x11; 0xAA; 0xBB; 0xC0] in
  let hdr := mkH5Header [0xAA; 0xBB] 0 0 true VENDOR_SPECIFIC_PACKET in
  exists s' tr,
    processPacket (codec := sample_codec) packet sample_active = Ok tt s' tr /\
    (seq_num hdr = ackNum sample_active ->
     ackNum s' = (ackNum sample_active + 1) mod 8 /\
     lower_sends tr = [ack_packet (codec := sample_codec) (ackNum s')] /\
     upper_data tr = [h5Payload hdr]) /\
    (seq_num hdr <> ackNum sample_active ->
     ackNum s' = ackNum sample_active /\
     lower_sends tr = [ack_packet (codec := sample_codec) (ackNum sample_active)] /\
     upper_data tr = []).
Proof.
  apply (proj1 (reliable_frames_delivered_in_sequence (codec := sample_codec))
           [0xC0; 0xDB; 0xDC; 0x2E; 0x00; 0x11; 0xAA; 0xBB; 0xC0]
           (mkH5Header [0xAA; 0xBB] 0 0 true VENDOR_SPECIFIC_PACKET)
           sample_active);
    reflexivity.
Defined.

Lemma send_outcome_witness :
  exists r s' tr n,
    send (codec := sample_codec) (sample_ack_during 2) [0x01; 0x02] sample_active
      = Ok r s' tr /\
    lastPacket s' = [] /\
    (1 <= n <= PACKET_RETRANSMISSIONS)%nat /\
    lower_sends tr =
      repeat (slip_encode (Codec := sample_codec)
                (h5_encode (Codec := sample_codec) [0x01; 0x02] 0 0 true true
                   VENDOR_SPECIFIC_PACKET)) n /\
    (r = NRF_SUCCESS \/ r = NRF_ERROR_TIMEOUT).
Proof.
  destruct (proj1 (proj2 (send_outcome (codec := sample_codec) (sample_ack_during 2)
                            (fun k s => ltac:(unfold sample_ack_during;
                                              destruct (k =? 2)%nat; reflexivity))
                            [0x01; 0x02] sample_active)) eq_refl)
    as (r & s' & tr & n & Hrun & Hlast & Hn & Hsends & Hr & _).
  exists r, s', tr, n. auto.
Defined.

(** C3 as first stated fails: a [send] made outside [STATE_ACTIVE] while
    [lastPacket] holds a packet returns INVALID_STATE and leaves the packet
    where it is. *)
Lemma send_invalid_state_keeps_lastPacket :
  send (codec := sample_codec) sample_quiet [0x01] sample_send_in_progress =
    Ok NRF_ERROR_INVALID_STATE sample_send_in_progress [] /\
  lastPacket sample_send_in_progress <> [].
Proof.
  split; [reflexivity | discriminate].
Qed.

Lemma uninitialized_sync_retransmission_witness :
  exists nextState s' tr e n,
    stateAction_UNINITIALIZED (codec := sample_codec) (sample_sync_response_during 1)
      sample_uninitialized = Ok nextState s' tr /\
    exitCriterias s' !! STATE_UNINITIALIZED = Some e /\
    (1 <= n <= PACKET_RETRANSMISSIONS)%nat /\
    nextState = next_state STATE_UNINITIALIZED e.
Proof.
  destruct (uninitialized_sync_retransmission (codec := sample_codec)
              (sample_sync_response_during 1)
              (sample_sync_response_keeps_classes 1)
              sample_uninitialized sample_exit_table_ok)
    as (nextState & s' & tr & e & n & Hrun & He & Hn & _ & Hnext & _).
  exists nextState, s', tr, e, n. auto.
Defined.

(** ** The model run on the sample instance *)

(** A reliable frame with sequence number 0 arrives twice, then one with
    sequence number 1: three ACKs go out, the payload of the duplicate is
    not delivered again. *)
Example feed_duplicate_frame :
  let frame0 := [0xC0; 0xDB; 0xDC; 0x2E; 0x00; 0x11; 0xAA; 0xBB; 0xC0] in
  let frame1 := [0xC0; 0xC1; 0x2E; 0x00; 0x10; 0xCC; 0xDD; 0xC0] in
  let r := feed (codec := sample_codec) [frame0; frame0 ++ frame1] sample_active in
  upper_data (trace_of r) = [[0xAA; 0xBB]; [0xCC; 0xDD]] /\
  lower_sends (trace_of r) =
    [ack_packet (codec := sample_codec) 1; ack_packet (codec := sample_codec) 1;
     ack_packet (codec := sample_codec) 2] /\
  processed_packets (trace_of r) = [frame0; frame0; frame1].
Proof. vm_compute. repeat split; reflexivity. Qed.

(** The peer's ACK arrives during the third wait: three transmissions, then
    SUCCESS. *)
Example send_acknowledged_on_third_attempt :
  let r := send (codec := sample_codec) (sample_ack_during 2) [0x01; 0x02] sample_active in
  value_of r = Some NRF_SUCCESS /\
  trace_of r =
    concat (repeat [EvLog;
                    EvLowerSend [0xC0; 0xDB; 0xDC; 0x2E; 0x00; 0x11; 0x01; 0x02; 0xC0];
                    EvWait ackWaitCondition (Some 250)] 3) /\
  seqNum <$> state_of r = Some 1 /\
  lastPacket <$> state_of r = Some [].
Proof. vm_compute. repeat split; reflexivity. Qed.

(** No ACK ever arrives: six transmissions, then TIMEOUT. *)
Example send_never_acknowledged :
  let r := send (codec := sample_codec) sample_quiet [0x01; 0x02] sample_active in
  value_of r = Some NRF_ERROR_TIMEOUT /\
  trace_of r =
    concat (repeat [EvLog;
                    EvLowerSend [0xC0; 0xDB; 0xDC; 0x2E; 0x00; 0x11; 0x01; 0x02; 0xC0];
                    EvWait ackWaitCondition (Some 250)] 6) /\
  seqNum <$> state_of r = Some 0 /\
  lastPacket <$> state_of r = Some [].
Proof. vm_compute. repeat split; reflexivity. Qed.

(** SYNC_RESPONSE arrives during the second wait of the handshake: two SYNC
    packets, then INITIALIZED. *)
Example uninitialized_answered_on_second_attempt :
  let r := stateAction_UNINITIALIZED (codec := sample_codec)
             (sample_sync_response_during 1) sample_uninitialized in
  value_of r = Some STATE_INITIALIZED /\
  trace_of r = concat (repeat (handshake_attempt (codec := sample_codec) CONTROL_PKT_SYNC) 2).
Proof. vm_compute. repeat split; reflexivity. Qed.

(** No SYNC_RESPONSE: six SYNC packets, the status, then FAILED. *)
Example uninitialized_never_answered :
  let r := stateAction_UNINITIALIZED (codec := sample_codec) sample_quiet
             sample_uninitialized in
  value_of r = Some STATE_FAILED /\
  trace_of r =
    concat (repeat (handshake_attempt (codec := sample_codec) CONTROL_PKT_SYNC) 6) ++
    [EvUpperStatus PKT_SEND_MAX_RETRIES_REACHED].
Proof. vm_compute. repeat split; reflexivity. Qed.

(** Left alone after construction, the state-machine thread stays blocked
    in the START action. *)
Example worker_blocked_in_start :
  stateMachineWorker (codec := sample_codec) 4 (fun _ => sample_quiet) 0
    (H5Transport_new 250) =
  Pending [EvNotify stateMachineChange; EvWait stateMachineChange None].
Proof. vm_compute. reflexivity. Qed.

(** * Further properties of the code *)

(** ** The byte reassembler on whole frames *)

Lemma processed_packets_app t1 t2 :
  processed_packets (t1 ++ t2) = processed_packets t1 ++ processed_packets t2.
Proof. apply omap_app. Qed.

Lemma bind_ret_r {A} (m : M A) s : bind m (fun a => ret a) s = m s.
Proof.
  unfold bind, ret. destruct (m s); simpl; rewrite ?app_nil_r; reflexivity.
Qed.

Section ReassemblerFrames.
Context {codec : Codec}.

Lemma dataHandler_loop_boundary_free noise :
  boundary_free noise ->
  forall packet s, dataHandler_loop noise packet s = Ok (packet ++ noise) s [].
Proof.
  induction 1 as [|b noise Hb _ IH]; intros packet s; simpl.
  - rewrite app_nil_r. reflexivity.
  - unfold dataHandler_byte. apply Z.eqb_neq in Hb. rewrite Hb.
    rewrite bind_ret_l, IH, <- app_assoc. reflexivity.
Qed.

Lemma dataHandler_loop_body body s :
  c0Found s = true -> frame_body body ->
  dataHandler_loop (body ++ [0xC0]) [0xC0] s = after_frame body s.
Proof.
  intros Hc0 [Hne Hfree]. rewrite dataHandler_loop_app.
  rewrite (bind_Ok _ _ _ _ _ _ (dataHandler_loop_boundary_free body Hfree [0xC0] s)).
  rewrite prepend_nil. simpl. rewrite bind_ret_r.
  assert (Hlen : length ((0xC0 :: body) ++ [0xC0]) <> 2%nat).
  { destruct body; [contradiction|]. simpl. rewrite length_app. simpl. lia. }
  rewrite (dataHandler_byte_end_of_packet (0xC0 :: body) s Hc0 Hlen). reflexivity.
Qed.

(** A frame met with no start seen: its first byte starts it. *)
Lemma dataHandler_loop_frame body packet s :
  c0Found s = false -> frame_body body ->
  dataHandler_loop (frame_of body) packet s = after_frame body (set_c0Found true s).
Proof.
  intros Hc0 Hbody. unfold frame_of. simpl.
  unfold dataHandler_byte at 1. change (0xC0 =? 0xC0) with true. cbv iota.
  mnorm. rewrite Hc0. mnorm.
  apply dataHandler_loop_body; [reflexivity | exact Hbody].
Qed.

(** A frame met right after a boundary byte that was taken for a start:
    its first byte is taken for the start instead. *)
Lemma dataHandler_loop_frame_resync body s :
  c0Found s = true -> frame_body body ->
  dataHandler_loop (frame_of body) [0xC0] s = after_frame body s.
Proof.
  intros Hc0 Hbody. unfold frame_of. simpl.
  unfold dataHandler_byte at 1. change (0xC0 =? 0xC0) with true. cbv iota.
  mnorm. rewrite Hc0. simpl. mnorm.
  apply dataHandler_loop_body; assumption.
Qed.

Lemma after_frame_then body (k : payload_t -> M payload_t) frames s0 :
  (forall s2, c0Found s2 = false -> unprocessedData s2 = [] ->
              delivers_frames frames (k [] s2)) ->
  delivers_frames (frame_of body :: frames) (bind (after_frame body) k s0).
Proof.
  intros Hk. unfold bind, after_frame.
  pose proof (processPacket_quiet_processed (frame_of body) s0) as Hq.
  fold (processed_packets (trace_of (processPacket (frame_of body) s0))) in Hq.
  destruct (processPacket (frame_of body) s0) as [[] s1 t1 | t1 | t1]; simpl in Hq.
  - destruct (Hk (set_c0Found false (set_unprocessedData [] s1)) eq_refl eq_refl)
      as [Hpre Hok].
    split.
    + rewrite trace_of_prepend, <- app_comm_cons.
      rewrite processed_packets_cons, processed_packets_app, Hq.
      simpl. apply prefix_cons. exact Hpre.
    + intros packet s tr Hr.
      destruct (k [] (set_c0Found false (set_unprocessedData [] s1)))
        as [p2 s2 t2 | t2 | t2]; simpl in Hr; try discriminate.
      inversion Hr; subst.
      destruct (Hok packet s t2 eq_refl) as (Hp & Hrest).
      split; [|exact Hrest].
      rewrite processed_packets_cons, processed_packets_app, Hq, Hp. reflexivity.
  - split; [|discriminate]. cbn [trace_of].
    rewrite processed_packets_cons, Hq. apply prefix_cons, prefix_nil.
  - split; [|discriminate]. cbn [trace_of].
    rewrite processed_packets_cons, Hq. apply prefix_cons, prefix_nil.
Qed.

Lemma dataHandler_loop_part part rest packet s :
  c0Found s = false -> well_formed_part part ->
  dataHandler_loop (noisy_stream (part :: rest)) packet s =
  bind (after_frame (snd part))
       (fun packet' => dataHandler_loop (noisy_stream rest) packet')
       (set_c0Found true s).
Proof.
  intros Hc0 [Hnoise Hbody]. unfold noisy_stream. simpl.
  rewrite <- app_assoc, dataHandler_loop_app.
  rewrite (bind_Ok _ _ _ _ _ _ (dataHandler_loop_boundary_free _ Hnoise packet s)).
  rewrite prepend_nil, dataHandler_loop_app.
  unfold bind. rewrite dataHandler_loop_frame by assumption. reflexivity.
Qed.

Lemma dataHandler_loop_parts parts :
  Forall well_formed_part parts ->
  forall s, c0Found s = false -> unprocessedData s = [] ->
            delivers_frames (frames_of parts) (dataHandler_loop (noisy_stream parts) [] s).
Proof.
  induction 1 as [|part parts Hpart _ IH]; intros s Hc0 Hu.
  - split; [apply prefix_nil|]. intros packet s' tr H. inversion H; subst. auto.
  - rewrite (dataHandler_loop_part part parts [] s Hc0 Hpart).
    apply after_frame_then. exact IH.
Qed.

Lemma trace_of_dataHandler_core data packet s :
  trace_of (dataHandler_core data packet s) = trace_of (dataHandler_loop data packet s).
Proof.
  unfold dataHandler_core, bind.
  destruct (dataHandler_loop data packet s); simpl; rewrite ?app_nil_r; reflexivity.
Qed.

Lemma dataHandler_delivers data frames s :
  delivers_frames frames (dataHandler_loop data (unprocessedData s) s) ->
  processed_packets (trace_of (dataHandler data s)) `prefix_of` frames /\
  forall s' tr,
    dataHandler data s = Ok tt s' tr ->
    processed_packets tr = frames /\ c0Found s' = false /\ unprocessedData s' = [].
Proof.
  intros [Hpre Hok]. rewrite dataHandler_as_core. split.
  - rewrite trace_of_dataHandler_core. exact Hpre.
  - intros s' tr H. unfold dataHandler_core in H.
    apply bind_Ok_inv in H as (p1 & s1 & t1 & t2 & H1 & H2 & ->).
    inversion H2; subst. rewrite app_nil_r.
    destruct (Hok p1 s1 t1 H1) as (Hp & -> & Hc & Hu). auto.
Qed.

(** X1. A chunk made of whole frames, each one preceded by any noise that
    holds no boundary byte, and met with no start seen: the frames, and
    nothing else, are handed to [processPacket] in order (the first ones of
    them when a dispatch does not return), whatever the carry-over buffer
    held; when [dataHandler] returns the reassembler is back to no start
    seen and an empty carry-over. *)
Theorem dataHandler_recovers_frames (part : payload_t * payload_t)
    (parts : list (payload_t * payload_t)) (s : H5Transport) :
  c0Found s = false ->
  Forall well_formed_part (part :: parts) ->
  processed_packets (trace_of (dataHandler (noisy_stream (part :: parts)) s))
    `prefix_of` frames_of (part :: parts) /\
  forall s' tr,
    dataHandler (noisy_stream (part :: parts)) s = Ok tt s' tr ->
    processed_packets tr = frames_of (part :: parts) /\
    c0Found s' = false /\ unprocessedData s' = [].
Proof.
  intros Hc0 Hparts. apply dataHandler_delivers.
  inversion Hparts as [|? ? Hpart Hrest]; subst.
  rewrite (dataHandler_loop_part part parts _ s Hc0 Hpart).
  apply after_frame_then. apply dataHandler_loop_parts. exact Hrest.
Qed.

(** X2. A stream that starts in the middle of a frame: the end of that
    frame is taken for a start, and the boundary byte that follows at once
    is taken for the start instead, so every whole frame after it is handed
    to [processPacket], and the truncated one never is. *)
Theorem dataHandler_resynchronises (tail body : payload_t)
    (parts : list (payload_t * payload_t)) (s : H5Transport) :
  c0Found s = false ->
  boundary_free tail ->
  frame_body body ->
  Forall well_formed_part parts ->
  let data := tail ++ [0xC0] ++ frame_of body ++ noisy_stream parts in
  processed_packets (trace_of (dataHandler data s))
    `prefix_of` (frame_of body :: frames_of parts) /\
  forall s' tr,
    dataHandler data s = Ok tt s' tr ->
    processed_packets tr = frame_of body :: frames_of parts /\
    c0Found s' = false /\ unprocessedData s' = [].
Proof.
  intros Hc0 Htail Hbody Hparts data. apply dataHandler_delivers. unfold data.
  rewrite dataHandler_loop_app.
  rewrite (bind_Ok _ _ _ _ _ _ (dataHandler_loop_boundary_free _ Htail _ s)).
  rewrite prepend_nil. cbn [app dataHandler_loop].
  unfold dataHandler_byte at 1. change (0xC0 =? 0xC0) with true. cbv iota.
  mnorm. rewrite Hc0. mnorm.
  rewrite dataHandler_loop_app.
  rewrite (bind_ext_l _ _ _ _
             (dataHandler_loop_frame_resync body (set_c0Found true s) eq_refl Hbody)).
  apply after_frame_then. apply dataHandler_loop_parts. exact Hparts.
Qed.

(** X3. Bytes among which there is no boundary byte are only buffered,
    whether a start has been seen or not: nothing is dispatched, no event is
    emitted, and the carry-over buffer grows by exactly these bytes, so
    without a boundary byte it grows without bound. *)
Theorem dataHandler_buffers_noise (noise : payload_t) (s : H5Transport) :
  boundary_free noise ->
  dataHandler noise s = Ok tt (set_unprocessedData (unprocessedData s ++ noise) s) [].
Proof.
  intros Hfree. rewrite dataHandler_as_core. unfold dataHandler_core.
  rewrite (bind_Ok _ _ _ _ _ _ (dataHandler_loop_boundary_free _ Hfree _ s)).
  reflexivity.
Qed.

End ReassemblerFrames.

Ltac stream_side :=
  unfold well_formed_part, frame_body, boundary_free; simpl;
  repeat first [ apply Forall_nil | apply Forall_cons | split | discriminate | lia ].

Lemma dataHandler_recovers_frames_witness :
  let parts := [([0x07; 0x09], [0x08; 0x00; 0x00; 0xF7]); ([], [0x18; 0x00; 0x00; 0xE7])] in
  processed_packets
    (trace_of (dataHandler (codec := sample_codec) (noisy_stream parts) sample_active))
    `prefix_of` frames_of parts /\
  forall s' tr,
    dataHandler (codec := sample_codec) (noisy_stream parts) sample_active = Ok tt s' tr ->
    processed_packets tr = frames_of parts /\
    c0Found s' = false /\ unprocessedData s' = [].
Proof.
  apply (dataHandler_recovers_frames (codec := sample_codec)
           ([0x07; 0x09], [0x08; 0x00; 0x00; 0xF7]) [([], [0x18; 0x00; 0x00; 0xE7])]
           sample_active).
  - reflexivity.
  - stream_side.
Defined.

Lemma dataHandler_resynchronises_witness :
  let data := [0x00; 0xF7] ++ [0xC0] ++ frame_of [0x08; 0x00; 0x00; 0xF7] ++
              noisy_stream [([0x01], [0x18; 0x00; 0x00; 0xE7])] in
  processed_packets (trace_of (dataHandler (codec := sample_codec) data sample_active))
    `prefix_of` (frame_of [0x08; 0x00; 0x00; 0xF7] ::
                 frames_of [([0x01], [0x18; 0x00; 0x00; 0xE7])]) /\
  forall s' tr,
    dataHandler (codec := sample_codec) data sample_active = Ok tt s' tr ->
    processed_packets tr =
      frame_of [0x08; 0x00; 0x00; 0xF7] :: frames_of [([0x01], [0x18; 0x00; 0x00; 0xE7])] /\
    c0Found s' = false /\ unprocessedData s' = [].
Proof.
  apply (dataHandler_resynchronises (codec := sample_codec)
           [0x00; 0xF7] [0x08; 0x00; 0x00; 0xF7] [([0x01], [0x18; 0x00; 0x00; 0xE7])]
           sample_active).
  - reflexivity.
  - stream_side.
  - stream_side.
  - stream_side.
Defined.

Lemma dataHandler_buffers_noise_witness :
  dataHandler (codec := sample_codec) [0x01; 0x02] (set_unprocessedData [0xC0; 0x08] sample_active)
  = Ok tt (set_unprocessedData ([0xC0; 0x08] ++ [0x01; 0x02]) sample_active) [].
Proof.
  apply (dataHandler_buffers_noise (codec := sample_codec) [0x01; 0x02]
           (set_unprocessedData [0xC0; 0x08] sample_active)).
  stream_side.
Defined.

(** ** The control-packet predicates and the payloads sent *)

Lemma recognises_exclusive type1 type2 packet offset :
  recognises type1 packet offset = true ->
  recognises type2 packet offset = true ->
  type1 = type2.
Proof.
  unfold recognises, isResetPacket, isSyncPacket, isSyncResponsePacket,
    isSyncConfigPacket, isSyncConfigResponsePacket, checkPattern.
  destruct (offset >=? Z.of_nat (length packet)).
  - destruct type1; discriminate.
  - destruct (skipn (Z.to_nat offset) packet) as [|b rest];
      [destruct type1; discriminate|].
    destruct type1, type2; try reflexivity; try discriminate; simpl;
      intros H1 H2;
      repeat match goal with
             | H : (if ?b =? ?x then _ else _) = true |- _ =>
                 destruct (Z.eqb_spec b x); [|discriminate H]
             end; lia.
Qed.

(** X4. The payload [sendControlPacket] gives to each of the four handshake
    messages is recognised, where it starts, by the predicate of that
    message, whatever the configuration field and whatever the bytes before
    it, as long as the place where it starts fits the [uint8_t] offset of
    the predicates (fewer than 256 bytes before it); the payload of the
    reset packet is empty and [isResetPacket], which looks for a byte 0x05,
    does not recognise it. *)
Theorem control_payload_recognised {codec : Codec}
    (type : control_pkt_type) (before : payload_t) :
  (length before < 256)%nat ->
  recognises type (before ++ pkt_pattern type) (uint8_offset (length before)) =
  handshake_message type.
Proof.
  intros Hfits. unfold uint8_offset. rewrite Z.mod_small by lia.
  destruct type; simpl; try reflexivity.
  - unfold isResetPacket, checkPattern. rewrite app_nil_r.
    destruct (Z.geb_spec (Z.of_nat (length before)) (Z.of_nat (length before)));
      [reflexivity | lia].
  - apply checkPattern_true; [lia|]. split; [rewrite length_app; simpl; lia|].
    exists before, []. split; [reflexivity | reflexivity].
  - apply checkPattern_true; [lia|]. split; [rewrite length_app; simpl; lia|].
    exists before, []. split; [reflexivity | reflexivity].
  - apply checkPattern_true; [lia|]. split; [rewrite length_app; simpl; lia|].
    exists before, [SyncConfigField]. split; [reflexivity | reflexivity].
  - apply checkPattern_true; [lia|]. split; [rewrite length_app; simpl; lia|].
    exists before, [SyncConfigField]. split; [reflexivity | reflexivity].
Qed.

(** X5. At a given offset of a given packet at most one of the five
    control-packet predicates holds: their patterns differ in the first
    byte. *)
Theorem control_predicates_exclusive
    (type1 type2 : control_pkt_type) (packet : payload_t) (offset : Z) :
  recognises type1 packet offset = true ->
  recognises type2 packet offset = true ->
  type1 = type2.
Proof. apply recognises_exclusive. Qed.

Lemma control_payload_recognised_witness :
  recognises CONTROL_PKT_SYNC_CONFIG
    ([0x00; 0x01; 0x02; 0x03; 0x04] ++ pkt_pattern (codec := sample_codec) CONTROL_PKT_SYNC_CONFIG)
    (uint8_offset 5) = true.
Proof.
  apply (control_payload_recognised (codec := sample_codec) CONTROL_PKT_SYNC_CONFIG
           [0x00; 0x01; 0x02; 0x03; 0x04]).
  simpl. lia.
Defined.

Lemma control_predicates_exclusive_witness :
  CONTROL_PKT_SYNC_CONFIG = CONTROL_PKT_SYNC_CONFIG.
Proof.
  apply (control_predicates_exclusive CONTROL_PKT_SYNC_CONFIG CONTROL_PKT_SYNC_CONFIG
           [0x00; 0x03; 0xfc; 0x11] 1); reflexivity.
Defined.

(** ** The dispatcher, branch by branch *)

Ltac case_step :=
  match goal with
  | |- context [match ?x with _ => _ end] =>
      lazymatch x with
      | context [match _ with _ => _ end] => fail
      | _ => destruct x eqn:?
      end
  end.

Ltac run_cases :=
  repeat first
    [ progress mrun
    | progress (unfold write_exit, read_exit)
    | case_step
    | progress (unfold bind, prepend; cbv beta iota) ].

Section DispatcherBranches.
Context {codec : Codec}.

(** X6. A frame that one of the two decoders rejects is counted as an error
    and dropped: it reaches no branch of the dispatcher, sets no flag, sends
    nothing and notifies nobody.  It is counted and logged as incoming only
    when the SLIP layer could decode it. *)
Theorem processPacket_undecodable (packet : payload_t) (s : H5Transport) :
  decode_packet packet = None ->
  processPacket packet s =
  match slip_decode packet with
  | None => Ok tt (set_errorPacketCount (errorPacketCount s + 1) s) []
  | Some _ =>
      Ok tt
        (set_errorPacketCount (errorPacketCount s + 1)
           (set_incomingPacketCount (incomingPacketCount s + 1) s))
        [EvLog]
  end.
Proof.
  unfold decode_packet, processPacket. intros Hdec.
  destruct (slip_decode packet) as [slipPayload|]; [|reflexivity].
  rewrite Hdec. unfold_methods. mrun. reflexivity.
Qed.


(** X8. The counters of one dispatch: the incoming count goes up by one
    exactly when the SLIP layer decodes the frame, the error count by one
    exactly when a decoder rejects it, and the outgoing count by the number
    of packets given to the lower transport, which is at most one; at most
    one payload goes to the upper layer.  The bounds hold also for a
    dispatch that does not return. *)
Theorem processPacket_statistics (packet : payload_t) (s : H5Transport) :
  (length (lower_sends (trace_of (processPacket packet s))) <= 1)%nat /\
  (length (upper_data (trace_of (processPacket packet s))) <= 1)%nat /\
  match processPacket packet s with
  | Ok _ s' tr =>
      incomingPacketCount s' =
        incomingPacketCount s + match slip_decode packet with Some _ => 1 | None => 0 end /\
      errorPacketCount s' =
        errorPacketCount s + match decode_packet packet with Some _ => 0 | None => 1 end /\
      outgoingPacketCount s' = outgoingPacketCount s + Z.of_nat (length (lower_sends tr))
  | _ => True
  end.
Proof.
  unfold decode_packet, processPacket. unfold_methods.
  run_cases; simpl; repeat split; lia.
Qed.

(** X9. The dispatcher returns, with neither a null callback called nor a
    null pointer written, whenever the table of exit criteria is the one of
    the constructor, a data callback is registered, the packet is not an
    ACK or the state is [STATE_ACTIVE], and the log lines of the dispatch
    are built in bounds.  The last condition is not met by a frame whose
    LINK_CONTROL payload is one of the two two-byte config payloads: for
    these [logPacket] reads past the end of the payload before the
    dispatcher looks at the packet.  The dispatch is taken as one step for
    the other threads. *)
Theorem processPacket_returns (packet : payload_t) (s : H5Transport) :
  exit_table_ok s ->
  upperDataCallback (base s) = true ->
  (currentState s = STATE_ACTIVE \/
   forall hdr, decode_packet packet = Some hdr -> packet_type hdr <> ACK_PACKET) ->
  log_lines_in_bounds packet ->
  exists s' tr, processPacket packet s = Ok tt s' tr.
Proof.
  intros Hok Hcb Hack _.
  assert (Htable : forall st e, exitCriterias s !! st = Some e -> class_of e = st).
  { intros st e He. specialize (Hok st). rewrite He in Hok. simpl in Hok.
    destruct (no_exit_record st); congruence. }
  assert (Hrecord : forall st, no_exit_record st = false -> exitCriterias s !! st <> None).
  { intros st Hst He. specialize (Hok st). rewrite He, Hst in Hok. discriminate. }
  unfold decode_packet in Hack. unfold processPacket. unfold_methods.
  run_cases; try (eexists _, _; reflexivity); exfalso;
    destruct Hack as [Hactive | Hack];
    first
      [ match goal with
        | Hf : false = true |- _ => discriminate Hf
        end
      | match goal with
        | He : exitCriterias s !! currentState s = None, Hst : currentState s = _ |- _ =>
            apply (Hrecord (currentState s)); [rewrite Hst; reflexivity | exact He]
        end
      | match goal with
        | He : exitCriterias s !! currentState s = Some ?e,
          Hst : currentState s = ?st, Hn : class_of ?e <> ?st |- _ =>
            apply Hn; rewrite <- Hst; exact (Htable _ _ He)
        end
      | match goal with
        | Hh : h5_decode _ = Some ?h, Ht : packet_type ?h = ACK_PACKET |- _ =>
            apply (Hack h); [reflexivity | exact Ht]
        end ].
Qed.


End DispatcherBranches.

Lemma sample_active_table_ok : exit_table_ok sample_active.
Proof. intros st. destruct st; reflexivity. Qed.

Lemma processPacket_undecodable_witness :
  processPacket (codec := sample_codec) [0xC0; 0x01; 0xC0] sample_active =
  match slip_decode (Codec := sample_codec) [0xC0; 0x01; 0xC0] with
  | None => Ok tt (set_errorPacketCount (errorPacketCount sample_active + 1) sample_active) []
  | Some _ =>
      Ok tt
        (set_errorPacketCount (errorPacketCount sample_active + 1)
           (set_incomingPacketCount (incomingPacketCount sample_active + 1) sample_active))
        [EvLog]
  end.
Proof.
  apply (processPacket_undecodable (codec := sample_codec) [0xC0; 0x01; 0xC0] sample_active).
  reflexivity.
Defined.


Lemma sample_control_lines_in_bounds type ack :
  h5PktToString_in_bounds (codec := sample_codec)
    (control_h5_packet (codec := sample_codec) type ack) = true.
Proof. destruct type; reflexivity. Qed.

Lemma processPacket_returns_witness :
  exists s' tr,
    processPacket (codec := sample_codec)
      (link_control_packet (codec := sample_codec) CONTROL_PKT_SYNC) sample_active
    = Ok tt s' tr.
Proof.
  apply (processPacket_returns (codec := sample_codec)
           (link_control_packet (codec := sample_codec) CONTROL_PKT_SYNC) sample_active).
  - exact sample_active_table_ok.
  - reflexivity.
  - left. reflexivity.
  - split.
    + intros slipPayload Hslip. vm_compute in Hslip.
      injection Hslip as <-. reflexivity.
    + exact sample_control_lines_in_bounds.
Defined.


(** ** What the receive path leaves alone *)

Lemma same_outside_write_exit s0 f s st e :
  keeps_class f ->
  same_outside_receive_path s0 s ->
  exitCriterias s !! st = Some e ->
  same_outside_receive_path s0 (set_exitCriterias (<[st := f e]> (exitCriterias s)) s).
Proof.
  intros Hf (H1 & H2 & H3 & H4 & H5 & H6 & H7 & H8) He.
  repeat split; try assumption. intros st'. simpl. rewrite <- H8.
  destruct (decide (st = st')) as [<-|Hne].
  - rewrite lookup_insert_eq, He. simpl. rewrite Hf. reflexivity.
  - rewrite lookup_insert_ne by exact Hne. reflexivity.
Qed.

Lemma omap_nil_Forall (tr : list event) :
  omap not_receive_event tr = [] -> Forall (fun e => receive_event e = true) tr.
Proof.
  induction tr as [|e tr IH]; intros H; [constructor|].
  simpl in H. unfold not_receive_event in H at 1.
  destruct (receive_event e) eqn:He; [|discriminate].
  constructor; [exact He | apply IH; exact H].
Qed.

Section ReceivePath.
Context {codec : Codec}.

Ltac receive_side :=
  intros;
  first [ apply same_outside_write_exit; [keeps_class_tac | assumption | assumption]
        | same_counters ].

Lemma processPacket_same_outside s0 packet :
  preserves (same_outside_receive_path s0) (processPacket packet).
Proof. unfold_methods. preserves_with receive_side. Qed.

Lemma dataHandler_loop_same_outside s0 data :
  forall packet, preserves (same_outside_receive_path s0) (dataHandler_loop data packet).
Proof.
  induction data as [|b data IH]; intros packet; simpl.
  - apply preserves_ret.
  - apply preserves_bind; [|exact IH].
    pose proof (processPacket_same_outside s0 (packet ++ [b])).
    unfold dataHandler_byte. preserves_with receive_side.
Qed.

Lemma same_outside_refl s : same_outside_receive_path s s.
Proof. repeat split. Qed.

(** X11. What [dataHandler] never writes, however many frames it hands to
    the dispatcher: the upper callbacks, [lastPacket], [currentState], the
    members of the state-machine thread, the status callback and the
    retransmission interval are as before, and every record of the table of
    exit criteria is still of its class. *)
Theorem dataHandler_leaves_alone (data : list Z) (s s' : H5Transport) (tr : list event) :
  dataHandler data s = Ok tt s' tr ->
  same_outside_receive_path s s'.
Proof.
  intros Hrun. pose proof (dataHandler_loop_same_outside s data) as Hloop.
  assert (Hp : preserves (same_outside_receive_path s) (dataHandler data))
    by (unfold dataHandler; preserves_with receive_side).
  exact (Hp s tt s' tr (same_outside_refl s) Hrun).
Qed.

Lemma processPacket_receive_events packet : quiet not_receive_event (processPacket packet).
Proof. unfold_methods. quiet_auto. Qed.

Lemma dataHandler_loop_receive_events data :
  forall packet, quiet not_receive_event (dataHandler_loop data packet).
Proof.
  induction data as [|b data IH]; intros packet; simpl.
  - apply quiet_ret.
  - apply quiet_bind; [|exact IH].
    pose proof (processPacket_receive_events (packet ++ [b])) as Hp.
    unfold dataHandler_byte. quiet_auto; exact Hp.
Qed.

(** X12. The receive path stays in its business: whatever the bytes, the
    only events of a call of [dataHandler], returned or not, are log lines,
    packets to the lower transport, data to the upper layer, frames handed
    to the dispatcher and notifications of the state-change and ack
    conditions.  It waits on no condition variable, starts and joins no
    thread, reports no status, logs no state transition, and opens and
    closes nothing.  The mutexes the dispatcher locks are not events, so
    nothing is said of the time a call spends on them. *)
Theorem dataHandler_receive_events (data : list Z) (s : H5Transport) :
  Forall (fun e => receive_event e = true) (trace_of (dataHandler data s)).
Proof.
  apply omap_nil_Forall. rewrite dataHandler_as_core, trace_of_dataHandler_core.
  apply dataHandler_loop_receive_events.
Qed.

End ReceivePath.

Lemma dataHandler_leaves_alone_witness :
  exists s' tr,
    dataHandler (codec := sample_codec)
      (link_control_packet (codec := sample_codec) CONTROL_PKT_SYNC) sample_active
    = Ok tt s' tr /\
    same_outside_receive_path sample_active s'.
Proof.
  eexists _, _. split.
  - reflexivity.
  - eapply (dataHandler_leaves_alone (codec := sample_codec)
              (link_control_packet (codec := sample_codec) CONTROL_PKT_SYNC)
              sample_active).
    reflexivity.
Defined.

(** ** The peer answers while a call waits *)

Lemma succ_mod8_differs (a : Z) : (a + 1) mod 8 <> a.
Proof.
  intros H. pose proof (Z.div_mod (a + 1) 8 ltac:(lia)) as Hdiv. lia.
Qed.

Ltac flag_cases :=
  intros [] Hc; try discriminate Hc;
  repeat match goal with b : bool |- _ => destruct b end;
  simpl; congruence.

Section PeerAnswers.
Context {codec : Codec}.

Lemma processPacket_sync_response packet hdr s e :
  decode_packet packet = Some hdr ->
  packet_type hdr = LINK_CONTROL_PACKET ->
  isSyncResponsePacket (h5Payload hdr) 0 = true ->
  currentState s = STATE_UNINITIALIZED ->
  exitCriterias s !! STATE_UNINITIALIZED = Some e ->
  class_of e = STATE_UNINITIALIZED ->
  processPacket packet s =
  Ok tt
    (set_exitCriterias
       (<[STATE_UNINITIALIZED := set_syncRspReceived e]> (exitCriterias s))
       (set_incomingPacketCount (incomingPacketCount s + 1) s))
    [EvLog; EvNotify stateMachineChange].
Proof.
  intros Hdec Ht Hrsp Hst He Hc.
  apply decode_packet_Some in Hdec as (slipPayload & Hs & Hh).
  unfold processPacket. rewrite Hs, Hh. unfold_methods. mrun. rewrite Ht, Hst. simpl.
  rewrite Hrsp. mrun. rewrite He. cbv iota beta. rewrite He.
  rewrite decide_True by exact Hc.
  rewrite (bind_write_exit _ _ _ _ e) by exact He. reflexivity.
Qed.


Lemma processPacket_sync_in_active packet hdr s e :
  decode_packet packet = Some hdr ->
  packet_type hdr = LINK_CONTROL_PACKET ->
  isSyncPacket (h5Payload hdr) 0 = true ->
  currentState s = STATE_ACTIVE ->
  exitCriterias s !! STATE_ACTIVE = Some e ->
  class_of e = STATE_ACTIVE ->
  processPacket packet s =
  Ok tt
    (set_exitCriterias
       (<[STATE_ACTIVE := set_syncReceived e]> (exitCriterias s))
       (set_incomingPacketCount (incomingPacketCount s + 1) s))
    [EvLog; EvNotify stateMachineChange].
Proof.
  intros Hdec Ht Hrsp Hst He Hc.
  apply decode_packet_Some in Hdec as (slipPayload & Hs & Hh).
  unfold processPacket. rewrite Hs, Hh. unfold_methods. mrun. rewrite Ht, Hst. simpl.
  mrun. rewrite He. cbv iota beta. rewrite He.
  rewrite decide_True by exact Hc. rewrite Hrsp.
  rewrite (bind_write_exit _ _ _ _ e) by exact He. reflexivity.
Qed.

Lemma during_at k0 g s : during k0 g k0 s = g s.
Proof. unfold during. rewrite Nat.eqb_refl. reflexivity. Qed.

Lemma during_other k0 g k s : k <> k0 -> during k0 g k s = s.
Proof.
  intros Hk. unfold during.
  destruct (Nat.eqb_spec k k0); [contradiction | reflexivity].
Qed.

Lemma dispatch_during_at k0 packet s :
  dispatch_during k0 packet k0 s = dispatched packet s.
Proof. apply during_at. Qed.

Lemma dispatch_during_other k0 packet k s :
  k <> k0 -> dispatch_during k0 packet k s = s.
Proof. apply during_other. Qed.

(** A handshake state whose wait number [k0] sees another thread set a flag
    that fulfils the record, the other waits seeing nothing. *)
Section HandshakeAnswered.
Variable st : h5_state_t.
Variable type : control_pkt_type.
Variables set_sent set_received : ExitCriterias -> ExitCriterias.
Variable g : H5Transport -> H5Transport.
Variable k0 : nat.
Hypothesis Htype : type = CONTROL_PKT_SYNC \/ type = CONTROL_PKT_SYNC_CONFIG.
Hypothesis Hanswer : forall s e,
  currentState s = st -> exitCriterias s !! st = Some e -> class_of e = st ->
  exitCriterias (g s) !! st = Some (set_received e) /\
  currentState (g s) = currentState s /\ base (g s) = base s.
Hypothesis Hsent_class : keeps_class set_sent.
Hypothesis Hsent_twice : forall e, set_sent (set_sent e) = set_sent e.
Hypothesis Hwaiting : forall e,
  class_of e = st -> isFullfilled (set_sent e) = false -> isFullfilled e = false.
Hypothesis Hdone : forall e,
  class_of e = st -> isFullfilled (set_sent e) = false ->
  isFullfilled (set_received (set_sent e)) = true.

(** The loop entered before wait [k] with [n] attempts left, the flag being
    set during wait [k + j]. *)
Lemma sync_loop_answered :
  forall j k n s e,
    (k + j = k0)%nat -> (j < n)%nat ->
    currentState s = st ->
    exitCriterias s !! st = Some e -> class_of e = st ->
    isFullfilled (set_sent e) = false ->
    exists s',
      sync_loop (during k0 g) (Some st) type set_sent n k s =
        Ok (n - S j)%nat s' (concat (repeat (handshake_attempt type) (S j))) /\
      exitCriterias s' !! st = Some (set_received (set_sent e)) /\
      currentState s' = currentState s /\
      base s' = base s.
Proof.
  induction j as [|j IH]; intros k n s e Hk Hn Hst He Hc Hw;
    (destruct n as [|n]; [lia|]); cbn [sync_loop];
    rewrite (bind_read_exit _ _ _ e) by exact He;
    rewrite (Hwaiting e Hc Hw);
    rewrite (bind_Ok _ _ _ _ _ _ (sendControlPacket_link type s Htype));
    rewrite (bind_write_exit _ _ _ _ e) by exact He;
    unfold wait_on; rewrite bind_assoc, bind_emit, bind_modify; cbv beta.
  - assert (k = k0) as -> by lia. rewrite during_at.
    match goal with
    | |- context [sync_loop _ _ _ _ n _ (g ?s2)] =>
        destruct (Hanswer s2 (set_sent e)) as (He3 & Hst3 & Hbase3);
          [ exact Hst | simpl; apply lookup_insert_eq | rewrite Hsent_class; exact Hc | ];
        exists (g s2)
    end.
    split; [|split; [exact He3 | split; [exact Hst3 | exact Hbase3]]].
    replace (S n - 1)%nat with n by lia.
    destruct n as [|n]; cbn [sync_loop];
      rewrite (bind_read_exit _ _ _ _ He3).
    + reflexivity.
    + rewrite (Hdone e Hc Hw). reflexivity.
  - rewrite during_other by lia.
    match goal with
    | |- context [sync_loop _ _ _ _ n _ ?s2] =>
        destruct (IH (S k) n s2 (set_sent e)) as (s' & Hrun & He' & Hst' & Hbase);
          [ lia | lia | exact Hst | simpl; apply lookup_insert_eq
          | rewrite Hsent_class; exact Hc | rewrite Hsent_twice; exact Hw | ]
    end.
    rewrite Hsent_twice in He'. exists s'.
    split; [|split; [exact He' | split; [exact Hst' | exact Hbase]]].
    rewrite Hrun. reflexivity.
Qed.

End HandshakeAnswered.

Lemma dispatched_sync_response packet hdr s e :
  decode_packet packet = Some hdr ->
  packet_type hdr = LINK_CONTROL_PACKET ->
  isSyncResponsePacket (h5Payload hdr) 0 = true ->
  currentState s = STATE_UNINITIALIZED ->
  exitCriterias s !! STATE_UNINITIALIZED = Some e ->
  class_of e = STATE_UNINITIALIZED ->
  exitCriterias (dispatched packet s) !! STATE_UNINITIALIZED = Some (set_syncRspReceived e) /\
  currentState (dispatched packet s) = currentState s /\
  base (dispatched packet s) = base s.
Proof.
  intros Hdec Ht Hrsp Hst He Hc. unfold dispatched.
  rewrite (processPacket_sync_response packet hdr s e Hdec Ht Hrsp Hst He Hc).
  simpl. rewrite lookup_insert_eq. auto.
Qed.


Lemma stateAction_UNINITIALIZED_answered
    (packet : payload_t) (hdr : h5_header) (k0 : nat) (s : H5Transport) :
  exit_table_ok s ->
  currentState s = STATE_UNINITIALIZED ->
  decode_packet packet = Some hdr ->
  packet_type hdr = LINK_CONTROL_PACKET ->
  isSyncResponsePacket (h5Payload hdr) 0 = true ->
  (k0 < PACKET_RETRANSMISSIONS)%nat ->
  exists s',
    stateAction_UNINITIALIZED (dispatch_during k0 packet) s =
    Ok STATE_INITIALIZED s'
       (concat (repeat (handshake_attempt CONTROL_PKT_SYNC) (S k0))) /\
    currentState s' = currentState s /\ base s' = base s.
Proof.
  intros Hok Hst Hdec Ht Hrsp Hk0.
  pose proof (Hok STATE_UNINITIALIZED) as Hrec. simpl in Hrec.
  destruct (exitCriterias s !! STATE_UNINITIALIZED) as [e0|] eqn:He0; [|discriminate].
  simpl in Hrec. injection Hrec as Hclass.
  unfold stateAction_UNINITIALIZED, exitCriterias_at, dynamic_cast.
  rewrite bind_gets. cbv beta. rewrite bind_gets. rewrite He0. cbv iota beta. rewrite He0.
  rewrite decide_True by exact Hclass.
  rewrite (bind_write_exit _ _ _ _ e0) by exact He0.
  match goal with
  | |- context [bind (sync_loop _ _ _ _ _ _) _ ?s1] =>
      destruct (sync_loop_answered STATE_UNINITIALIZED CONTROL_PKT_SYNC
                  set_syncSent set_syncRspReceived (dispatched packet) k0 (or_introl eq_refl)
                  (fun s e => dispatched_sync_response packet hdr s e Hdec Ht Hrsp)
                  ltac:(intros []; reflexivity) ltac:(intros []; reflexivity)
                  ltac:(flag_cases)
                  ltac:(flag_cases)
                  k0 0%nat PACKET_RETRANSMISSIONS s1 (reset e0))
        as (s' & Hrun & He & Hst' & Hbase');
        [ reflexivity | exact Hk0 | exact Hst | simpl; apply lookup_insert_eq
        | destruct e0; try discriminate; reflexivity
        | destruct e0; try discriminate; reflexivity | ]
  end.
  rewrite (bind_Ok _ _ _ _ _ _ Hrun).
  rewrite (bind_read_exit _ _ _ _ He).
  destruct e0; try discriminate Hclass. simpl. rewrite app_nil_r.
  exists s'. split; [reflexivity|]. split; [exact Hst' | exact Hbase'].
Qed.

(** X13. The handshake of [STATE_UNINITIALIZED] completed by the peer: when
    the SYNC_RESPONSE of the peer is dispatched during wait number [k0] of
    the action, the action has sent SYNC exactly [k0 + 1] times, sends it
    no more, reports no status and returns [STATE_INITIALIZED]: also when
    the answer comes during the wait of the sixth and last attempt. *)
Theorem uninitialized_completed_by_peer
    (packet : payload_t) (hdr : h5_header) (k0 : nat) (s : H5Transport) :
  exit_table_ok s ->
  currentState s = STATE_UNINITIALIZED ->
  decode_packet packet = Some hdr ->
  packet_type hdr = LINK_CONTROL_PACKET ->
  isSyncResponsePacket (h5Payload hdr) 0 = true ->
  (k0 < PACKET_RETRANSMISSIONS)%nat ->
  exists s',
    stateAction_UNINITIALIZED (dispatch_during k0 packet) s =
    Ok STATE_INITIALIZED s'
       (concat (repeat (handshake_attempt CONTROL_PKT_SYNC) (S k0))).
Proof.
  intros Hok Hst Hdec Ht Hrsp Hk0.
  destruct (stateAction_UNINITIALIZED_answered packet hdr k0 s Hok Hst Hdec Ht Hrsp Hk0)
    as (s' & Hrun & _).
  exists s'. exact Hrun.
Qed.



(** X15. The peer restarts while the link is active.  The ACTIVE action
    zeroes both sequence counters and reports CONNECTION_ACTIVE, then waits;
    when a SYNC of the peer, or an ACK whose number is neither the one
    awaited nor the one before, is dispatched during that wait, the action
    returns [STATE_RESET], with both counters still zero. *)
Theorem active_left_on_peer_restart
    (packet : payload_t) (hdr : h5_header) (s : H5Transport) :
  exit_table_ok s ->
  currentState s = STATE_ACTIVE ->
  decode_packet packet = Some hdr ->
  (packet_type hdr = LINK_CONTROL_PACKET /\ isSyncPacket (h5Payload hdr) 0 = true) \/
  (packet_type hdr = ACK_PACKET /\ ack_num hdr <> 1 /\ ack_num hdr <> 0) ->
  exists s',
    stateAction_ACTIVE (dispatch_during 0 packet) s =
    Ok STATE_RESET s'
       ((if upperStatusCallback (base s) then [EvUpperStatus CONNECTION_ACTIVE] else []) ++
        [EvWait stateMachineChange None]) /\
    seqNum s' = 0 /\ ackNum s' = 0.
Proof.
  intros Hok Hst Hdec Hpacket.
  pose proof (Hok STATE_ACTIVE) as Hrec. simpl in Hrec.
  destruct (exitCriterias s !! STATE_ACTIVE) as [e0|] eqn:He0; [|discriminate].
  simpl in Hrec. injection Hrec as Hclass.
  unfold stateAction_ACTIVE, exitCriterias_at, dynamic_cast.
  rewrite bind_gets. cbv beta. rewrite bind_gets. rewrite He0. cbv iota beta. rewrite He0.
  rewrite decide_True by exact Hclass.
  rewrite (bind_write_exit _ _ _ _ e0) by exact He0.
  rewrite bind_modify, bind_modify.
  match goal with
  | |- context [bind (statusHandler CONNECTION_ACTIVE) _ ?sa] => set (s1 := sa)
  end.
  rewrite (bind_Ok _ _ _ _ _ _ (statusHandler_other CONNECTION_ACTIVE s1
                                  ltac:(discriminate))).
  assert (He1 : exitCriterias s1 !! STATE_ACTIVE = Some (reset e0))
    by (simpl; apply lookup_insert_eq).
  assert (Hst1 : currentState s1 = STATE_ACTIVE) by exact Hst.
  assert (Hseq1 : seqNum s1 = 0) by reflexivity.
  assert (Hack1 : ackNum s1 = 0) by reflexivity.
  change (base s1) with (base s). clearbody s1.
  rewrite bind_assoc. rewrite (bind_read_exit _ _ _ _ He1).
  destruct e0 as [| | | |io c err sync]; try discriminate Hclass. cbn [reset isFullfilled orb].
  unfold wait_on. rewrite !bind_assoc, bind_emit, bind_modify. cbv beta.
  rewrite dispatch_during_at. unfold dispatched.
  destruct Hpacket as [[Ht Hsync] | (Ht & Hnext & Hstale)].
  - rewrite (processPacket_sync_in_active packet hdr s1 _ Hdec Ht Hsync Hst1 He1 eq_refl).
    rewrite bind_assoc.
    match goal with
    | |- context [bind (read_exit _) _ ?s2] =>
        rewrite (bind_read_exit _ _ s2 (set_syncReceived (ActiveExitCriterias false false false false)))
          by (simpl; apply lookup_insert_eq)
    end.
    cbn [set_syncReceived isFullfilled orb]. rewrite bind_ret_l.
    match goal with
    | |- context [bind (read_exit _) _ ?s2] =>
        rewrite (bind_read_exit _ _ s2 (ActiveExitCriterias false false false true))
          by (simpl; apply lookup_insert_eq)
    end.
    simpl. eexists. split; [|split].
    + destruct (upperStatusCallback (base s)); reflexivity.
    + exact Hseq1.
    + exact Hack1.
  - apply decode_packet_Some in Hdec as (slipPayload & Hs & Hh).
    rewrite (processPacket_ack_out_of_sync packet slipPayload hdr s1 false false false false
               Hs Hh Ht Hst1 He1)
      by (rewrite Hseq1; assumption).
    rewrite bind_assoc.
    match goal with
    | |- context [bind (read_exit _) _ ?s2] =>
        rewrite (bind_read_exit _ _ s2 (ActiveExitCriterias false false true false))
          by (simpl; apply lookup_insert_eq)
    end.
    cbn [isFullfilled orb]. rewrite bind_ret_l.
    match goal with
    | |- context [bind (read_exit _) _ ?s2] =>
        rewrite (bind_read_exit _ _ s2 (ActiveExitCriterias false false true false))
          by (simpl; apply lookup_insert_eq)
    end.
    simpl. eexists. split; [|split].
    + destruct (upperStatusCallback (base s)); reflexivity.
    + exact Hseq1.
    + exact Hack1.
Qed.

Section SendAcknowledged.
Variable packet : payload_t.
Variable hdr : h5_header.
Variable k0 : nat.
Hypothesis Hdec : decode_packet packet = Some hdr.
Hypothesis Htype : packet_type hdr = ACK_PACKET.

(** The loop of [send] entered before wait [k] with [n] attempts left, the
    ACK being dispatched during wait [k + j]. *)
Lemma send_loop_acknowledged h5EncodedPacket :
  forall j k n s,
    (k + j = k0)%nat -> (j < n)%nat ->
    currentState s <> STATE_RESET ->
    ack_num hdr = Z.land (seqNum s + 1) 0x07 ->
    exists s',
      send_loop (dispatch_during k0 packet) h5EncodedPacket n k s =
        Ok NRF_SUCCESS s'
           (concat (repeat (send_attempt (lastPacket s) (retransmissionInterval s)) (S j))) /\
      seqNum s' = (seqNum s + 1) mod 8 /\
      ackNum s' = ackNum s /\
      lastPacket s' = [] /\
      outgoingPacketCount s' = outgoingPacketCount s + Z.of_nat (S j).
Proof.
  destruct (decode_packet_Some _ _ Hdec) as (slipPayload & Hs & Hh).
  induction j as [|j IH]; intros k n s Hk Hn Hst Hack;
    (destruct n as [|n]; [lia|]); cbn [send_loop];
    unfold logPacket, wait_on;
    rewrite !bind_assoc, bind_modify, bind_emit, bind_assoc, bind_gets; cbv beta;
    rewrite bind_emit, bind_gets; cbv beta; rewrite bind_gets; cbv beta;
    rewrite bind_assoc, bind_emit, bind_modify; cbv beta.
  - assert (k = k0) as -> by lia. rewrite dispatch_during_at. unfold dispatched.
    rewrite (processPacket_ack_next packet slipPayload hdr _ Hs Hh Htype)
      by (simpl; assumption).
    rewrite bind_gets. cbv beta. cbn [seqNum set_seqNum set_outgoingPacketCount
                                      set_incomingPacketCount].
    rewrite land7_mod256.
    destruct (Z.eqb_spec ((seqNum s + 1) mod 8) (seqNum s)) as [E|_];
      [exfalso; exact (succ_mod8_differs _ E)|].
    cbn [negb]. rewrite bind_modify.
    eexists. split; [reflexivity|]. simpl. repeat split; lia.
  - rewrite dispatch_during_other by lia.
    rewrite bind_gets. cbv beta. cbn [seqNum set_outgoingPacketCount].
    rewrite Z.eqb_refl. cbn [negb].
    match goal with
    | |- context [send_loop _ _ n _ ?s1] =>
        destruct (IH (S k) n s1) as (s' & Hrun & Hseq & Hackn & Hlast & Hout);
          [ lia | lia | exact Hst | exact Hack | ]
    end.
    exists s'. split; [rewrite Hrun; reflexivity|].
    split; [exact Hseq|]. split; [exact Hackn|]. split; [exact Hlast|].
    rewrite Hout. simpl outgoingPacketCount. lia.
Qed.

End SendAcknowledged.

(** X16. A [send] acknowledged by the peer: when an ACK whose number is the
    successor of [seqNum] is dispatched during wait number [k0] of the call,
    [send] has given the encoded packet to the lower transport exactly
    [k0 + 1] times, returns SUCCESS, leaves [seqNum] advanced by one modulo 8
    and [ackNum] as it was, and [lastPacket] empty. *)
Theorem send_acknowledged_by_peer
    (data packet : payload_t) (hdr : h5_header) (k0 : nat) (s : H5Transport) :
  currentState s = STATE_ACTIVE ->
  decode_packet packet = Some hdr ->
  packet_type hdr = ACK_PACKET ->
  ack_num hdr = Z.land (seqNum s + 1) 0x07 ->
  (k0 < PACKET_RETRANSMISSIONS)%nat ->
  let encodedPacket :=
    slip_encode (h5_encode data (seqNum s) (ackNum s) true true VENDOR_SPECIFIC_PACKET) in
  exists s',
    send (dispatch_during k0 packet) data s =
    Ok NRF_SUCCESS s'
       (concat (repeat (send_attempt encodedPacket (retransmissionInterval s)) (S k0))) /\
    seqNum s' = (seqNum s + 1) mod 8 /\
    ackNum s' = ackNum s /\
    lastPacket s' = [].
Proof.
  intros Hst Hdec Ht Hack Hk0 encodedPacket.
  unfold send. rewrite bind_gets. cbv beta. rewrite Hst.
  destruct (decide (STATE_ACTIVE <> STATE_ACTIVE)) as [N|_]; [contradiction|].
  rewrite bind_gets. cbv beta. rewrite bind_gets. cbv beta.
  rewrite bind_modify, bind_modify. fold encodedPacket.
  match goal with
  | |- context [send_loop _ ?h5 _ _ ?s1] =>
      destruct (send_loop_acknowledged packet hdr k0 Hdec Ht h5
                  k0 0%nat PACKET_RETRANSMISSIONS s1)
        as (s' & Hrun & Hseq & Hackn & Hlast & _);
        [ reflexivity | exact Hk0 | simpl; rewrite Hst; discriminate | exact Hack | ]
  end.
  exists s'. split; [exact Hrun|]. split; [exact Hseq|]. split; [exact Hackn | exact Hlast].
Qed.

End PeerAnswers.

(** ** Shutting the state machine down *)

Lemma shutdown_seen_record cause s st e :
  currentState s = st ->
  exitCriterias s !! st = Some e ->
  shutdown_seen cause s =
  set_exitCriterias (<[st := shutdown_flag cause e]> (exitCriterias s)) s.
Proof.
  intros Hst He. destruct cause; simpl.
  - unfold close_requested. rewrite Hst, He. reflexivity.
  - unfold status_reported, statusHandler, exitCriterias_at.
    rewrite decide_True by reflexivity.
    rewrite !bind_assoc, bind_gets. cbv beta. rewrite bind_assoc, bind_gets. cbv beta.
    rewrite Hst, He. rewrite bind_assoc.
    rewrite (bind_write_exit _ _ _ _ e) by exact He.
    rewrite bind_emit, bind_gets. cbv beta.
    destruct (upperStatusCallback _); reflexivity.
Qed.

Lemma shutdown_seen_answer cause st s e :
  currentState s = st -> exitCriterias s !! st = Some e -> class_of e = st ->
  exitCriterias (shutdown_seen cause s) !! st = Some (shutdown_flag cause e) /\
  currentState (shutdown_seen cause s) = currentState s /\
  base (shutdown_seen cause s) = base s.
Proof.
  intros Hst He _. rewrite (shutdown_seen_record cause s st e Hst He).
  simpl. rewrite lookup_insert_eq. auto.
Qed.

Ltac state_record Hok st e0 He0 Hclass :=
  let Hrec := fresh "Hrec" in
  pose proof (Hok st) as Hrec; simpl in Hrec;
  destruct (exitCriterias _ !! st) as [e0|] eqn:He0; [|discriminate Hrec];
  simpl in Hrec; injection Hrec as Hclass.

Ltac enter_action e0 He0 Hclass :=
  unfold exitCriterias_at, dynamic_cast;
  rewrite bind_gets; cbv beta; rewrite bind_gets; rewrite He0; cbv iota beta; rewrite He0;
  rewrite decide_True by exact Hclass;
  rewrite (bind_write_exit _ _ _ _ e0) by exact He0.

Section Shutdown.
Context {codec : Codec}.
Variable cause : shutdown_cause.

Lemma stateAction_START_shutdown s :
  exit_table_ok s -> currentState s = STATE_START ->
  exists s' tr,
    stateAction_START (during 0 (shutdown_seen cause)) s = Ok (shutdown_state cause) s' tr /\
    currentState s' = STATE_START.
Proof.
  intros Hok Hst. state_record Hok STATE_START e0 He0 Hclass.
  unfold stateAction_START. enter_action e0 He0 Hclass.
  rewrite bind_modify, bind_emit. unfold wait_on.
  rewrite bind_assoc, bind_emit, bind_modify. cbv beta. rewrite during_at.
  rewrite (shutdown_seen_record cause _ STATE_START (reset e0))
    by first [exact Hst | simpl; apply lookup_insert_eq].
  rewrite (bind_read_exit _ _ _ (shutdown_flag cause (reset e0)))
    by (simpl; apply lookup_insert_eq).
  destruct e0; try discriminate Hclass. destruct cause; simpl;
    (eexists _, _; split; [reflexivity | exact Hst]).
Qed.

Lemma stateAction_RESET_shutdown s :
  exit_table_ok s -> currentState s = STATE_RESET ->
  exists s' tr,
    stateAction_RESET (during 0 (shutdown_seen cause)) s = Ok (shutdown_state cause) s' tr /\
    currentState s' = STATE_RESET.
Proof.
  intros Hok Hst. state_record Hok STATE_RESET e0 He0 Hclass.
  unfold stateAction_RESET. enter_action e0 He0 Hclass.
  unfold sendControlPacket, logPacket.
  rewrite !bind_assoc, bind_gets. cbv beta.
  rewrite !bind_assoc, bind_modify, bind_emit, bind_emit, bind_assoc, bind_gets. cbv beta.
  assert (Hstatus : forall s1 (k : unit -> M h5_state_t),
             bind (if statusCallback s1 then statusHandler RESET_PERFORMED else ret tt) k s1 =
             prepend (if statusCallback s1 && upperStatusCallback (base s1)
                      then [EvUpperStatus RESET_PERFORMED] else [])
                     (k tt s1)).
  { intros s1 k. destruct (statusCallback s1); simpl.
    - rewrite (bind_Ok _ _ _ _ _ _ (statusHandler_other RESET_PERFORMED s1
                                      ltac:(discriminate))).
      reflexivity.
    - rewrite bind_ret_l, prepend_nil. reflexivity. }
  rewrite Hstatus.
  match goal with
  | |- context [bind (write_exit _ set_resetSent) _ ?s1] =>
      rewrite (bind_write_exit _ _ _ s1 (reset e0)) by (simpl; apply lookup_insert_eq)
  end.
  unfold wait_on. rewrite bind_assoc, bind_emit, bind_modify. cbv beta. rewrite during_at.
  rewrite (shutdown_seen_record cause _ STATE_RESET (set_resetSent (reset e0)))
    by first [exact Hst | simpl; apply lookup_insert_eq].
  match goal with
  | |- context [bind (write_exit _ set_resetWait) _ ?s1] =>
      rewrite (bind_write_exit _ _ _ s1 (shutdown_flag cause (set_resetSent (reset e0))))
        by (simpl; apply lookup_insert_eq)
  end.
  rewrite (bind_read_exit _ _ _
             (set_resetWait (shutdown_flag cause (set_resetSent (reset e0)))))
    by (simpl; apply lookup_insert_eq).
  destruct e0; try discriminate Hclass. destruct cause; simpl;
    (eexists _, _; split; [reflexivity | exact Hst]).
Qed.

Lemma handshake_shutdown st type set_sent sent received nextState0 k0 s :
  type = CONTROL_PKT_SYNC \/ type = CONTROL_PKT_SYNC_CONFIG ->
  keeps_class set_sent ->
  (forall e, set_sent (set_sent e) = set_sent e) ->
  (forall e, class_of e = st -> isFullfilled (set_sent e) = false -> isFullfilled e = false) ->
  (forall e, class_of e = st -> isFullfilled (shutdown_flag cause (set_sent e)) = true) ->
  (forall e, class_of e = st -> isFullfilled (set_sent (reset e)) = false) ->
  (forall e, class_of e = st ->
             ioResourceError (shutdown_flag cause (set_sent (reset e))) =
               match cause with IoError => true | CloseCalled => false end /\
             close_flag (shutdown_flag cause (set_sent (reset e))) =
               match cause with IoError => false | CloseCalled => true end) ->
  exit_table_ok s -> currentState s = st -> no_exit_record st = false ->
  (k0 < PACKET_RETRANSMISSIONS)%nat ->
  exists s' tr,
    (let* p := exitCriterias_at st in
     let* exit := dynamic_cast st p in
     write_exit exit reset >>
     let* syncRetransmission :=
       sync_loop (during k0 (shutdown_seen cause)) exit type set_sent
         PACKET_RETRANSMISSIONS 0 in
     let* e := read_exit exit in
     if ioResourceError e then ret STATE_FAILED
     else if close_flag e then ret STATE_CLOSED
     else if sent e && received e then ret nextState0
     else
       (if (syncRetransmission <=? 0)%nat
        then statusHandler PKT_SEND_MAX_RETRIES_REACHED else ret tt) >>
       ret STATE_FAILED) s = Ok (shutdown_state cause) s' tr /\
    currentState s' = st.
Proof.
  intros Htype Hclass_sent Htwice Hwaiting Hdone Hfresh Hflags Hok Hst Hlive Hk0.
  pose proof (Hok st) as Hrec. rewrite Hlive in Hrec.
  destruct (exitCriterias s !! st) as [e0|] eqn:He0; [|discriminate Hrec].
  simpl in Hrec. injection Hrec as Hclass.
  enter_action e0 He0 Hclass.
  match goal with
  | |- context [bind (sync_loop _ _ _ _ _ _) _ ?s1] =>
      destruct (sync_loop_answered st type set_sent (shutdown_flag cause)
                  (shutdown_seen cause) k0 Htype
                  (shutdown_seen_answer cause st)
                  Hclass_sent Htwice Hwaiting
                  (fun e Hc _ => Hdone e Hc)
                  k0 0%nat PACKET_RETRANSMISSIONS s1 (reset e0))
        as (s' & Hrun & He & Hst' & _);
        [ reflexivity | exact Hk0 | exact Hst | simpl; apply lookup_insert_eq
        | rewrite <- Hclass; destruct e0; reflexivity
        | apply Hfresh; exact Hclass | ]
  end.
  rewrite (bind_Ok _ _ _ _ _ _ Hrun).
  rewrite (bind_read_exit _ _ _ _ He).
  destruct (Hflags e0 Hclass) as [Hio Hclose]. rewrite Hio, Hclose.
  exists s'. eexists. split.
  - destruct cause; simpl; rewrite app_nil_r; reflexivity.
  - rewrite Hst'. exact Hst.
Qed.

Lemma stateAction_ACTIVE_shutdown s :
  exit_table_ok s -> currentState s = STATE_ACTIVE ->
  exists s' tr,
    stateAction_ACTIVE (during 0 (shutdown_seen cause)) s = Ok (shutdown_state cause) s' tr /\
    currentState s' = STATE_ACTIVE.
Proof.
  intros Hok Hst. state_record Hok STATE_ACTIVE e0 He0 Hclass.
  unfold stateAction_ACTIVE. enter_action e0 He0 Hclass.
  rewrite bind_modify, bind_modify.
  match goal with
  | |- context [bind (statusHandler CONNECTION_ACTIVE) _ ?sa] => set (s1 := sa)
  end.
  rewrite (bind_Ok _ _ _ _ _ _ (statusHandler_other CONNECTION_ACTIVE s1
                                  ltac:(discriminate))).
  assert (He1 : exitCriterias s1 !! STATE_ACTIVE = Some (reset e0))
    by (simpl; apply lookup_insert_eq).
  assert (Hst1 : currentState s1 = STATE_ACTIVE) by exact Hst.
  clearbody s1.
  rewrite bind_assoc. rewrite (bind_read_exit _ _ _ _ He1).
  destruct e0 as [| | | |io c err sync]; try discriminate Hclass. cbn [reset isFullfilled orb].
  unfold wait_on. rewrite !bind_assoc, bind_emit, bind_modify. cbv beta.
  rewrite during_at.
  rewrite (shutdown_seen_record cause s1 STATE_ACTIVE _ Hst1 He1).
  rewrite bind_assoc.
  match goal with
  | |- context [bind (read_exit _) _ ?s2] =>
      rewrite (bind_read_exit _ _ s2
                 (shutdown_flag cause (ActiveExitCriterias false false false false)))
        by (simpl; apply lookup_insert_eq)
  end.
  destruct cause; simpl; rewrite bind_ret_l;
    match goal with
    | |- context [bind (read_exit _) _ ?s2] =>
        erewrite (bind_read_exit _ _ s2) by (simpl; apply lookup_insert_eq)
    end; simpl; (eexists _, _; split; [reflexivity | exact Hst1]).
Qed.

Lemma stateActions_shutdown st k0 s :
  exit_table_ok s -> currentState s = st -> no_exit_record st = false ->
  (k0 < waits_of st)%nat ->
  exists s' tr,
    stateActions st (during k0 (shutdown_seen cause)) s = Ok (shutdown_state cause) s' tr /\
    currentState s' = st.
Proof.
  intros Hok Hst Hlive Hk0. destruct st; try discriminate Hlive; simpl in Hk0 |- *.
  - assert (k0 = 0%nat) as -> by lia. apply stateAction_START_shutdown; assumption.
  - assert (k0 = 0%nat) as -> by lia. apply stateAction_RESET_shutdown; assumption.
  - apply (handshake_shutdown STATE_UNINITIALIZED CONTROL_PKT_SYNC set_syncSent
             syncSent syncRspReceived STATE_INITIALIZED k0 s);
      try assumption; try reflexivity;
      [ left; reflexivity | intros []; reflexivity | intros []; reflexivity
      | flag_cases
      | intros [] Hc; try discriminate Hc; destruct cause;
        repeat match goal with b : bool |- _ => destruct b end; reflexivity
      | intros [] Hc; try discriminate Hc; reflexivity
      | intros [] Hc; try discriminate Hc; destruct cause; split; reflexivity ].
  - apply (handshake_shutdown STATE_INITIALIZED CONTROL_PKT_SYNC_CONFIG set_syncConfigSent
             syncConfigSent syncConfigRspReceived STATE_ACTIVE k0 s);
      try assumption; try reflexivity;
      [ right; reflexivity | intros []; reflexivity | intros []; reflexivity
      | flag_cases
      | intros [] Hc; try discriminate Hc; destruct cause;
        repeat match goal with b : bool |- _ => destruct b end; reflexivity
      | intros [] Hc; try discriminate Hc; reflexivity
      | intros [] Hc; try discriminate Hc; destruct cause; split; reflexivity ].
  - assert (k0 = 0%nat) as -> by lia. apply stateAction_ACTIVE_shutdown; assumption.
Qed.

(** X17. Shutting down a running state machine.  Whatever the state of the
    five that have an action with a wait, when [close] is called, or the
    lower transport reports IO_RESOURCES_UNAVAILABLE to [statusHandler],
    during a wait of the action (any of the six waits of a handshake
    state), the action returns at its next test of the record, the thread
    logs one transition, to [STATE_CLOSED] after [close] and to
    [STATE_FAILED] after the I/O error, and its loop ends there: no further
    action runs, however many rounds the thread is observed for. *)
Theorem shutdown_ends_state_machine
    (st : h5_state_t) (k0 fuel i : nat) (s : H5Transport) :
  exit_table_ok s ->
  currentState s = st ->
  no_exit_record st = false ->
  (k0 < waits_of st)%nat ->
  exists s' tr,
    stateMachineWorker (S fuel) (fun _ => during k0 (shutdown_seen cause)) i s = Ok tt s' tr /\
    currentState s' = shutdown_state cause /\
    transitions tr = [(st, shutdown_state cause)].
Proof.
  intros Hok Hst Hlive Hk0.
  destruct (stateActions_shutdown st k0 s Hok Hst Hlive Hk0) as (s1 & tr1 & Hrun & Hst1).
  pose proof (stateActions_quiet_transitions st (during k0 (shutdown_seen cause)) s) as Hq.
  rewrite Hrun in Hq. simpl in Hq. fold (transitions tr1) in Hq.
  cbn [stateMachineWorker]. rewrite bind_gets. cbv beta. rewrite Hst.
  assert (Hgo : bool_decide (st <> STATE_FAILED) && bool_decide (st <> STATE_CLOSED) = true)
    by (destruct st; try discriminate Hlive; reflexivity).
  rewrite Hgo. rewrite (bind_Ok _ _ _ _ _ _ Hrun).
  rewrite bind_gets. cbv beta. unfold logStateTransition.
  rewrite bind_emit, bind_modify, bind_emit.
  rewrite stateMachineWorker_terminal by (destruct cause; simpl; auto).
  eexists _, _. split; [reflexivity|]. split; [reflexivity|].
  rewrite transitions_app, Hq, Hst1. reflexivity.
Qed.

End Shutdown.

(** ** Opening and closing *)

Section OpenClose.
Context {codec : Codec}.


Lemma exit_table_lookup s st :
  exit_table_ok s -> no_exit_record st = false ->
  exists e, exitCriterias s !! st = Some e /\ class_of e = st.
Proof.
  intros Hok Hlive. specialize (Hok st). rewrite Hlive in Hok.
  destruct (exitCriterias s !! st) as [e|]; [|discriminate Hok].
  exists e. split; [reflexivity|]. simpl in Hok. congruence.
Qed.

(** [open] once the base class has answered with a success and the state is
    [STATE_START]: the call is [startStateMachine] and what follows it. *)
Lemma open_in_start callbacks lowerResult others s :
  currentState s = STATE_START ->
  stateMachineThread s = false ->
  let started :=
    others 0%nat
      (set_stateMachineThread true (set_currentState STATE_START (set_base callbacks s))) in
  open callbacks NRF_SUCCESS lowerResult others s =
  prepend [EvThreadStart; EvWait stateMachineChange None]
    (if stateMachineReady started then
       (let* p := exitCriterias_at STATE_START in
        let* _exitCriterias := dynamic_cast STATE_START p in
        modify (set_lastPacket []) >>
        modify (set_statusCallback true) >>
        emit EvLowerOpen >>
        if decide (lowerResult <> NRF_SUCCESS) then
          write_exit _exitCriterias set_ioResourceError >>
          emit (EvNotify stateMachineChange) >>
          ret NRF_ERROR_INTERNAL
        else
          write_exit _exitCriterias set_isOpened >>
          emit (EvNotify stateMachineChange) >>
          let* reached := waitForState STATE_ACTIVE OPEN_WAIT_TIMEOUT (others 1%nat) in
          if reached then ret NRF_SUCCESS else ret NRF_ERROR_TIMEOUT) started
     else Pending []).
Proof.
  intros Hst Hj started. unfold open, Transport_open.
  rewrite bind_assoc, bind_modify, bind_ret_l.
  destruct (decide (NRF_SUCCESS <> NRF_SUCCESS)) as [N|_]; [contradiction|].
  rewrite bind_gets. cbv beta. change (currentState (set_base callbacks s)) with (currentState s).
  destruct (decide (currentState s <> STATE_START)); [contradiction|].
  unfold startStateMachine, wait_on. mnorm.
  change (stateMachineThread (set_currentState _ (set_base callbacks s)))
    with (stateMachineThread s).
  rewrite Hj. cbn [negb]. mnorm. fold started. rewrite prepend_prepend.
  destruct (stateMachineReady started); [|reflexivity].
  rewrite bind_ret_l. reflexivity.
Qed.

(** X19. The outcomes of [open].  A failure of the base class is returned
    as it is, with nothing else done.  Outside [STATE_START] the answer is
    INTERNAL with only a log line: an instance that has left the start
    state cannot be opened again.  In [STATE_START] with the state-machine
    thread already joinable the call terminates the program.  Otherwise the
    thread is started and the call waits for it to be ready, for as long as
    it is not; then the lower transport is opened: its failure sets
    [ioResourceError] on the START record and gives INTERNAL, its success
    sets [isOpened], and the call waits OPEN_WAIT_TIMEOUT for the state and
    returns SUCCESS exactly when the state is then ACTIVE, TIMEOUT
    otherwise.  In both cases [lastPacket] has been emptied, the status
    callback bound, and nothing else written: the instance is given in
    full, up to what the other threads do during the last wait. *)
Theorem open_outcome (callbacks : Transport) (baseResult lowerResult : nrf_error_t)
    (others : interference) (s : H5Transport) :
  exit_table_ok s ->
  keeps_exit_classes (others 0%nat) ->
  let run := open callbacks baseResult lowerResult others s in
  let started :=
    others 0%nat
      (set_stateMachineThread true (set_currentState STATE_START (set_base callbacks s))) in
  (baseResult <> NRF_SUCCESS -> run = Ok baseResult (set_base callbacks s) []) /\
  (baseResult = NRF_SUCCESS -> currentState s <> STATE_START ->
   run = Ok NRF_ERROR_INTERNAL (set_base callbacks s) [EvLog]) /\
  (baseResult = NRF_SUCCESS -> currentState s = STATE_START ->
   stateMachineThread s = true -> run = Fault []) /\
  (baseResult = NRF_SUCCESS -> currentState s = STATE_START ->
   stateMachineThread s = false -> stateMachineReady started = false ->
   run = Pending [EvThreadStart; EvWait stateMachineChange None]) /\
  (baseResult = NRF_SUCCESS -> currentState s = STATE_START ->
   stateMachineThread s = false -> stateMachineReady started = true ->
   lowerResult <> NRF_SUCCESS ->
   exists s' e e1,
     run = Ok NRF_ERROR_INTERNAL s'
             [EvThreadStart; EvWait stateMachineChange None; EvLowerOpen;
              EvNotify stateMachineChange] /\
     exitCriterias s' !! STATE_START = Some e /\ ioResourceError e = true /\
     statusCallback s' = true /\ lastPacket s' = [] /\
     exitCriterias started !! STATE_START = Some e1 /\
     e = set_ioResourceError e1 /\
     s' = set_exitCriterias (<[STATE_START := e]> (exitCriterias started))
            (set_statusCallback true (set_lastPacket [] started))) /\
  (baseResult = NRF_SUCCESS -> currentState s = STATE_START ->
   stateMachineThread s = false -> stateMachineReady started = true ->
   lowerResult = NRF_SUCCESS ->
   exists r s' e1,
     run = Ok r s'
             [EvThreadStart; EvWait stateMachineChange None; EvLowerOpen;
              EvNotify stateMachineChange;
              EvWait stateWaitCondition (Some OPEN_WAIT_TIMEOUT)] /\
     r = (if bool_decide (currentState s' = STATE_ACTIVE)
          then NRF_SUCCESS else NRF_ERROR_TIMEOUT) /\
     exitCriterias started !! STATE_START = Some e1 /\
     s' = others 1%nat
            (set_exitCriterias
               (<[STATE_START := set_isOpened e1]> (exitCriterias started))
               (set_statusCallback true (set_lastPacket [] started)))).
Proof.
  intros Hok Hothers run started. subst run.
  assert (Hrecord : exists e1, exitCriterias started !! STATE_START = Some e1 /\
                               class_of e1 = STATE_START).
  { destruct (exit_table_lookup s STATE_START Hok eq_refl) as (e0 & He0 & Hc0).
    destruct (keeps_exit_classes_lookup (others 0%nat)
                (set_stateMachineThread true
                   (set_currentState STATE_START (set_base callbacks s)))
                STATE_START e0 Hothers He0) as (e1 & He1 & Hc1).
    exists e1. split; [exact He1 | congruence]. }
  destruct Hrecord as (e1 & He1 & Hc1).
  split; [|split; [|split; [|split; [|split]]]].
  - intros Hbase. unfold open, Transport_open.
    rewrite bind_assoc, bind_modify, bind_ret_l.
    destruct (decide (baseResult <> NRF_SUCCESS)); [reflexivity | contradiction].
  - intros -> Hst. unfold open, Transport_open.
    rewrite bind_assoc, bind_modify, bind_ret_l.
    destruct (decide (NRF_SUCCESS <> NRF_SUCCESS)) as [N|_]; [contradiction|].
    rewrite bind_gets. cbv beta. change (currentState (set_base callbacks s)) with (currentState s).
    destruct (decide (currentState s <> STATE_START)); [|contradiction].
    unfold log. rewrite bind_emit. reflexivity.
  - intros -> Hst Hj. unfold open, Transport_open.
    rewrite bind_assoc, bind_modify, bind_ret_l.
    destruct (decide (NRF_SUCCESS <> NRF_SUCCESS)) as [N|_]; [contradiction|].
    rewrite bind_gets. cbv beta. change (currentState (set_base callbacks s)) with (currentState s).
    destruct (decide (currentState s <> STATE_START)); [contradiction|].
    unfold startStateMachine. mnorm.
    change (stateMachineThread (set_currentState _ (set_base callbacks s)))
      with (stateMachineThread s).
    rewrite Hj. reflexivity.
  - intros -> Hst Hj Hready. rewrite (open_in_start callbacks lowerResult others s Hst Hj).
    fold started. rewrite Hready. reflexivity.
  - intros -> Hst Hj Hready Hlower.
    rewrite (open_in_start callbacks lowerResult others s Hst Hj).
    fold started. rewrite Hready.
    unfold exitCriterias_at, dynamic_cast.
    rewrite bind_gets. cbv beta. rewrite bind_gets. rewrite He1. cbv iota beta. rewrite He1.
    destruct (decide (class_of e1 = STATE_START)) as [_|N]; [|contradiction].
    rewrite bind_modify, bind_modify, bind_emit.
    destruct (decide (lowerResult <> NRF_SUCCESS)); [|contradiction].
    rewrite (bind_write_exit _ _ _ _ e1) by exact He1.
    rewrite bind_emit, !prepend_prepend.
    eexists _, (set_ioResourceError e1), e1. split; [reflexivity|].
    simpl. rewrite lookup_insert_eq.
    repeat split; try exact He1. destruct e1; reflexivity.
  - intros -> Hst Hj Hready ->.
    rewrite (open_in_start callbacks NRF_SUCCESS others s Hst Hj).
    fold started. rewrite Hready.
    unfold exitCriterias_at, dynamic_cast.
    rewrite bind_gets. cbv beta. rewrite bind_gets. rewrite He1. cbv iota beta. rewrite He1.
    destruct (decide (class_of e1 = STATE_START)) as [_|N]; [|contradiction].
    rewrite bind_modify, bind_modify, bind_emit.
    destruct (decide (NRF_SUCCESS <> NRF_SUCCESS)) as [N|_]; [contradiction|].
    rewrite (bind_write_exit _ _ _ _ e1) by exact He1.
    rewrite bind_emit. unfold waitForState, wait_on.
    rewrite !bind_assoc, bind_emit, bind_modify, bind_gets. cbv beta.
    rewrite !prepend_prepend.
    match goal with
    | |- context [bool_decide (currentState ?sf = STATE_ACTIVE)] =>
        exists (if bool_decide (currentState sf = STATE_ACTIVE)
                then NRF_SUCCESS else NRF_ERROR_TIMEOUT), sf, e1
    end.
    split; [|split; [reflexivity | split; [reflexivity | reflexivity]]].
    destruct (bool_decide _); reflexivity.
Qed.

End OpenClose.

(** ** The table of exit criteria never changes shape *)

Lemma exit_table_write f s st e :
  keeps_class f -> exit_table_ok s -> exitCriterias s !! st = Some e ->
  exit_table_ok (set_exitCriterias (<[st := f e]> (exitCriterias s)) s).
Proof.
  intros Hf Hok He st'. simpl. rewrite <- (Hok st').
  destruct (decide (st = st')) as [<-|Hne].
  - rewrite lookup_insert_eq, He. simpl. rewrite Hf. reflexivity.
  - rewrite lookup_insert_ne by exact Hne. reflexivity.
Qed.

Lemma exit_table_insert f (table : gmap h5_state_t ExitCriterias) st e :
  keeps_class f ->
  (forall st', class_of <$> (table !! st') = if no_exit_record st' then None else Some st') ->
  table !! st = Some e ->
  forall s, exit_table_ok (set_exitCriterias (<[st := f e]> table) s).
Proof.
  intros Hf Hok He s st'. simpl. rewrite <- (Hok st').
  destruct (decide (st = st')) as [<-|Hne].
  - rewrite lookup_insert_eq, He. simpl. rewrite Hf. reflexivity.
  - rewrite lookup_insert_ne by exact Hne. reflexivity.
Qed.

Lemma exit_table_frame : frame_invariant exit_table_ok.
Proof.
  constructor; try (intros; assumption).
  intros f s st e Hf Hok He. apply exit_table_write; assumption.
Qed.

Lemma exit_table_new interval : exit_table_ok (H5Transport_new interval).
Proof. intros st. destruct st; reflexivity. Qed.

Section TableInvariant.
Context {codec : Codec}.

Ltac table_side others_ok :=
  intros;
  first [ apply exit_table_write; [keeps_class_tac | assumption | assumption]
        | apply others_ok; assumption
        | assumption ].

Lemma close_exit_table errorCode1 errorCode2 :
  preserves exit_table_ok (close errorCode1 errorCode2).
Proof. unfold close. unfold_callees. preserves_with ltac:(table_side I). Qed.

Lemma open_exit_table callbacks baseResult lowerResult others :
  (forall k s, exit_table_ok s -> exit_table_ok (others k s)) ->
  preserves exit_table_ok (open callbacks baseResult lowerResult others).
Proof.
  intros Hothers. unfold open. unfold_callees.
  preserves_with ltac:(table_side Hothers).
Qed.

Lemma stateMachineWorker_exit_table (others : nat -> interference) fuel :
  (forall i k s, exit_table_ok s -> exit_table_ok (others i k s)) ->
  forall i, preserves exit_table_ok (stateMachineWorker fuel others i).
Proof.
  intros Hothers. induction fuel as [|fuel IH]; intros i; cbn [stateMachineWorker].
  - preserves_with ltac:(table_side I).
  - pose proof (stateActions_preserves _ exit_table_frame (others i) (Hothers i)) as Hact.
    pose proof (IH (S i)) as Hrest.
    unfold logStateTransition.
    apply preserves_bind; [apply preserves_gets | intros cur].
    destruct (bool_decide (cur <> STATE_FAILED) && bool_decide (cur <> STATE_CLOSED));
      [|apply preserves_ret].
    apply preserves_bind; [apply Hact | intros nextState].
    apply preserves_bind; [apply preserves_gets | intros from].
    apply preserves_bind; [apply preserves_emit | intros _].
    apply preserves_bind; [apply preserves_modify; intros; assumption | intros _].
    apply preserves_bind; [apply preserves_emit | intros _].
    exact Hrest.
Qed.

(** X20. The shape of the table of exit criteria is an invariant of the
    instance: the constructor builds one record of its own class for each
    of START, RESET, UNINITIALIZED, INITIALIZED and ACTIVE and none for the
    other states, and no method, handler or action ever adds, removes or
    replaces a record: [open], [close], [send], [dataHandler],
    [statusHandler], every state action and the loop of the state-machine
    thread only write flags of the records, provided the threads that run
    during their waits do no more. *)
Theorem exit_table_is_invariant :
  (forall interval, exit_table_ok (H5Transport_new interval)) /\
  (forall errorCode1 errorCode2, preserves exit_table_ok (close errorCode1 errorCode2)) /\
  (forall data, preserves exit_table_ok (dataHandler data)) /\
  (forall code, preserves exit_table_ok (statusHandler code)) /\
  (forall others : interference,
      (forall k s, exit_table_ok s -> exit_table_ok (others k s)) ->
      (forall callbacks baseResult lowerResult,
          preserves exit_table_ok (open callbacks baseResult lowerResult others)) /\
      (forall data, preserves exit_table_ok (send others data)) /\
      (forall st, preserves exit_table_ok (stateActions st others))) /\
  (forall others : nat -> interference,
      (forall i k s, exit_table_ok s -> exit_table_ok (others i k s)) ->
      forall fuel i, preserves exit_table_ok (stateMachineWorker fuel others i)).
Proof.
  split; [exact exit_table_new|].
  split; [exact close_exit_table|].
  split; [exact (dataHandler_preserves _ exit_table_frame)|].
  split; [exact (statusHandler_preserves _ exit_table_frame)|].
  split.
  - intros others Hothers. split; [|split].
    + intros. apply open_exit_table. exact Hothers.
    + exact (send_preserves _ exit_table_frame others Hothers).
    + exact (stateActions_preserves _ exit_table_frame others Hothers).
  - intros others Hothers fuel i. apply stateMachineWorker_exit_table. exact Hothers.
Qed.

End TableInvariant.

(** ** The second handshake state *)

Section HandshakeConfig.
Context {codec : Codec}.
Variable others : interference.
Hypothesis others_keep_exit_classes : forall k, keeps_exit_classes (others k).

(** X21. In [STATE_INITIALIZED] the action sends SYNC_CONFIG at least once
    and at most six times, each send followed by a wait of
    NON_ACTIVE_STATE_TIMEOUT on the state-change condition, and always
    returns.  It decides on its record by the priority order:
    ioResourceError gives FAILED, else close gives CLOSED, else
    syncConfigSent with syncConfigRspReceived gives ACTIVE.  When the record
    is not fulfilled at the end, all six attempts have been made,
    PKT_SEND_MAX_RETRIES_REACHED goes to the upper status callback (when one
    is registered), and the action returns FAILED. *)
Theorem initialized_sync_config_retransmission (s : H5Transport) :
  exit_table_ok s ->
  exists nextState s' tr e n,
    stateAction_INITIALIZED others s = Ok nextState s' tr /\
    exitCriterias s' !! STATE_INITIALIZED = Some e /\
    (1 <= n <= PACKET_RETRANSMISSIONS)%nat /\
    tr = concat (repeat (handshake_attempt CONTROL_PKT_SYNC_CONFIG) n) ++
         (if isFullfilled e then []
          else if upperStatusCallback (base s')
               then [EvUpperStatus PKT_SEND_MAX_RETRIES_REACHED] else []) /\
    nextState = next_state STATE_INITIALIZED e /\
    (ioResourceError e = true -> nextState = STATE_FAILED) /\
    (ioResourceError e = false -> close_flag e = true -> nextState = STATE_CLOSED) /\
    (ioResourceError e = false -> close_flag e = false ->
     syncConfigSent e = true -> syncConfigRspReceived e = true -> nextState = STATE_ACTIVE) /\
    (isFullfilled e = false -> n = PACKET_RETRANSMISSIONS /\ nextState = STATE_FAILED).
Proof.
  intros Hok. pose proof (Hok STATE_INITIALIZED) as Hrec. simpl in Hrec.
  destruct (exitCriterias s !! STATE_INITIALIZED) as [e0|] eqn:He0; [|discriminate].
  simpl in Hrec. injection Hrec as Hclass.
  unfold stateAction_INITIALIZED, exitCriterias_at, dynamic_cast.
  rewrite bind_gets. cbv beta. rewrite bind_gets. rewrite He0. cbv iota beta. rewrite He0.
  rewrite decide_True by exact Hclass.
  rewrite (bind_write_exit _ _ _ _ e0) by exact He0.
  assert (Hsent : keeps_class set_syncConfigSent) by (intros []; reflexivity).
  match goal with
  | |- context [bind (sync_loop _ _ _ _ _ _) _ ?s1] =>
      destruct (sync_loop_run others others_keep_exit_classes STATE_INITIALIZED CONTROL_PKT_SYNC_CONFIG
                  set_syncConfigSent (or_intror eq_refl) Hsent
                  PACKET_RETRANSMISSIONS 0%nat s1 (reset e0))
        as (remaining & s' & e & m & Hrun & He & Hc & Hm & Hend & Hpos);
        [simpl; apply lookup_insert_eq|]
  end.
  rewrite (bind_Ok _ _ _ _ _ _ Hrun).
  rewrite (bind_read_exit _ _ _ e) by exact He.
  assert (Hce : class_of e = STATE_INITIALIZED).
  { rewrite Hc. destruct e0; try discriminate; reflexivity. }
  assert (Hm1 : (1 <= m)%nat).
  { apply Hpos; [destruct e0; try discriminate; reflexivity | unfold PACKET_RETRANSMISSIONS; lia]. }
  destruct e as [| | |io c sent rsp|]; try discriminate. clear Hce Hrun.
  unfold PACKET_RETRANSMISSIONS in *. simpl.
  destruct io; simpl.
  { eexists _, s', _, (InitializedExitCriterias true c sent rsp), m.
    split; [reflexivity|].
    repeat split; try assumption; try (symmetry; apply app_nil_r); simpl; intros; subst;
      try discriminate; try reflexivity; try lia. }
  destruct c; simpl.
  { eexists _, s', _, (InitializedExitCriterias false true sent rsp), m.
    split; [reflexivity|].
    repeat split; try assumption; try (symmetry; apply app_nil_r); simpl; intros; subst;
      try discriminate; try reflexivity; try lia. }
  destruct (sent && rsp) eqn:Hsync; simpl.
  { eexists _, s', _, (InitializedExitCriterias false false sent rsp), m.
    split; [reflexivity|]. unfold next_state, success_edge. simpl. rewrite Hsync.
    repeat split; try assumption; try (symmetry; apply app_nil_r); simpl; intros; subst;
      try discriminate; try reflexivity; try lia. }
  simpl in Hend. rewrite Hsync in Hend. destruct Hend as [-> | Hfull]; [|discriminate].
  simpl. rewrite (bind_Ok _ _ _ _ _ _ (statusHandler_other PKT_SEND_MAX_RETRIES_REACHED s'
                                        ltac:(discriminate))).
  mrun. eexists _, s', _, (InitializedExitCriterias false false sent rsp), m.
  split; [reflexivity|]. unfold next_state, success_edge. simpl. rewrite Hsync.
  repeat split; try assumption; try (rewrite app_nil_r; reflexivity); simpl; intros; subst;
    try discriminate; try reflexivity; try lia.
Qed.

End HandshakeConfig.

(** ** The first two states *)

Section StartReset.
Context {codec : Codec}.

Lemma open_as_open_lower callbacks lowerResult others s :
  currentState s = STATE_START ->
  open callbacks NRF_SUCCESS lowerResult others s =
  (modify (set_base callbacks) >>
   startStateMachine (others 0%nat) >>
   open_lower lowerResult >>
   if decide (lowerResult <> NRF_SUCCESS) then ret NRF_ERROR_INTERNAL
   else
     let* reached := waitForState STATE_ACTIVE OPEN_WAIT_TIMEOUT (others 1%nat) in
     if reached then ret NRF_SUCCESS else ret NRF_ERROR_TIMEOUT) s.
Proof.
  intros Hst. unfold open, Transport_open, open_lower.
  rewrite bind_assoc, !bind_modify, bind_ret_l.
  destruct (decide (NRF_SUCCESS <> NRF_SUCCESS)) as [N|_]; [contradiction|].
  rewrite bind_gets. cbv beta. change (currentState (set_base callbacks s)) with (currentState s).
  destruct (decide (currentState s <> STATE_START)); [contradiction|].
  apply bind_ext. intros _ s1. rewrite !bind_assoc.
  apply bind_ext. intros p s2. rewrite !bind_assoc.
  apply bind_ext. intros exit s3. rewrite !bind_assoc.
  apply bind_ext. intros _ s4. rewrite !bind_assoc.
  apply bind_ext. intros _ s5. rewrite !bind_assoc.
  apply bind_ext. intros _ s6.
  destruct (decide (lowerResult <> NRF_SUCCESS)); rewrite !bind_assoc; reflexivity.
Qed.

Lemma lower_opened_record lowerResult s e :
  exitCriterias s !! STATE_START = Some e ->
  class_of e = STATE_START ->
  lower_opened lowerResult s =
  set_exitCriterias
    (<[STATE_START :=
         (if decide (lowerResult <> NRF_SUCCESS) then set_ioResourceError else set_isOpened) e]>
       (exitCriterias s))
    (set_statusCallback true (set_lastPacket [] s)).
Proof.
  intros He Hc. unfold lower_opened, open_lower, exitCriterias_at, dynamic_cast.
  rewrite bind_gets. cbv beta. rewrite bind_gets. rewrite He. cbv iota beta. rewrite He.
  rewrite decide_True by exact Hc.
  rewrite bind_modify, bind_modify, bind_emit.
  rewrite (bind_write_exit _ _ _ _ e) by exact He.
  reflexivity.
Qed.

Lemma stateAction_START_opened (lowerResult : nrf_error_t) (s : H5Transport) :
  exit_table_ok s ->
  exists s',
    stateAction_START (during 0 (lower_opened lowerResult)) s =
    Ok (if decide (lowerResult <> NRF_SUCCESS) then STATE_FAILED else STATE_RESET) s'
       [EvNotify stateMachineChange; EvWait stateMachineChange None] /\
    stateMachineReady s' = true /\
    statusCallback s' = true /\
    currentState s' = currentState s /\
    base s' = base s /\
    exit_table_ok s'.
Proof.
  intros Hok. state_record Hok STATE_START e0 He0 Hclass.
  unfold stateAction_START. enter_action e0 He0 Hclass.
  rewrite bind_modify, bind_emit. unfold wait_on.
  rewrite bind_assoc, bind_emit, bind_modify. cbv beta. rewrite during_at.
  rewrite (lower_opened_record lowerResult _ (reset e0))
    by first [simpl; apply lookup_insert_eq | destruct e0; try discriminate Hclass; reflexivity].
  match goal with
  | |- context [bind (read_exit _) _ ?s2] =>
      assert (Hok2 : exit_table_ok s2);
        [|erewrite (bind_read_exit _ _ s2) by (simpl; apply lookup_insert_eq)]
  end.
  { apply (exit_table_insert _ (<[STATE_START := reset e0]> (exitCriterias s)));
      [ destruct (decide (lowerResult <> NRF_SUCCESS)); keeps_class_tac
      | exact (exit_table_write reset s STATE_START e0 ltac:(keeps_class_tac) Hok He0)
      | apply lookup_insert_eq ]. }
  destruct e0; try discriminate Hclass.
  destruct (decide (lowerResult <> NRF_SUCCESS)); simpl;
    (eexists; split; [reflexivity|]); repeat split; exact Hok2.
Qed.

(** X22. The START action and [open].  The action makes the state machine
    ready and waits; when, during that wait, [open] has opened the lower
    transport and written the outcome to the START record, the action
    returns [STATE_RESET] after a success and [STATE_FAILED] after a
    failure of the lower transport, with [stateMachineReady] set and the
    status callback bound. *)
Theorem start_action_follows_open (lowerResult : nrf_error_t) (s : H5Transport) :
  exit_table_ok s ->
  exists s',
    stateAction_START (during 0 (lower_opened lowerResult)) s =
    Ok (if decide (lowerResult <> NRF_SUCCESS) then STATE_FAILED else STATE_RESET) s'
       [EvNotify stateMachineChange; EvWait stateMachineChange None] /\
    stateMachineReady s' = true /\
    statusCallback s' = true /\
    currentState s' = currentState s /\
    exit_table_ok s'.
Proof.
  intros Hok.
  destruct (stateAction_START_opened lowerResult s Hok)
    as (s' & Hrun & Hready & Hcb & Hst & _ & Hok').
  exists s'. auto.
Qed.

(** X23. The RESET action always returns.  It sends one RESET packet,
    reports RESET_PERFORMED through [statusHandler] when [open] has bound
    the status callback (and to the upper layer when it has one), sets
    [resetSent], waits once for RESET_WAIT_DURATION and sets [resetWait];
    then ioResourceError gives FAILED, else close gives CLOSED, else
    [resetSent] still set gives UNINITIALIZED.  So an undisturbed reset, and
    one during which packets arrive (the dispatcher sets no flag in this
    state), ends in [STATE_UNINITIALIZED]. *)
Theorem reset_action (others : interference) (s : H5Transport) :
  exit_table_ok s ->
  keeps_exit_classes (others 0%nat) ->
  exists nextState s' e,
    stateAction_RESET others s =
    Ok nextState s'
       ([EvLog; EvLowerSend reset_packet] ++
        (if statusCallback s && upperStatusCallback (base s)
         then [EvUpperStatus RESET_PERFORMED] else []) ++
        [EvWait stateMachineChange (Some RESET_WAIT_DURATION)]) /\
    exitCriterias s' !! STATE_RESET = Some e /\
    resetWait e = true /\
    nextState = next_state STATE_RESET e /\
    ((forall s1, exitCriterias s1 !! STATE_RESET =
                   Some (ResetExitCriterias false false true false) ->
                 exitCriterias (others 0%nat s1) !! STATE_RESET =
                   exitCriterias s1 !! STATE_RESET) ->
     nextState = STATE_UNINITIALIZED).
Proof.
  intros Hok Hothers. state_record Hok STATE_RESET e0 He0 Hclass.
  unfold stateAction_RESET. enter_action e0 He0 Hclass.
  unfold sendControlPacket, logPacket.
  rewrite !bind_assoc, bind_gets. cbv beta.
  rewrite !bind_assoc, bind_modify, bind_emit, bind_emit, bind_assoc, bind_gets. cbv beta.
  assert (Hstatus : forall s1 (k : unit -> M h5_state_t),
             bind (if statusCallback s1 then statusHandler RESET_PERFORMED else ret tt) k s1 =
             prepend (if statusCallback s1 && upperStatusCallback (base s1)
                      then [EvUpperStatus RESET_PERFORMED] else [])
                     (k tt s1)).
  { intros s1 k. destruct (statusCallback s1); simpl.
    - rewrite (bind_Ok _ _ _ _ _ _ (statusHandler_other RESET_PERFORMED s1
                                      ltac:(discriminate))).
      reflexivity.
    - rewrite bind_ret_l, prepend_nil. reflexivity. }
  rewrite Hstatus.
  match goal with
  | |- context [bind (write_exit _ set_resetSent) _ ?s1] =>
      rewrite (bind_write_exit _ _ _ s1 (reset e0)) by (simpl; apply lookup_insert_eq)
  end.
  unfold wait_on. rewrite bind_assoc, bind_emit, bind_modify. cbv beta.
  destruct e0 as [|io0 c0 sent0 wait0| | |]; try discriminate Hclass.
  cbn [reset set_resetSent].
  match goal with
  | |- context [others 0%nat ?sa] =>
      destruct (keeps_exit_classes_lookup (others 0%nat) sa STATE_RESET
                  (ResetExitCriterias false false true false) Hothers)
        as (e1 & He1 & Hc1); [simpl; apply lookup_insert_eq|];
      set (s2 := others 0%nat sa) in *
  end.
  rewrite (bind_write_exit _ _ _ _ e1) by exact He1.
  rewrite (bind_read_exit _ _ _ (set_resetWait e1)) by (simpl; apply lookup_insert_eq).
  destruct e1 as [|io c sent wait| | |]; try discriminate Hc1.
  cbn [set_resetWait ioResourceError close_flag resetSent resetWait andb].
  change (statusCallback (set_outgoingPacketCount _ _)) with (statusCallback s).
  change (base (set_outgoingPacketCount _ _)) with (base s).
  assert (Hres : exists nextState,
             (if io then ret STATE_FAILED
              else if c then ret STATE_CLOSED
              else if sent && true then ret STATE_UNINITIALIZED else ret STATE_FAILED)
               (set_exitCriterias
                  (<[STATE_RESET := ResetExitCriterias io c sent true]> (exitCriterias s2)) s2)
             = Ok nextState
                  (set_exitCriterias
                     (<[STATE_RESET := ResetExitCriterias io c sent true]> (exitCriterias s2)) s2)
                  [] /\
             nextState = next_state STATE_RESET (ResetExitCriterias io c sent true)).
  { destruct io, c, sent; eexists; split; reflexivity. }
  destruct Hres as (nextState & Hrun & Hnext).
  rewrite Hrun.
  exists nextState,
    (set_exitCriterias
       (<[STATE_RESET := ResetExitCriterias io c sent true]> (exitCriterias s2)) s2),
    (ResetExitCriterias io c sent true).
  split; [|split; [simpl; apply lookup_insert_eq | split; [reflexivity | split; [exact Hnext|]]]].
  - unfold reset_packet. simpl.
    destruct (statusCallback s && upperStatusCallback (base s)); reflexivity.
  - intros Hquiet. subst s2.
    match type of He1 with
    | exitCriterias (others 0%nat ?sa) !! _ = _ =>
        rewrite (Hquiet sa) in He1 by (simpl; apply lookup_insert_eq);
        simpl in He1; rewrite lookup_insert_eq in He1
    end.
    injection He1 as <- <- <- <-. exact Hnext.
Qed.

End StartReset.

(** ** Link establishment *)




Section LinkEstablishment.
Context {codec : Codec}.

Lemma dispatched_preserves (P : H5Transport -> Prop) packet :
  frame_invariant P -> forall s, P s -> P (dispatched packet s).
Proof.
  intros HP s Hs. unfold dispatched.
  destruct (processPacket packet s) as [[] s' tr | tr | tr] eqn:Hrun; try exact Hs.
  exact (processPacket_preserves P HP packet s tt s' tr Hs Hrun).
Qed.






End LinkEstablishment.

(** ** Two instances exchange a reliable packet *)

Lemma land7_mod8 (a : Z) : Z.land a 0x07 = a mod 8.
Proof. change 0x07 with (Z.ones 3). rewrite Z.land_ones by lia. reflexivity. Qed.

Section Exchange.
Context {codec : Codec}.

(** X25. A reliable packet from one instance to another, both in
    [STATE_ACTIVE], the receiver expecting the sequence number of the
    sender, over a codec that decodes the data frame and the ACK to what was
    encoded.  The receiver hands the payload to its upper layer once and
    answers with one ACK; when that ACK is dispatched at the sender during
    wait [k0] of its [send], the [send] has made [k0 + 1] transmissions and
    returns SUCCESS; and afterwards the sequence number of the sender and
    the acknowledgement number of the receiver agree again, both advanced by
    one modulo 8. *)
Theorem reliable_exchange (data : payload_t) (k0 : nat) (sender receiver : H5Transport) :
  currentState sender = STATE_ACTIVE ->
  currentState receiver = STATE_ACTIVE ->
  upperDataCallback (base receiver) = true ->
  ackNum receiver = seqNum sender ->
  let frame :=
    slip_encode
      (h5_encode data (seqNum sender) (ackNum sender) true true VENDOR_SPECIFIC_PACKET) in
  let ack := ack_packet ((seqNum sender + 1) mod 8) in
  decode_packet frame =
    Some (mkH5Header data (seqNum sender) (ackNum sender) true VENDOR_SPECIFIC_PACKET) ->
  decode_packet ack =
    Some (mkH5Header [] 0 ((seqNum sender + 1) mod 8) false ACK_PACKET) ->
  (k0 < PACKET_RETRANSMISSIONS)%nat ->
  exists receiver' tr sender',
    processPacket frame receiver = Ok tt receiver' tr /\
    upper_data tr = [data] /\
    lower_sends tr = [ack] /\
    send (dispatch_during k0 ack) data sender =
      Ok NRF_SUCCESS sender'
         (concat (repeat (send_attempt frame (retransmissionInterval sender)) (S k0))) /\
    seqNum sender' = (seqNum sender + 1) mod 8 /\
    ackNum receiver' = seqNum sender'.
Proof.
  intros Hsa Hsb Hcb Hsync frame ack Hframe Hack Hk0.
  destruct (decode_packet_Some _ _ Hframe) as (slipPayload & Hs & Hh).
  pose proof (processPacket_reliable_in_sequence frame slipPayload _ receiver
                Hs Hh eq_refl eq_refl Hsb Hcb (eq_sym Hsync)) as Hrecv.
  simpl h5Payload in Hrecv. rewrite land7_mod256, Hsync in Hrecv. fold ack in Hrecv.
  assert (Hsend : exists sender',
             send (dispatch_during k0 ack) data sender =
               Ok NRF_SUCCESS sender'
                  (concat (repeat (send_attempt frame (retransmissionInterval sender)) (S k0))) /\
             seqNum sender' = (seqNum sender + 1) mod 8).
  { unfold send. rewrite bind_gets. cbv beta. rewrite Hsa.
    destruct (decide (STATE_ACTIVE <> STATE_ACTIVE)) as [N|_]; [contradiction|].
    rewrite bind_gets. cbv beta. rewrite bind_gets. cbv beta.
    rewrite bind_modify, bind_modify. fold frame.
    match goal with
    | |- context [send_loop _ ?h5 _ _ ?s1] =>
        destruct (send_loop_acknowledged ack _ k0 Hack eq_refl h5
                    k0 0%nat PACKET_RETRANSMISSIONS s1)
          as (s' & Hrun & Hseq & _);
          [ reflexivity | exact Hk0 | simpl; rewrite Hsa; discriminate
          | simpl; symmetry; apply land7_mod8 | ]
    end.
    exists s'. split; [exact Hrun | exact Hseq]. }
  destruct Hsend as (sender' & Hrun & Hseq).
  eexists _, _, sender'. split; [exact Hrecv|].
  split; [reflexivity|]. split; [reflexivity|]. split; [exact Hrun|].
  split; [exact Hseq|]. rewrite Hseq. reflexivity.
Qed.

(** X26. The sequence numbers wrap.  After [n] calls, [n] at least one,
    [incrementSeqNum] leaves [seqNum] at its old value plus [n] modulo 8,
    whatever the old value, and [incrementAckNum] does the same to [ackNum];
    neither touches the other counter nor emits anything, and eight calls
    bring a counter that was in range back to its value. *)
Theorem sequence_numbers_wrap (n : nat) (s : H5Transport) :
  (0 < n)%nat ->
  (exists s',
      times n incrementSeqNum s = Ok tt s' [] /\
      seqNum s' = (seqNum s + Z.of_nat n) mod 8 /\ ackNum s' = ackNum s) /\
  (exists s',
      times n incrementAckNum s = Ok tt s' [] /\
      ackNum s' = (ackNum s + Z.of_nat n) mod 8 /\ seqNum s' = seqNum s) /\
  (n = 8%nat -> 0 <= seqNum s <= 7 -> 0 <= ackNum s <= 7 ->
   (forall s', times n incrementSeqNum s = Ok tt s' [] -> seqNum s' = seqNum s) /\
   (forall s', times n incrementAckNum s = Ok tt s' [] -> ackNum s' = ackNum s)).
Proof.
  intros Hn.
  assert (Hseq : forall n s, (0 < n)%nat ->
             exists s', times n incrementSeqNum s = Ok tt s' [] /\
                        seqNum s' = (seqNum s + Z.of_nat n) mod 8 /\ ackNum s' = ackNum s).
  { clear. induction n as [|n IH]; intros s Hn; [lia|].
    cbn [times]. unfold incrementSeqNum at 1.
    rewrite !bind_assoc, bind_modify, bind_modify. cbn [seqNum set_seqNum].
    rewrite land7_mod256.
    destruct n as [|n].
    - eexists. split; [reflexivity|]. split; reflexivity.
    - match goal with
      | |- context [times (S n) _ ?s1] =>
          destruct (IH s1 ltac:(lia)) as (s' & Hrun & Hs & Ha)
      end.
      exists s'. split; [exact Hrun|]. split; [|exact Ha].
      rewrite Hs. cbn [seqNum set_seqNum].
      rewrite Zplus_mod_idemp_l. f_equal. lia. }
  assert (Hack : forall n s, (0 < n)%nat ->
             exists s', times n incrementAckNum s = Ok tt s' [] /\
                        ackNum s' = (ackNum s + Z.of_nat n) mod 8 /\ seqNum s' = seqNum s).
  { clear. induction n as [|n IH]; intros s Hn; [lia|].
    cbn [times]. unfold incrementAckNum at 1.
    rewrite !bind_assoc, bind_modify, bind_modify. cbn [ackNum set_ackNum].
    rewrite land7_mod256.
    destruct n as [|n].
    - eexists. split; [reflexivity|]. split; reflexivity.
    - match goal with
      | |- context [times (S n) _ ?s1] =>
          destruct (IH s1 ltac:(lia)) as (s' & Hrun & Ha & Hs)
      end.
      exists s'. split; [exact Hrun|]. split; [|exact Hs].
      rewrite Ha. cbn [ackNum set_ackNum].
      rewrite Zplus_mod_idemp_l. f_equal. lia. }
  split; [exact (Hseq n s Hn)|]. split; [exact (Hack n s Hn)|].
  intros -> Hs Ha. split; intros s' Hrun.
  - destruct (Hseq 8%nat s ltac:(lia)) as (s1 & Hrun1 & Hs1 & _).
    rewrite Hrun1 in Hrun. injection Hrun as <-. rewrite Hs1.
    change (Z.of_nat 8) with (1 * 8). rewrite Z_mod_plus_full. apply Z.mod_small. lia.
  - destruct (Hack 8%nat s ltac:(lia)) as (s1 & Hrun1 & Ha1 & _).
    rewrite Hrun1 in Hrun. injection Hrun as <-. rewrite Ha1.
    change (Z.of_nat 8) with (1 * 8). rewrite Z_mod_plus_full. apply Z.mod_small. lia.
Qed.

End Exchange.

(** ** What moves the sequence counters and what reaches the upper layer *)

Ltac use_facts :=
  repeat match goal with
         | H : decide _ = _ |- _ => clear H
         end;
  repeat match goal with
         | H : slip_decode _ = _ |- _ => rewrite H
         | H : h5_decode _ = _ |- _ => rewrite H
         end;
  repeat match goal with
         | H : ?b = true |- context [?b] => rewrite H
         | H : ?b = false |- context [?b] => rewrite H
         | |- context [bool_decide ?P] =>
             first [ rewrite (bool_decide_eq_true_2 P) by congruence
                   | rewrite (bool_decide_eq_false_2 P) by congruence ]
         end.

Section DispatchEffects.
Context {codec : Codec}.

(** X27. The effects of a dispatch, for every frame and every instance.  A
    payload reaches the upper layer exactly when the frame decodes to a
    reliable VENDOR_SPECIFIC packet whose sequence number is [ackNum], the
    state is [STATE_ACTIVE] and a data callback is registered, and then it
    is the payload of that packet, once; unreliable packets and packets of
    every other type are never delivered.  [ackNum] moves, by one modulo 8,
    for exactly those packets, and [seqNum] moves, by one modulo 8, exactly
    for an ACK whose number is the successor of [seqNum], in any state but
    [STATE_RESET]. *)
Theorem dispatch_effects (packet : payload_t) (s : H5Transport) :
  upper_data (trace_of (processPacket packet s)) =
    match decode_packet packet with
    | Some hdr =>
        if delivers hdr s && upperDataCallback (base s) then [h5Payload hdr] else []
    | None => []
    end /\
  forall s' tr,
    processPacket packet s = Ok tt s' tr ->
    ackNum s' =
      match decode_packet packet with
      | Some hdr => if delivers hdr s then (ackNum s + 1) mod 8 else ackNum s
      | None => ackNum s
      end /\
    seqNum s' =
      match decode_packet packet with
      | Some hdr => if acknowledges hdr s then (seqNum s + 1) mod 8 else seqNum s
      | None => seqNum s
      end.
Proof.
  set (up := match decode_packet packet with
             | Some hdr =>
                 if delivers hdr s && upperDataCallback (base s) then [h5Payload hdr] else []
             | None => []
             end).
  set (ack := match decode_packet packet with
              | Some hdr => if delivers hdr s then (ackNum s + 1) mod 8 else ackNum s
              | None => ackNum s
              end).
  set (seq := match decode_packet packet with
              | Some hdr => if acknowledges hdr s then (seqNum s + 1) mod 8 else seqNum s
              | None => seqNum s
              end).
  unfold processPacket. unfold_methods.
  run_cases; simpl;
    (split; [|intros s' tr H; try discriminate H; injection H as <- <-; simpl; split]);
    subst up ack seq; unfold decode_packet, delivers, acknowledges; use_facts; simpl;
    rewrite ?andb_false_r;
    try reflexivity; try (rewrite land7_mod256; reflexivity);
    try match goal with
        | H : None = Some _ |- _ => discriminate H
        | H : Some _ = None |- _ => discriminate H
        end.
Qed.

End DispatchEffects.

(** ** What the debug texts tell *)

Lemma hex_value_digit (d : Z) : 0 <= d < 16 -> hex_value (hex_digit d) = d.
Proof.
  intros Hd.
  assert (Hcases : d = 0 \/ d = 1 \/ d = 2 \/ d = 3 \/ d = 4 \/ d = 5 \/ d = 6 \/ d = 7 \/
                   d = 8 \/ d = 9 \/ d = 10 \/ d = 11 \/ d = 12 \/ d = 13 \/ d = 14 \/
                   d = 15) by lia.
  repeat (destruct Hcases as [-> | Hcases]; [reflexivity |]).
  subst d. reflexivity.
Qed.

Lemma hex_digits_byte (b c : Z) :
  0 <= b < 256 -> 0 <= c < 256 ->
  hex_digit (b / 16) = hex_digit (c / 16) ->
  hex_digit (b mod 16) = hex_digit (c mod 16) ->
  b = c.
Proof.
  intros Hb Hc Hhigh Hlow.
  apply (f_equal hex_value) in Hhigh, Hlow.
  assert (Hbh : 0 <= b / 16 < 16) by (split; [apply Z.div_pos | apply Z.div_lt_upper_bound]; lia).
  assert (Hch : 0 <= c / 16 < 16) by (split; [apply Z.div_pos | apply Z.div_lt_upper_bound]; lia).
  assert (Hbl : 0 <= b mod 16 < 16) by (apply Z.mod_pos_bound; lia).
  assert (Hcl : 0 <= c mod 16 < 16) by (apply Z.mod_pos_bound; lia).
  rewrite !hex_value_digit in Hhigh by assumption.
  rewrite !hex_value_digit in Hlow by assumption.
  rewrite (Z.div_mod b 16), (Z.div_mod c 16) by lia.
  rewrite Hhigh, Hlow. reflexivity.
Qed.

Lemma config_version_bits (config : Z) : Z.shiftr (Z.land config 0x0e) 5 = 0.
Proof.
  apply Z.bits_inj'. intros n Hn.
  rewrite Z.shiftr_spec, Z.land_spec, Z.bits_0 by lia.
  rewrite (Z.bits_above_log2 0x0e (n + 5)).
  - apply andb_false_r.
  - lia.
  - change (Z.log2 0x0e) with 3. lia.
Qed.

Lemma config_integrity_bits (config : Z) :
  Z.land config 0x0f = 0 <-> Z.land config 0x07 = 0 /\ Z.land config 0x08 = 0.
Proof.
  change 0x0f with (Z.lor 0x07 0x08).
  rewrite Z.land_lor_distr_r. apply Z.lor_eq_0_iff.
Qed.

(** X28. The text [asHex] gives for a payload tells the payload: two
    vectors of bytes that are printed alike are the same vector, so a log
    line loses nothing of the payload it shows. *)
Theorem asHex_injective (p q : payload_t) :
  Forall (fun b => 0 <= b < 256) p ->
  Forall (fun b => 0 <= b < 256) q ->
  asHex p = asHex q ->
  p = q.
Proof.
  intros Hp. revert q.
  induction Hp as [|b p Hb Hp IH]; intros q Hq Htext.
  - destruct q as [|c q]; [reflexivity | discriminate Htext].
  - destruct Hq as [|c q Hc Hq]; [discriminate Htext |].
    cbn [asHex fold_right] in Htext.
    injection Htext as Hhigh Hlow Hrest.
    f_equal.
    + exact (hex_digits_byte b c Hb Hc Hhigh Hlow).
    + exact (IH q Hq Hrest).
Qed.

(** X29. The fields of the text of a configuration byte.  The version
    number is printed as 0 for every byte, since the bits the mask [0x0e]
    keeps are all shifted out; and the data-integrity field tests the bits
    of the two fields before it, so it reads 0 exactly when the window
    size and the out-of-frame field both read 0. *)
Theorem configToString_fields (config : Z) :
  exists window frame integrity : string,
    configToString config =
      (" sliding-window-size:" +:+ window +:+
       " out-of-frame:" +:+ frame +:+
       " data-integrity-check-type:" +:+ integrity +:+
       " version-number:0 ")%string /\
    window = pretty (config mod 8) /\
    (frame = "0"%string \/ frame = "1"%string) /\
    (integrity = "0"%string \/ integrity = "1"%string) /\
    (integrity = "0"%string <-> window = "0"%string /\ frame = "0"%string).
Proof.
  exists (pretty (Z.land config 0x07)),
         (flag_text (negb (Z.land config 0x08 =? 0))),
         (flag_text (negb (Z.land config 0x0f =? 0))).
  assert (Hwindow : pretty (Z.land config 0x07) = "0"%string <-> Z.land config 0x07 = 0).
  { split; intros H.
    - apply (inj pretty). exact H.
    - rewrite H. reflexivity. }
  pose proof (config_integrity_bits config) as Hbits.
  split; [| split; [| split; [| split]]].
  - unfold configToString. rewrite config_version_bits. reflexivity.
  - change 0x07 with (Z.ones 3). rewrite Z.land_ones by lia. reflexivity.
  - destruct (Z.land config 0x08 =? 0); [left | right]; reflexivity.
  - destruct (Z.land config 0x0f =? 0); [left | right]; reflexivity.
  - rewrite Hwindow.
    destruct (Z.eqb_spec (Z.land config 0x0f) 0) as [H15 | H15];
      destruct (Z.eqb_spec (Z.land config 0x08) 0) as [H8 | H8]; simpl.
    + split; [intros _; split; [tauto | reflexivity] | reflexivity].
    + tauto.
    + split; [discriminate | intros [H7 _]; tauto].
    + split; [discriminate | intros [_ H]; discriminate H].
Qed.

Ltac payload_cases :=
  repeat match goal with
         | |- context [?x =? ?y] => destruct (Z.eqb_spec x y); subst; simpl
         end.

(** X30. The text of a link-control payload reads the third byte of a
    config message with no test that there is one.  The read goes past the
    end of the vector exactly for the two payloads of two bytes that start
    like a config message or its response; every other payload has a text,
    among them each payload that [sendControlPacket] sends, and a payload of
    fewer than two bytes has the empty text. *)
Theorem link_control_text_past_end `{codec : Codec} (payload : payload_t) :
  (hciPacketLinkControlToString payload = None <->
   payload = [0x03; 0xfc] \/ payload = [0x04; 0x7b]) /\
  (forall type, hciPacketLinkControlToString (pkt_pattern type) <> None) /\
  ((length payload < 2)%nat -> hciPacketLinkControlToString payload = Some ""%string).
Proof.
  split; [| split].
  - destruct payload as [|a [|b [|c rest]]].
    + split; [discriminate | intros [H | H]; discriminate H].
    + split; [discriminate | intros [H | H]; discriminate H].
    + unfold hciPacketLinkControlToString, isSyncPacket, isSyncResponsePacket,
        isSyncConfigPacket, isSyncConfigResponsePacket, checkPattern.
      simpl. payload_cases;
        (split;
         [ intros H; first [discriminate H | left; reflexivity | right; reflexivity]
         | intros [H | H]; first [reflexivity | congruence] ]).
    + split; [| intros [H | H]; discriminate H].
      unfold hciPacketLinkControlToString, isSyncPacket, isSyncResponsePacket,
        isSyncConfigPacket, isSyncConfigResponsePacket, checkPattern.
      simpl. payload_cases; discriminate.
  - intros []; discriminate.
  - intros Hshort. unfold hciPacketLinkControlToString.
    destruct (Nat.leb_spec 2 (length payload)) as [Hlong | _]; [lia | reflexivity].
Qed.

Lemma uninitialized_completed_by_peer_witness :
  exists s',
    stateAction_UNINITIALIZED (codec := sample_codec)
      (dispatch_during (codec := sample_codec) 1
         (link_control_packet (codec := sample_codec) CONTROL_PKT_SYNC_RESPONSE))
      sample_uninitialized =
    Ok STATE_INITIALIZED s'
       (concat (repeat (handshake_attempt (codec := sample_codec) CONTROL_PKT_SYNC) 2)).
Proof.
  apply (uninitialized_completed_by_peer (codec := sample_codec)
           (link_control_packet (codec := sample_codec) CONTROL_PKT_SYNC_RESPONSE)
           (mkH5Header [0x02; 0x7d] 0 0 false LINK_CONTROL_PACKET) 1 sample_uninitialized).
  - exact sample_exit_table_ok.
  - reflexivity.
  - reflexivity.
  - reflexivity.
  - reflexivity.
  - unfold PACKET_RETRANSMISSIONS. lia.
Defined.


Lemma active_left_on_peer_restart_witness :
  exists s',
    stateAction_ACTIVE
      (dispatch_during (codec := sample_codec) 0
         (link_control_packet (codec := sample_codec) CONTROL_PKT_SYNC))
      sample_active =
    Ok STATE_RESET s'
       ((if upperStatusCallback (base sample_active)
         then [EvUpperStatus CONNECTION_ACTIVE] else []) ++
        [EvWait stateMachineChange None]) /\
    seqNum s' = 0 /\ ackNum s' = 0.
Proof.
  apply (active_left_on_peer_restart (codec := sample_codec)
           (link_control_packet (codec := sample_codec) CONTROL_PKT_SYNC)
           (mkH5Header [0x01; 0x7e] 0 0 false LINK_CONTROL_PACKET) sample_active).
  - exact sample_active_table_ok.
  - reflexivity.
  - reflexivity.
  - left. split; reflexivity.
Defined.

Lemma send_acknowledged_by_peer_witness :
  let encodedPacket :=
    slip_encode (Codec := sample_codec)
      (h5_encode (Codec := sample_codec) [0x01; 0x02] (seqNum sample_active)
         (ackNum sample_active) true true VENDOR_SPECIFIC_PACKET) in
  exists s',
    send (codec := sample_codec)
      (dispatch_during (codec := sample_codec) 2 (ack_packet (codec := sample_codec) 1))
      [0x01; 0x02] sample_active =
    Ok NRF_SUCCESS s'
       (concat (repeat (send_attempt encodedPacket (retransmissionInterval sample_active)) 3)) /\
    seqNum s' = (seqNum sample_active + 1) mod 8 /\
    ackNum s' = ackNum sample_active /\
    lastPacket s' = [].
Proof.
  apply (send_acknowledged_by_peer (codec := sample_codec) [0x01; 0x02]
           (ack_packet (codec := sample_codec) 1)
           (mkH5Header [] 0 1 false ACK_PACKET) 2 sample_active).
  - reflexivity.
  - reflexivity.
  - reflexivity.
  - reflexivity.
  - unfold PACKET_RETRANSMISSIONS. lia.
Defined.

Lemma sample_initialized_table_ok : exit_table_ok sample_initialized.
Proof. intros st. destruct st; reflexivity. Qed.

Lemma sample_quiet_keeps_classes k : keeps_exit_classes (sample_quiet k).
Proof. intros s st. reflexivity. Qed.

Lemma shutdown_ends_state_machine_witness :
  exists s' tr,
    stateMachineWorker (codec := sample_codec) 4
      (fun _ => during 2 (shutdown_seen CloseCalled)) 0 sample_initialized = Ok tt s' tr /\
    currentState s' = shutdown_state CloseCalled /\
    transitions tr = [(STATE_INITIALIZED, shutdown_state CloseCalled)].
Proof.
  apply (shutdown_ends_state_machine (codec := sample_codec) CloseCalled
           STATE_INITIALIZED 2 3 0 sample_initialized).
  - exact sample_initialized_table_ok.
  - reflexivity.
  - reflexivity.
  - simpl. unfold PACKET_RETRANSMISSIONS. lia.
Defined.


Lemma open_outcome_witness :
  exists r s' e1,
    open (mkTransport true true true) NRF_SUCCESS NRF_SUCCESS
      sample_worker_reaches_active (H5Transport_new 250) =
    Ok r s'
       [EvThreadStart; EvWait stateMachineChange None; EvLowerOpen;
        EvNotify stateMachineChange;
        EvWait stateWaitCondition (Some OPEN_WAIT_TIMEOUT)] /\
    r = (if bool_decide (currentState s' = STATE_ACTIVE)
         then NRF_SUCCESS else NRF_ERROR_TIMEOUT) /\
    exitCriterias
      (sample_worker_reaches_active 0%nat
         (set_stateMachineThread true
            (set_currentState STATE_START
               (set_base (mkTransport true true true) (H5Transport_new 250)))))
      !! STATE_START = Some e1 /\
    s' = sample_worker_reaches_active 1%nat
           (set_exitCriterias
              (<[STATE_START := set_isOpened e1]>
                 (exitCriterias
                    (sample_worker_reaches_active 0%nat
                       (set_stateMachineThread true
                          (set_currentState STATE_START
                             (set_base (mkTransport true true true)
                                (H5Transport_new 250)))))))
              (set_statusCallback true
                 (set_lastPacket []
                    (sample_worker_reaches_active 0%nat
                       (set_stateMachineThread true
                          (set_currentState STATE_START
                             (set_base (mkTransport true true true)
                                (H5Transport_new 250)))))))).
Proof.
  apply (open_outcome (mkTransport true true true)
           NRF_SUCCESS NRF_SUCCESS sample_worker_reaches_active (H5Transport_new 250)
           (exit_table_new 250) (fun s st => eq_refl));
    reflexivity.
Defined.

Lemma initialized_sync_config_retransmission_witness :
  exists nextState s' tr e n,
    stateAction_INITIALIZED (codec := sample_codec) sample_quiet sample_initialized =
      Ok nextState s' tr /\
    exitCriterias s' !! STATE_INITIALIZED = Some e /\
    (1 <= n <= PACKET_RETRANSMISSIONS)%nat /\
    nextState = next_state STATE_INITIALIZED e.
Proof.
  destruct (initialized_sync_config_retransmission (codec := sample_codec)
              sample_quiet sample_quiet_keeps_classes
              sample_initialized sample_initialized_table_ok)
    as (nextState & s' & tr & e & n & Hrun & He & Hn & _ & Hnext & _).
  exists nextState, s', tr, e, n. auto.
Defined.

Lemma start_action_follows_open_witness :
  exists s',
    stateAction_START (during 0 (lower_opened NRF_ERROR_INTERNAL)) (H5Transport_new 250) =
    Ok (if decide (NRF_ERROR_INTERNAL <> NRF_SUCCESS) then STATE_FAILED else STATE_RESET) s'
       [EvNotify stateMachineChange; EvWait stateMachineChange None] /\
    stateMachineReady s' = true /\
    statusCallback s' = true /\
    currentState s' = currentState (H5Transport_new 250) /\
    exit_table_ok s'.
Proof.
  apply (start_action_follows_open NRF_ERROR_INTERNAL (H5Transport_new 250)).
  exact (exit_table_new 250).
Defined.

Lemma reset_action_witness :
  exists nextState s' e,
    stateAction_RESET (codec := sample_codec) sample_quiet
      (set_currentState STATE_RESET sample_active) =
    Ok nextState s'
       ([EvLog; EvLowerSend (reset_packet (codec := sample_codec))] ++
        (if statusCallback (set_currentState STATE_RESET sample_active) &&
            upperStatusCallback (base (set_currentState STATE_RESET sample_active))
         then [EvUpperStatus RESET_PERFORMED] else []) ++
        [EvWait stateMachineChange (Some RESET_WAIT_DURATION)]) /\
    exitCriterias s' !! STATE_RESET = Some e /\
    resetWait e = true /\
    nextState = next_state STATE_RESET e.
Proof.
  destruct (reset_action (codec := sample_codec) sample_quiet
              (set_currentState STATE_RESET sample_active)
              ltac:(intros st; destruct st; reflexivity)
              (sample_quiet_keeps_classes 0))
    as (nextState & s' & e & Hrun & He & Hwait & Hnext & _).
  exists nextState, s', e. auto.
Defined.


Lemma reliable_exchange_witness :
  let frame :=
    slip_encode (Codec := sample_codec)
      (h5_encode (Codec := sample_codec) [0x01; 0x02] (seqNum sample_active)
         (ackNum sample_active) true true VENDOR_SPECIFIC_PACKET) in
  let ack := ack_packet (codec := sample_codec) ((seqNum sample_active + 1) mod 8) in
  exists receiver' tr sender',
    processPacket (codec := sample_codec) frame sample_active = Ok tt receiver' tr /\
    upper_data tr = [[0x01; 0x02]] /\
    lower_sends tr = [ack] /\
    send (codec := sample_codec) (dispatch_during (codec := sample_codec) 1 ack)
      [0x01; 0x02] sample_active =
      Ok NRF_SUCCESS sender'
         (concat (repeat (send_attempt frame (retransmissionInterval sample_active)) 2)) /\
    seqNum sender' = (seqNum sample_active + 1) mod 8 /\
    ackNum receiver' = seqNum sender'.
Proof.
  apply (reliable_exchange (codec := sample_codec) [0x01; 0x02] 1 sample_active sample_active);
    first [ reflexivity | unfold PACKET_RETRANSMISSIONS; lia ].
Defined.

Lemma sequence_numbers_wrap_witness :
  exists s',
    times 8 incrementSeqNum sample_active = Ok tt s' [] /\
    seqNum s' = (seqNum sample_active + Z.of_nat 8) mod 8 /\
    ackNum s' = ackNum sample_active.
Proof.
  apply (sequence_numbers_wrap 8 sample_active). lia.
Defined.

Lemma asHex_injective_witness :
  asHex [0x03; 0xfc; 0x11] = "03 fc 11 "%string /\
  ([0x03; 0xfc; 0x11] : payload_t) = [0x03; 0xfc; 0x11].
Proof.
  split; [reflexivity |].
  apply (asHex_injective [0x03; 0xfc; 0x11] [0x03; 0xfc; 0x11]).
  - repeat (constructor; [lia |]). constructor.
  - repeat (constructor; [lia |]). constructor.
  - reflexivity.
Defined.

Lemma sample_session_keeps_currentState i k s :
  currentState (sample_session i k s) = currentState s.
Proof.
  assert (Hdispatch : forall k0 packet,
             currentState (dispatch_during (codec := sample_codec) k0 packet k s)
             = currentState s).
  { intros k0 packet. unfold dispatch_during, during.
    destruct (k =? k0)%nat; [|reflexivity].
    apply (dispatched_preserves (fun x => currentState x = currentState s) packet
             (currentState_frame (currentState s)) s eq_refl). }
  destruct i as [|[|[|[|[|i]]]]]; simpl; try reflexivity; try apply Hdispatch.
  - unfold during. destruct (k =? 0)%nat; [|reflexivity].
    destruct (exitCriterias s !! STATE_START) as [e|] eqn:He.
    + destruct (decide (class_of e = STATE_START)) as [Hc|Hc].
      * rewrite (lower_opened_record NRF_SUCCESS s e He Hc). reflexivity.
      * unfold lower_opened, open_lower, exitCriterias_at, dynamic_cast.
        rewrite bind_gets. cbv beta. rewrite bind_gets. rewrite He. cbv iota beta.
        rewrite He. rewrite decide_False by exact Hc.
        unfold write_exit. mnorm. reflexivity.
    + unfold lower_opened, open_lower, exitCriterias_at, dynamic_cast.
      rewrite bind_gets. cbv beta. rewrite bind_gets. rewrite He. cbv iota beta.
      unfold write_exit. mnorm. reflexivity.
  - unfold during, close_requested. destruct (k =? 0)%nat; [|reflexivity].
    destruct (exitCriterias s !! currentState s); reflexivity.
Qed.

Lemma currentState_moves_along_edges_witness :
  exists s' tr,
    stateMachineWorker (codec := sample_codec) 5 sample_session 0 (H5Transport_new 250)
      = Ok tt s' tr /\
    transitions tr =
      [(STATE_START, STATE_RESET); (STATE_RESET, STATE_UNINITIALIZED);
       (STATE_UNINITIALIZED, STATE_INITIALIZED); (STATE_INITIALIZED, STATE_ACTIVE);
       (STATE_ACTIVE, STATE_CLOSED)] /\
    path STATE_START (transitions tr) STATE_CLOSED /\
    currentState s' = STATE_CLOSED.
Proof.
  destruct (proj1 (proj2 (currentState_moves_along_edges (codec := sample_codec)
                            sample_session sample_session_keeps_currentState
                            5%nat 0%nat (H5Transport_new 250))))
    as (st' & Hpath & Hend).
  destruct (stateMachineWorker (codec := sample_codec) 5 sample_session 0
              (H5Transport_new 250)) as [[] s' tr | tr | tr] eqn:Hrun.
  - exists s', tr. split; [reflexivity|].
    destruct (Hend s' tr eq_refl) as [Hcur Hterminal].
    assert (Htr : transitions tr =
      [(STATE_START, STATE_RESET); (STATE_RESET, STATE_UNINITIALIZED);
       (STATE_UNINITIALIZED, STATE_INITIALIZED); (STATE_INITIALIZED, STATE_ACTIVE);
       (STATE_ACTIVE, STATE_CLOSED)]).
    { vm_compute in Hrun. injection Hrun as _ <-. vm_compute. reflexivity. }
    split; [exact Htr|].
    cbn [trace_of] in Hpath. change (currentState (H5Transport_new 250)) with STATE_START in Hpath.
    assert (Hst : st' = STATE_CLOSED).
    { rewrite Htr in Hpath. simpl in Hpath.
      destruct Hpath as (_ & _ & _ & _ & _ & _ & _ & _ & _ & _ & H).
      symmetry. exact H. }
    rewrite Hst in Hpath, Hcur. split; [exact Hpath | exact Hcur].
  - vm_compute in Hrun. discriminate Hrun.
  - vm_compute in Hrun. discriminate Hrun.
Defined.
